(** * BookSwap: the exchange-request lifecycle over the SQLite store

    A shallow embedding of the backend's data-access objects
    ([BookListingsDao.ts], [ExchangeRequestsDao.ts], [UserDao.ts]), of the
    services that wrap them ([ExchangeService], [BooksService],
    [UserService]) and of the [PUT /exchanges/:id/accept] route of
    [controller.js].

    A table is the list of its rows in rowid order.  [SELECT ... get()] is the
    first row that satisfies the [WHERE] clause, [all()] is the rows that
    satisfy it, [UPDATE] maps over the rows, [DELETE] filters them out and
    [changes] counts the rows a statement touched.  JavaScript exceptions are
    a class name and a message; a DAO method is a function from the database
    to a result and the database it leaves behind. *)

From stdpp Require Import base decidable option numbers list strings pretty
  sorting.

Local Open Scope Z_scope.
Local Open Scope string_scope.

(** ** Rows *)

(** [users]: the columns the exchange routes read ([user_id], [username]);
    the profile columns are never consulted by the code modelled here. *)
Module User.
Record t := mk { user_id : Z; username : string }.

Global Instance eq_dec : EqDecision t.
Proof. solve_decision. Defined.
End User.

(** [book_listings], as [interface BookListing]. *)
Module BookListing.
Record t := mk {
  listing_id : Z;
  description : string;
  list_on_date : Z;
  user_id : Z;
  book_id : Z
}.

Global Instance eq_dec : EqDecision t.
Proof. solve_decision. Defined.
End BookListing.

(** [exchange_requests], as [interface ExchangeRequest]. *)
Module ExchangeRequest.
Record t := mk {
  request_id : Z;
  requestee_listing_id : Z;
  requester_listing_id : Z;
  status : string;
  request_date : Z
}.

Global Instance eq_dec : EqDecision t.
Proof. solve_decision. Defined.

Definition set_status (s : string) (r : t) : t :=
  mk (request_id r) (requestee_listing_id r) (requester_listing_id r) s
     (request_date r).

(** Every column but [status]. *)
Definition frame (r : t) : Z * Z * Z * Z :=
  (request_id r, requestee_listing_id r, requester_listing_id r,
   request_date r).
End ExchangeRequest.

(** [Omit<ExchangeRequest, 'request_id'>]; [request_date] may be null, which
    [createExchangeRequest] replaces by the clock. *)
Record NewExchangeRequest := {
  new_requestee_listing_id : Z;
  new_requester_listing_id : Z;
  new_status : string;
  new_request_date : option Z
}.

(** [Partial<Omit<BookListing, 'listing_id'>>]: a field is [None] when the
    key is absent from the object. *)
Record BookListingUpdates := {
  upd_description : option string;
  upd_list_on_date : option Z;
  upd_user_id : option Z;
  upd_book_id : option Z
}.

(** [Partial<Omit<ExchangeRequest, 'request_id'>>]. *)
Record ExchangeRequestUpdates := {
  upd_requestee_listing_id : option Z;
  upd_requester_listing_id : option Z;
  upd_status : option string;
  upd_request_date : option Z
}.

(** [Omit<BookListing, 'listing_id'>]; [list_on_date] may be null, which
    [createBookListing] replaces by the clock. *)
Record NewBookListing := {
  new_description : string;
  new_list_on_date : option Z;
  new_user_id : Z;
  new_book_id : Z
}.

(** ** The database

    [database.db] as the DAOs see it.  [foreign_keys] is the connection's
    foreign-key enforcement: [DatabaseInit.sql] declares
    [exchange_requests.requestee_listing_id] and [requester_listing_id]
    [REFERENCES book_listings(listing_id) ON DELETE CASCADE] and
    [book_listings.user_id], [book_id] as references to [users] and [books];
    SQLite applies these clauses only while enforcement is on, and
    better-sqlite3 opens its connections with it on
    (SQLITE_DEFAULT_FOREIGN_KEYS=1).  No statement of the program changes it.
    [books] holds the [book_id]s of the [books] table, and
    [exchange_requests_seq] is the AUTOINCREMENT counter that
    [sqlite_sequence] keeps for [exchange_requests]. *)
Record Database := {
  foreign_keys : bool;
  users : list User.t;
  books : list Z;
  book_listings : list BookListing.t;
  exchange_requests : list ExchangeRequest.t;
  exchange_requests_seq : Z
}.

Definition with_book_listings (ls : list BookListing.t) (db : Database) :=
  {| foreign_keys := foreign_keys db; users := users db; books := books db;
     book_listings := ls;
     exchange_requests := exchange_requests db;
     exchange_requests_seq := exchange_requests_seq db |}.

Definition with_exchange_requests (rs : list ExchangeRequest.t)
    (db : Database) :=
  {| foreign_keys := foreign_keys db; users := users db; books := books db;
     book_listings := book_listings db;
     exchange_requests := rs;
     exchange_requests_seq := exchange_requests_seq db |}.

Definition with_exchange_requests_seq (n : Z) (db : Database) :=
  {| foreign_keys := foreign_keys db; users := users db; books := books db;
     book_listings := book_listings db;
     exchange_requests := exchange_requests db;
     exchange_requests_seq := n |}.

(** ** Exceptions and the DAO monad *)

Inductive ErrorClass :=
  | BookListingNotFoundError
  | CreateBookListingError
  | UpdateBookListingError
  | ExchangeRequestNotFoundError
  | CreateExchangeRequestError
  | UpdateExchangeRequestError
  | UserNotFoundError
  | SqliteError
  | PlainError.

Global Instance ErrorClass_eq_dec : EqDecision ErrorClass.
Proof. solve_decision. Defined.

Record Exn := { name : ErrorClass; message : string }.

Inductive Result (A : Type) :=
  | Ok (a : A)
  | Throw (e : Exn).
Arguments Ok {A} a.
Arguments Throw {A} e.

Definition M (A : Type) : Type := Database → Result A * Database.

Definition ret {A} (a : A) : M A := λ db, (Ok a, db).
Definition throw {A} (c : ErrorClass) (msg : string) : M A :=
  λ db, (Throw {| name := c; message := msg |}, db).
Definition bind {A B} (m : M A) (k : A → M B) : M B :=
  λ db, match m db with
        | (Ok a, db') => k a db'
        | (Throw e, db') => (Throw e, db')
        end.
Definition read {A} (f : Database → A) : M A := λ db, (Ok (f db), db).
Definition write (f : Database → Database) : M unit := λ db, (Ok tt, f db).

(** [try { m } catch (error) { h error }]. *)
Definition try_catch {A} (m : M A) (h : Exn → M A) : M A :=
  λ db, match m db with
        | (Ok a, db') => (Ok a, db')
        | (Throw e, db') => h e db'
        end.

(** [db.transaction(fn)()]: commit when [fn] returns, roll back to the state
    at entry and rethrow when it throws (a savepoint when nested). *)
Definition transaction {A} (m : M A) : M A :=
  λ db, match m db with
        | (Ok a, db') => (Ok a, db')
        | (Throw e, _) => (Throw e, db)
        end.

Declare Scope dao_scope.
Delimit Scope dao_scope with dao.
Notation "'let*' x ':=' m 'in' k" := (bind m (λ x, k))
  (at level 10, x name, m at level 100, k at level 200) : dao_scope.
Local Open Scope dao_scope.

(** ** Statements *)

(** [statement.get(...)]: the first row of the result, or [undefined]. *)
Definition get {A} (P : A → Prop) `{!∀ x, Decision (P x)} (rows : list A)
    : option A :=
  head (filter P rows).

(** [UPDATE t SET ... WHERE P]. *)
Definition update_where {A} (P : A → Prop) `{!∀ x, Decision (P x)}
    (f : A → A) (rows : list A) : list A :=
  (λ r, if decide (P r) then f r else r) <$> rows.

(** [DELETE FROM t WHERE P]. *)
Definition delete_where {A} (P : A → Prop) `{!∀ x, Decision (P x)}
    (rows : list A) : list A :=
  filter (λ r, ¬ P r) rows.

(** [result.changes]: the rows the statement's own [WHERE] matched (rows
    removed by a foreign-key action are not counted). *)
Definition changes {A} (P : A → Prop) `{!∀ x, Decision (P x)}
    (rows : list A) : Z :=
  Z.of_nat (length (filter P rows)).

(** The parent keys a foreign key can point at. *)
Definition listing_exists (db : Database) (id : Z) : Prop :=
  Exists (λ l, BookListing.listing_id l = id) (book_listings db).
Definition user_exists (db : Database) (id : Z) : Prop :=
  Exists (λ u, User.user_id u = id) (users db).
Definition book_exists (db : Database) (id : Z) : Prop :=
  Exists (λ b, b = id) (books db).

Definition fk_failed {A} : M A :=
  throw SqliteError "FOREIGN KEY constraint failed".

(** ** BookListingsDao.ts *)
Module BookListingsDAO.

Definition getBookListingById (listingId : Z) : M BookListing.t :=
  let* listing :=
    read (λ db, get (λ l, BookListing.listing_id l = listingId)
                    (book_listings db)) in
  match listing with
  | None =>
      throw BookListingNotFoundError
        ("Book listing with ID " +:+ pretty listingId +:+ " not found")
  | Some l => ret l
  end.

Definition getAllBookListings : M (list BookListing.t) :=
  read book_listings.

(** The row after [SET k1 = ?, k2 = ?, ...] for the keys of [updates]. *)
Definition apply_updates (u : BookListingUpdates) (l : BookListing.t)
    : BookListing.t :=
  BookListing.mk (BookListing.listing_id l)
    (default (BookListing.description l) (upd_description u))
    (default (BookListing.list_on_date l) (upd_list_on_date u))
    (default (BookListing.user_id l) (upd_user_id u))
    (default (BookListing.book_id l) (upd_book_id u)).

(** [updateFields.length > 0]. *)
Definition has_fields (u : BookListingUpdates) : bool :=
  bool_decide (is_Some (upd_description u) ∨ is_Some (upd_list_on_date u)
               ∨ is_Some (upd_user_id u) ∨ is_Some (upd_book_id u)).

(** A parent key written by the statement must exist. *)
Definition parents_ok (db : Database) (u : BookListingUpdates) : Prop :=
  from_option (user_exists db) True (upd_user_id u)
  ∧ from_option (book_exists db) True (upd_book_id u).

Global Instance parents_ok_dec db u : Decision (parents_ok db u).
Proof.
  unfold parents_ok, user_exists, book_exists.
  destruct (upd_user_id u), (upd_book_id u); simpl; apply _.
Defined.

(** [UPDATE book_listings SET ... WHERE listing_id = ?]. *)
Definition run_update (listingId : Z) (u : BookListingUpdates) : M unit :=
  λ db,
    let P := λ l, BookListing.listing_id l = listingId in
    if foreign_keys db
       && bool_decide (filter P (book_listings db) ≠ [])
       && negb (bool_decide (parents_ok db u))
    then fk_failed db
    else write (λ db, with_book_listings
                        (update_where P (apply_updates u) (book_listings db))
                        db) db.

Definition updateBookListing (listingId : Z) (updates : BookListingUpdates)
    : M BookListing.t :=
  transaction
    (try_catch
       (let* _ := (if has_fields updates then run_update listingId updates
                   else ret tt) in
        getBookListingById listingId)
       (λ error,
          if decide (name error = BookListingNotFoundError) then
            throw UpdateBookListingError
              "Failed to retrieve updated listing. Transaction failed and rolled back."
          else
            throw PlainError
              ("Failed to update listing: " +:+ message error))).

(** [DELETE FROM book_listings WHERE listing_id = ?]; with foreign keys
    enforced, removing a listing row removes the exchange requests that
    reference it in either column ([ON DELETE CASCADE]). *)
Definition deleteBookListing (listingId : Z) : M bool :=
  λ db,
    let P := λ l, BookListing.listing_id l = listingId in
    let n := changes P (book_listings db) in
    let db1 := with_book_listings (delete_where P (book_listings db)) db in
    let db2 :=
      if foreign_keys db && bool_decide (0 < n) then
        with_exchange_requests
          (delete_where
             (λ r, ExchangeRequest.requestee_listing_id r = listingId
                   ∨ ExchangeRequest.requester_listing_id r = listingId)
             (exchange_requests db1))
          db1
      else db1 in
    (Ok (bool_decide (0 < n)), db2).

Definition getBookListingsByUser (userId : Z) : M (list BookListing.t) :=
  read (λ db, filter (λ l, BookListing.user_id l = userId) (book_listings db)).

Definition getBookListingsByBook (bookId : Z) : M (list BookListing.t) :=
  read (λ db, filter (λ l, BookListing.book_id l = bookId) (book_listings db)).

(** The largest rowid in the table (0 when it is empty). *)
Definition max_rowid (rows : list BookListing.t) : Z :=
  foldr Z.max 0 (BookListing.listing_id <$> rows).

(** [INSERT INTO book_listings (...) VALUES (?, ?, ?, ?)], returning
    [lastInsertRowid].  [seq] is the AUTOINCREMENT counter that
    [sqlite_sequence] keeps for [book_listings]; [Database] does not carry
    it, so the caller passes it, and after a successful insert it is the
    rowid returned here. *)
Definition insert (seq : Z) (description : string) (list_on_date : Z)
    (user_id book_id : Z) : M Z :=
  λ db,
    if foreign_keys db
       && negb (bool_decide (user_exists db user_id ∧ book_exists db book_id))
    then fk_failed db
    else
      let id := Z.max seq (max_rowid (book_listings db)) + 1 in
      (Ok id,
       with_book_listings
         (book_listings db
          ++ [BookListing.mk id description list_on_date user_id book_id])
         db).

(** [now] is [Date.now()], in milliseconds. *)
Definition createBookListing (seq now : Z) (bookListing : NewBookListing)
    : M BookListing.t :=
  try_catch
    (transaction
       (let listOnDate :=
          default (now `div` 1000) (new_list_on_date bookListing) in
        let* listingId :=
          insert seq (new_description bookListing) listOnDate
            (new_user_id bookListing) (new_book_id bookListing) in
        getBookListingById listingId))
    (λ error,
       if decide (name error = BookListingNotFoundError) then
         throw CreateBookListingError
           "Failed to retrieve created listing. Transaction failed and rolled back."
       else
         throw CreateBookListingError
           ("Failed to create listing: " +:+ message error)).

(** [DELETE FROM book_listings WHERE P], returning [changes]; with foreign
    keys enforced, the exchange requests that reference a removed listing in
    either column go with it ([ON DELETE CASCADE]). *)
Definition delete_listings (P : BookListing.t → Prop)
    `{!∀ l, Decision (P l)} : M Z :=
  λ db,
    let gone := BookListing.listing_id <$> filter P (book_listings db) in
    let db1 := with_book_listings (delete_where P (book_listings db)) db in
    let db2 :=
      if foreign_keys db then
        with_exchange_requests
          (delete_where
             (λ r, ExchangeRequest.requestee_listing_id r ∈ gone
                   ∨ ExchangeRequest.requester_listing_id r ∈ gone)
             (exchange_requests db1))
          db1
      else db1 in
    (Ok (changes P (book_listings db)), db2).

(** The loop of [deleteMultipleBookListings]; [deletedCount] is the running
    total. *)
Fixpoint delete_each (listingIds : list Z) (deletedCount : Z) : M Z :=
  match listingIds with
  | [] => ret deletedCount
  | listingId :: rest =>
      let* n := delete_listings (λ l, BookListing.listing_id l = listingId) in
      delete_each rest (deletedCount + n)
  end.

Definition deleteMultipleBookListings (listingIds : list Z) : M Z :=
  if decide (length listingIds = 0%nat) then ret 0
  else transaction (delete_each listingIds 0).

Definition deleteBookListingsByBook (bookId : Z) : M Z :=
  delete_listings (λ l, BookListing.book_id l = bookId).

Definition deleteBookListingsByUser (userId : Z) : M Z :=
  delete_listings (λ l, BookListing.user_id l = userId).

(** [a] comes no later than [b] under [ORDER BY list_on_date DESC]. *)
Definition more_recent (a b : BookListing.t) : Prop :=
  (BookListing.list_on_date b ≤ BookListing.list_on_date a)%Z.

Global Instance more_recent_dec a b : Decision (more_recent a b).
Proof. unfold more_recent. apply _. Defined.

(** Puts [x] before the first row that is not more recent than it. *)
Fixpoint place_by_date (x : BookListing.t) (sorted : list BookListing.t)
    : list BookListing.t :=
  match sorted with
  | [] => [x]
  | y :: rest =>
      if decide (more_recent x y) then x :: y :: rest
      else y :: place_by_date x rest
  end.

(** [ORDER BY list_on_date DESC] over the rows in rowid order.  SQL promises
    no order among rows with equal [list_on_date]; [book_listings] has no
    index on the column, so the engine scans by rowid and sorts on the date
    and then on the position in the scan: equal dates come out in rowid
    order. *)
Definition order_by_date_desc (rows : list BookListing.t)
    : list BookListing.t :=
  foldr place_by_date [] rows.

(** The bounds [LIMIT ?] takes.  better-sqlite3 binds a number as a 32-bit
    integer when it is one and as a double otherwise, and the engine takes a
    double for an integer only strictly between -2^63 and 2^63. *)
Definition limit_in_range (n : Z) : Prop := (- 2 ^ 63 < n < 2 ^ 63)%Z.

Global Instance limit_in_range_dec n : Decision (limit_in_range n).
Proof. unfold limit_in_range. apply _. Defined.

(** The first [n] rows, counting [n] down as rows are returned. *)
Fixpoint first_rows {A} (n : Z) (rows : list A) : list A :=
  match rows with
  | [] => []
  | x :: rest => if decide (0 < n) then x :: first_rows (n - 1) rest else []
  end.

(** [LIMIT n]: a negative [n] puts no bound on the rows. *)
Definition sql_limit {A} (n : Z) (rows : list A) : list A :=
  if decide (n < 0) then rows else first_rows n rows.

(** [SELECT * FROM book_listings ORDER BY list_on_date DESC LIMIT ?];
    [limit] is a number with an integer value, as [parseInt] gives.  A bound
    the engine cannot take as an integer makes the statement throw. *)
Definition getRecentBookListings (limit : Z) : M (list BookListing.t) :=
  if decide (limit_in_range limit) then
    read (λ db, sql_limit limit (order_by_date_desc (book_listings db)))
  else throw SqliteError "datatype mismatch".

End BookListingsDAO.

(** ** ExchangeRequestsDao.ts *)
Module ExchangeRequestsDAO.

Definition getExchangeRequestById (requestId : Z) : M ExchangeRequest.t :=
  let* request :=
    read (λ db, get (λ r, ExchangeRequest.request_id r = requestId)
                    (exchange_requests db)) in
  match request with
  | None =>
      throw ExchangeRequestNotFoundError
        ("Exchange request with ID " +:+ pretty requestId +:+ " not found")
  | Some r => ret r
  end.

Definition getAllExchangeRequests : M (list ExchangeRequest.t) :=
  read exchange_requests.

Definition getExchangeRequestsByRequestee (listingId : Z)
    : M (list ExchangeRequest.t) :=
  read (λ db, filter (λ r, ExchangeRequest.requestee_listing_id r = listingId)
                     (exchange_requests db)).

Definition getExchangeRequestsByRequester (listingId : Z)
    : M (list ExchangeRequest.t) :=
  read (λ db, filter (λ r, ExchangeRequest.requester_listing_id r = listingId)
                     (exchange_requests db)).

(** The largest rowid in the table (0 when it is empty). *)
Definition max_rowid (rows : list ExchangeRequest.t) : Z :=
  foldr Z.max 0 (ExchangeRequest.request_id <$> rows).

(** [INSERT INTO exchange_requests (...) VALUES (?, ?, ?, ?)], returning
    [lastInsertRowid]: one more than the largest rowid the table has or
    ever had. *)
Definition insert (requestee requester : Z) (status : string) (date : Z)
    : M Z :=
  λ db,
    if foreign_keys db
       && negb (bool_decide (listing_exists db requestee
                             ∧ listing_exists db requester))
    then fk_failed db
    else
      let id :=
        Z.max (exchange_requests_seq db) (max_rowid (exchange_requests db))
        + 1 in
      (Ok id,
       with_exchange_requests_seq id
         (with_exchange_requests
            (exchange_requests db
             ++ [ExchangeRequest.mk id requestee requester status date])
            db)).

(** [SELECT user_id FROM book_listings WHERE listing_id = ?], [get()]. *)
Definition listing_owner (db : Database) (listingId : Z) : option Z :=
  BookListing.user_id
    <$> get (λ l, BookListing.listing_id l = listingId) (book_listings db).

(** [now] is [Date.now()], in milliseconds. *)
Definition createExchangeRequest (now : Z) (exchangeRequest : NewExchangeRequest)
    : M ExchangeRequest.t :=
  try_catch
    (transaction
       (let* requesteeListing :=
          read (λ db, listing_owner db
                        (new_requestee_listing_id exchangeRequest)) in
        let* requesterListing :=
          read (λ db, listing_owner db
                        (new_requester_listing_id exchangeRequest)) in
        match requesteeListing, requesterListing with
        | Some requestee_user_id, Some requester_user_id =>
            if decide (requestee_user_id = requester_user_id) then
              throw CreateExchangeRequestError
                "Cannot create exchange request between listings owned by the same user"
            else
              let requestDate :=
                default (now `div` 1000) (new_request_date exchangeRequest) in
              let* requestId :=
                insert (new_requestee_listing_id exchangeRequest)
                       (new_requester_listing_id exchangeRequest)
                       (if decide (new_status exchangeRequest = "")
                        then "pending" else new_status exchangeRequest)
                       requestDate in
              getExchangeRequestById requestId
        | _, _ =>
            throw CreateExchangeRequestError "One or both listings not found"
        end))
    (λ error,
       if decide (name error = ExchangeRequestNotFoundError) then
         throw CreateExchangeRequestError
           "Failed to retrieve created exchange request. Transaction failed and rolled back."
       else
         throw CreateExchangeRequestError
           ("Failed to create exchange request: " +:+ message error)).

Definition updateExchangeRequestStatus (requestId : Z) (status : string)
    : M ExchangeRequest.t :=
  transaction
    (try_catch
       (let* _ :=
          write (λ db, with_exchange_requests
                         (update_where
                            (λ r, ExchangeRequest.request_id r = requestId)
                            (ExchangeRequest.set_status status)
                            (exchange_requests db))
                         db) in
        getExchangeRequestById requestId)
       (λ error,
          if decide (name error = ExchangeRequestNotFoundError) then
            throw UpdateExchangeRequestError
              "Failed to retrieve updated exchange request. Transaction failed and rolled back."
          else
            throw PlainError
              ("Failed to update exchange request: " +:+ message error))).

Definition acceptExchangeRequest (requestId : Z) : M ExchangeRequest.t :=
  transaction
    (let* exchangeRequest := getExchangeRequestById requestId in
     let* _ := updateExchangeRequestStatus requestId "accepted" in
     let requesteeListingId :=
       ExchangeRequest.requestee_listing_id exchangeRequest in
     let* _ :=
       write (λ db, with_exchange_requests
                      (update_where
                         (λ r, ExchangeRequest.requestee_listing_id r
                               = requesteeListingId
                               ∧ ExchangeRequest.request_id r ≠ requestId)
                         (ExchangeRequest.set_status "rejected")
                         (exchange_requests db))
                      db) in
     getExchangeRequestById requestId).

Definition deleteExchangeRequest (requestId : Z) : M bool :=
  λ db,
    let P := λ r, ExchangeRequest.request_id r = requestId in
    (Ok (bool_decide (0 < changes P (exchange_requests db))),
     with_exchange_requests (delete_where P (exchange_requests db)) db).

Definition exchangeRequestExists (requesteeListingId requesterListingId : Z)
    : M bool :=
  read (λ db,
          bool_decide
            (0 < changes
                   (λ r, ExchangeRequest.requestee_listing_id r
                         = requesteeListingId
                         ∧ ExchangeRequest.requester_listing_id r
                           = requesterListingId)
                   (exchange_requests db))).

(** The rows of
    [exchange_requests er JOIN book_listings bl1 ON er.requestee_listing_id =
    bl1.listing_id JOIN book_listings bl2 ON er.requester_listing_id =
    bl2.listing_id] that satisfy [W], projected on [er.*].  SQL leaves the
    order of the result open; this is the order of a nested loop over
    [er], [bl1], [bl2]. *)
Definition join_listings
    (W : ExchangeRequest.t → BookListing.t → BookListing.t → Prop)
    `{!∀ er bl1 bl2, Decision (W er bl1 bl2)} (db : Database)
    : list ExchangeRequest.t :=
  exchange_requests db ≫= λ er,
    filter (λ l, BookListing.listing_id l
                 = ExchangeRequest.requestee_listing_id er)
           (book_listings db) ≫= λ bl1,
      filter (λ l, BookListing.listing_id l
                   = ExchangeRequest.requester_listing_id er)
             (book_listings db) ≫= λ bl2,
        if decide (W er bl1 bl2) then [er] else [].

Definition getExchangeRequestsByUser (userId : Z)
    : M (list ExchangeRequest.t) :=
  read (join_listings
          (λ _ bl1 bl2, BookListing.user_id bl1 = userId
                        ∨ BookListing.user_id bl2 = userId)).

Definition getExchangeRequestsByStatus (status : string)
    : M (list ExchangeRequest.t) :=
  read (λ db, filter (λ r, ExchangeRequest.status r = status)
                     (exchange_requests db)).

Definition getAcceptedExchangeRequestsByUser (userId : Z)
    : M (list ExchangeRequest.t) :=
  read (join_listings
          (λ er bl1 bl2, (BookListing.user_id bl1 = userId
                          ∨ BookListing.user_id bl2 = userId)
                         ∧ ExchangeRequest.status er = "accepted")).

(** The row after [SET k1 = ?, k2 = ?, ...] for the keys of [updates]. *)
Definition apply_updates (u : ExchangeRequestUpdates) (r : ExchangeRequest.t)
    : ExchangeRequest.t :=
  ExchangeRequest.mk (ExchangeRequest.request_id r)
    (default (ExchangeRequest.requestee_listing_id r)
       (upd_requestee_listing_id u))
    (default (ExchangeRequest.requester_listing_id r)
       (upd_requester_listing_id u))
    (default (ExchangeRequest.status r) (upd_status u))
    (default (ExchangeRequest.request_date r) (upd_request_date u)).

(** [updateFields.length > 0]. *)
Definition has_fields (u : ExchangeRequestUpdates) : bool :=
  bool_decide (is_Some (upd_requestee_listing_id u)
               ∨ is_Some (upd_requester_listing_id u)
               ∨ is_Some (upd_status u) ∨ is_Some (upd_request_date u)).

(** A parent key written by the statement must exist. *)
Definition parents_ok (db : Database) (u : ExchangeRequestUpdates) : Prop :=
  from_option (listing_exists db) True (upd_requestee_listing_id u)
  ∧ from_option (listing_exists db) True (upd_requester_listing_id u).

Global Instance parents_ok_dec db u : Decision (parents_ok db u).
Proof.
  unfold parents_ok, listing_exists.
  destruct (upd_requestee_listing_id u), (upd_requester_listing_id u);
    simpl; apply _.
Defined.

(** [UPDATE exchange_requests SET ... WHERE request_id = ?]. *)
Definition run_update (requestId : Z) (u : ExchangeRequestUpdates) : M unit :=
  λ db,
    let P := λ r, ExchangeRequest.request_id r = requestId in
    if foreign_keys db
       && bool_decide (filter P (exchange_requests db) ≠ [])
       && negb (bool_decide (parents_ok db u))
    then fk_failed db
    else write (λ db, with_exchange_requests
                        (update_where P (apply_updates u)
                           (exchange_requests db))
                        db) db.

Definition updateExchangeRequest (requestId : Z)
    (updates : ExchangeRequestUpdates) : M ExchangeRequest.t :=
  transaction
    (try_catch
       (let* _ := (if has_fields updates then run_update requestId updates
                   else ret tt) in
        getExchangeRequestById requestId)
       (λ error,
          if decide (name error = ExchangeRequestNotFoundError) then
            throw UpdateExchangeRequestError
              "Failed to retrieve updated exchange request. Transaction failed and rolled back."
          else
            throw PlainError
              ("Failed to update exchange request: " +:+ message error))).

Definition deleteExchangeRequestsByListing (listingId : Z) : M Z :=
  λ db,
    let P := λ r, ExchangeRequest.requestee_listing_id r = listingId
                  ∨ ExchangeRequest.requester_listing_id r = listingId in
    (Ok (changes P (exchange_requests db)),
     with_exchange_requests (delete_where P (exchange_requests db)) db).

End ExchangeRequestsDAO.

(** ** UserDao.ts and the services *)
Module UserDAO.

Definition getUserByUsername (username : string) : M User.t :=
  let* user :=
    read (λ db, get (λ u, User.username u = username) (users db)) in
  match user with
  | None =>
      throw UserNotFoundError
        ("User with username " +:+ username +:+ " not found")
  | Some u => ret u
  end.

End UserDAO.

Module UserService.

Definition getUserProfile (username : string) : M User.t :=
  try_catch (UserDAO.getUserByUsername username)
    (λ error,
       if decide (name error = UserNotFoundError) then
         λ db, (Throw error, db)
       else
         throw PlainError
           ("Failed to get user profile: " +:+ message error)).

End UserService.

Module BooksService.

Definition getBookListingById := BookListingsDAO.getBookListingById.
Definition updateBookListing := BookListingsDAO.updateBookListing.
Definition deleteBookListing := BookListingsDAO.deleteBookListing.

Definition getRecentBookListings := BookListingsDAO.getRecentBookListings.

End BooksService.

Module ExchangeService.

(** [now] is [Date.now()], in milliseconds. *)
Definition createExchangeRequest (now : Z)
    (requesteeListingId requesterListingId : Z) : M ExchangeRequest.t :=
  try_catch
    (let* exists_ :=
       ExchangeRequestsDAO.exchangeRequestExists
         requesteeListingId requesterListingId in
     if (exists_ : bool) then
       throw CreateExchangeRequestError
         "An exchange request already exists between these listings"
     else
       ExchangeRequestsDAO.createExchangeRequest now
         {| new_requestee_listing_id := requesteeListingId;
            new_requester_listing_id := requesterListingId;
            new_status := "pending";
            new_request_date := Some (now `div` 1000) |})
    (λ error,
       if decide (name error = CreateExchangeRequestError) then
         λ db, (Throw error, db)
       else
         throw CreateExchangeRequestError
           ("Failed to create exchange request: " +:+ message error)).

Definition deleteExchangeRequest := ExchangeRequestsDAO.deleteExchangeRequest.
Definition getExchangeRequestById := ExchangeRequestsDAO.getExchangeRequestById.
Definition acceptExchangeRequest := ExchangeRequestsDAO.acceptExchangeRequest.
Definition updateExchangeRequestStatus :=
  ExchangeRequestsDAO.updateExchangeRequestStatus.

Definition getExchangeRequestsForUser :=
  ExchangeRequestsDAO.getExchangeRequestsByUser.

End ExchangeService.

(** ** controller.js: [PUT /exchanges/:id/accept] *)

Inductive Body :=
  | ErrorBody (error : string)
  | ExchangeBody (exchangeRequest : ExchangeRequest.t).

Record Response := { status_code : Z; body : Body }.

Definition respond (code : Z) (b : Body) : M Response :=
  ret {| status_code := code; body := b |}.

(** [requestId] is [parseInt(req.params.id)], [None] when it is [NaN];
    [req_user] is the username [authenticateJWT] attached to the request. *)
Definition acceptExchange (req_user : option string) (requestId : option Z)
    : Database → Response * Database :=
  λ db,
    let attempt : M Response :=
      match requestId with
      | None => respond 400 (ErrorBody "Invalid request ID")
      | Some requestId =>
          match req_user with
          | None => respond 401 (ErrorBody "User not authenticated")
          | Some username =>
              let* existingRequest :=
                ExchangeService.getExchangeRequestById requestId in
              let* user := UserService.getUserProfile username in
              let* requesteeListing :=
                BooksService.getBookListingById
                  (ExchangeRequest.requestee_listing_id existingRequest) in
              if decide (BookListing.user_id requesteeListing
                         ≠ User.user_id user) then
                respond 403
                  (ErrorBody
                     "Only the owner of the requested book can accept an exchange request")
              else
                let* exchangeRequest :=
                  ExchangeService.acceptExchangeRequest requestId in
                let requesteeListingId :=
                  ExchangeRequest.requestee_listing_id exchangeRequest in
                let requesterListingId :=
                  ExchangeRequest.requester_listing_id exchangeRequest in
                let* _ := BooksService.deleteBookListing requesteeListingId in
                let* _ := BooksService.deleteBookListing requesterListingId in
                respond 200 (ExchangeBody exchangeRequest)
          end
      end in
    match attempt db with
    | (Ok response, db') => (response, db')
    | (Throw error, db') =>
        if decide (name error = ExchangeRequestNotFoundError) then
          ({| status_code := 404; body := ErrorBody (message error) |}, db')
        else
          ({| status_code := 500; body := ErrorBody "Internal server error" |},
           db')
    end.


(** ** controller.js: the other exchange and listing routes *)

(** [GET /exchanges/:id]. *)
Definition viewExchange (req_user : option string) (requestId : option Z)
    : Database → Response * Database :=
  λ db,
    let attempt : M Response :=
      match requestId with
      | None => respond 400 (ErrorBody "Invalid request ID")
      | Some requestId =>
          let* exchangeRequest :=
            ExchangeService.getExchangeRequestById requestId in
          match req_user with
          | None => respond 401 (ErrorBody "User not authenticated")
          | Some username =>
              let* user := UserService.getUserProfile username in
              let* requesteeListing :=
                BooksService.getBookListingById
                  (ExchangeRequest.requestee_listing_id exchangeRequest) in
              let* requesterListing :=
                BooksService.getBookListingById
                  (ExchangeRequest.requester_listing_id exchangeRequest) in
              if decide (BookListing.user_id requesteeListing
                         ≠ User.user_id user
                         ∧ BookListing.user_id requesterListing
                           ≠ User.user_id user) then
                respond 403
                  (ErrorBody "Not authorized to view this exchange request")
              else respond 200 (ExchangeBody exchangeRequest)
          end
      end in
    match attempt db with
    | (Ok response, db') => (response, db')
    | (Throw error, db') =>
        if decide (name error = ExchangeRequestNotFoundError) then
          ({| status_code := 404; body := ErrorBody (message error) |}, db')
        else
          ({| status_code := 500; body := ErrorBody "Internal server error" |},
           db')
    end.

(** The values [PUT /exchanges/:id/status] lets through. *)
Definition valid_statuses : list string :=
  ["pending"; "accepted"; "rejected"; "completed"; "cancelled"].

(** [PUT /exchanges/:id/status]; [status] is [req.body.status], [None] when
    the body has none. *)
Definition updateExchangeStatus (requestId : option Z) (status : option string)
    : Database → Response * Database :=
  λ db,
    let attempt : M Response :=
      match requestId with
      | None => respond 400 (ErrorBody "Invalid request ID")
      | Some requestId =>
          match status with
          | Some status =>
              if decide (status ≠ "" ∧ status ∈ valid_statuses) then
                let* exchangeRequest :=
                  ExchangeService.updateExchangeRequestStatus
                    requestId status in
                respond 200 (ExchangeBody exchangeRequest)
              else
                respond 400
                  (ErrorBody
                     "Valid status is required (pending, accepted, rejected, completed, cancelled)")
          | None =>
              respond 400
                (ErrorBody
                   "Valid status is required (pending, accepted, rejected, completed, cancelled)")
          end
      end in
    match attempt db with
    | (Ok response, db') => (response, db')
    | (Throw error, db') =>
        if decide (name error = ExchangeRequestNotFoundError) then
          ({| status_code := 404; body := ErrorBody (message error) |}, db')
        else
          ({| status_code := 500; body := ErrorBody "Internal server error" |},
           db')
    end.

(** What the routes below send: nothing, an [{ error }] object or an array of
    listings. *)
Inductive Payload :=
  | NoContent
  | ErrorPayload (error : string)
  | ListingsPayload (listings : list BookListing.t).

Record Reply := { reply_code : Z; reply_body : Payload }.

(** [DELETE /exchanges/:id].  [deleteExchangeRequest] has no path that
    throws, so the route's [catch] is never entered. *)
Definition deleteExchange (requestId : option Z) : Database → Reply * Database :=
  λ db,
    match requestId with
    | None =>
        ({| reply_code := 400; reply_body := ErrorPayload "Invalid request ID" |},
         db)
    | Some requestId =>
        match ExchangeService.deleteExchangeRequest requestId db with
        | (Ok true, db') =>
            ({| reply_code := 204; reply_body := NoContent |}, db')
        | (Ok false, db') =>
            ({| reply_code := 404;
                reply_body := ErrorPayload "Exchange request not found" |},
             db')
        | (Throw _, db') =>
            ({| reply_code := 500;
                reply_body := ErrorPayload "Internal server error" |}, db')
        end
    end.

(** [GET /listings/recent/:limit]; [limit] is [parseInt(req.params.limit)],
    [None] when it is [NaN].  [parseInt(...) || 10] replaces [NaN] and [0]
    by 10; what the statement throws is caught and answered 500. *)
Definition recentListings (limit : option Z) : Database → Reply * Database :=
  λ db,
    let limit :=
      match limit with
      | Some n => if decide (n = 0) then 10 else n
      | None => 10
      end in
    match BooksService.getRecentBookListings limit db with
    | (Ok listings, db') =>
        ({| reply_code := 200; reply_body := ListingsPayload listings |}, db')
    | (Throw _, db') =>
        ({| reply_code := 500;
            reply_body := ErrorPayload "Internal server error" |}, db')
    end.

(** ** Invariants and a running example *)

(** The row [INSERT] adds and the database it leaves. *)
Definition inserted (db : Database) (requestee requester : Z) (s : string)
    (date : Z) : ExchangeRequest.t :=
  ExchangeRequest.mk
    (Z.max (exchange_requests_seq db)
       (ExchangeRequestsDAO.max_rowid (exchange_requests db)) + 1)
    requestee requester s date.

Definition after_insert (db : Database) (r : ExchangeRequest.t) : Database :=
  with_exchange_requests_seq (ExchangeRequest.request_id r)
    (with_exchange_requests (exchange_requests db ++ [r]) db).


(** The primary key of [exchange_requests]. *)
Definition request_ids_unique (db : Database) : Prop :=
  NoDup (ExchangeRequest.request_id <$> exchange_requests db).

(** Every stored request references two stored listings. *)
Definition references_ok (db : Database) : Prop :=
  Forall (λ r, listing_exists db (ExchangeRequest.requestee_listing_id r)
               ∧ listing_exists db (ExchangeRequest.requester_listing_id r))
         (exchange_requests db).

(** [m] throws an error of class [c] and leaves the database as it was. *)
Definition rejects {A} (c : ErrorClass) (m : M A) (db : Database) : Prop :=
  ∃ msg, m db = (Throw {| name := c; message := msg |}, db).

(** The request [ExchangeService.createExchangeRequest] hands to the DAO. *)
Definition proposal (now requestee requester : Z) : NewExchangeRequest :=
  {| new_requestee_listing_id := requestee;
     new_requester_listing_id := requester;
     new_status := "pending";
     new_request_date := Some (now `div` 1000) |}.

(** Alice lists book 10 as listing 100, Bob book 20 as listing 200, Carol
    book 30 as listing 300 and Dave book 40 as listing 400.  Bob (request 1)
    and Carol (request 2) both ask for listing 100; Bob also offers listing
    200 for Carol's listing 300 (request 3); Carol's request 4 for listing
    200 was turned down; Alice asks for listing 200 herself (request 5); and
    Carol offers listing 300 for Dave's listing 400 (request 6). *)
Definition scenario (fk : bool) : Database :=
  {| foreign_keys := fk;
     users := [User.mk 1 "alice"; User.mk 2 "bob"; User.mk 3 "carol";
               User.mk 4 "dave"];
     books := [10; 20; 30; 40];
     book_listings :=
       [BookListing.mk 100 "worn" 1700000000 1 10;
        BookListing.mk 200 "good" 1700000100 2 20;
        BookListing.mk 300 "new" 1700000200 3 30;
        BookListing.mk 400 "fair" 1700000250 4 40];
     exchange_requests :=
       [ExchangeRequest.mk 1 100 200 "pending" 1700000300;
        ExchangeRequest.mk 2 100 300 "pending" 1700000400;
        ExchangeRequest.mk 3 300 200 "pending" 1700000500;
        ExchangeRequest.mk 4 200 300 "rejected" 1700000600;
        ExchangeRequest.mk 5 200 100 "pending" 1700000700;
        ExchangeRequest.mk 6 400 300 "pending" 1700000750];
     exchange_requests_seq := 6 |}.

(** The same store after Alice listed a second book as listing 500. *)
Definition scenario_second_listing (fk : bool) : Database :=
  with_book_listings
    (book_listings (scenario fk)
     ++ [BookListing.mk 500 "spare" 1700000260 1 10])
    (scenario fk).

(** * Verification *)

(** Closed decidable goals, by evaluation. *)
Ltac by_evaluation := apply (bool_decide_unpack _); vm_compute; exact I.
Ltac for_each_row := apply Forall_forall; by_evaluation.

(** ** Statements over lists of rows *)
Section statements.
Context {A : Type}.
Implicit Types (P : A → Prop) (l : list A).

Lemma get_Some P `{!∀ x, Decision (P x)} l x :
  get P l = Some x → x ∈ l ∧ P x.
Proof.
  unfold get. intros Hq%head_Some_elem_of.
  apply list_elem_of_filter in Hq. tauto.
Qed.

Lemma get_None P `{!∀ x, Decision (P x)} l :
  get P l = None ↔ ∀ x, x ∈ l → ¬ P x.
Proof.
  unfold get. rewrite head_None. split.
  - intros Hq x Hx HP. eapply filter_nil_not_elem_of; eauto.
  - intros Hq. induction l as [|y l IH]; [done|].
    rewrite filter_cons. destruct (decide (P y)) as [HP|_].
    + destruct (Hq y); [left | done].
    + apply IH. intros x Hx. apply Hq. by right.
Qed.

Lemma get_is_Some P `{!∀ x, Decision (P x)} l x :
  x ∈ l → P x → is_Some (get P l).
Proof.
  intros Hx HP. destruct (get P l) eqn:E; [by eexists|].
  rewrite get_None in E. by destruct (E x).
Qed.

Lemma filter_fmap_preserve P `{!∀ x, Decision (P x)} (f : A → A) l :
  (∀ x, P (f x) ↔ P x) → filter P (f <$> l) = f <$> filter P l.
Proof.
  intros Hf. induction l as [|y l IH]; [done|].
  rewrite fmap_cons, !filter_cons, IH.
  destruct (decide (P (f y))) as [H1|H1], (decide (P y)) as [H2|H2];
    [done | | | done].
  - destruct H2. by apply Hf.
  - destruct H1. by apply Hf.
Qed.

Lemma get_fmap_preserve P `{!∀ x, Decision (P x)} (f : A → A) l :
  (∀ x, P (f x) ↔ P x) → get P (f <$> l) = f <$> get P l.
Proof.
  intros Hf. unfold get. rewrite filter_fmap_preserve by done.
  by destruct (filter P l).
Qed.

Lemma get_snoc_fresh P `{!∀ x, Decision (P x)} l y :
  (∀ x, x ∈ l → ¬ P x) → P y → get P (l ++ [y]) = Some y.
Proof.
  intros Hl Hy. unfold get. rewrite filter_app.
  apply (get_None P) in Hl. unfold get in Hl. apply head_None in Hl.
  rewrite Hl. simpl. rewrite filter_cons. by destruct (decide (P y)).
Qed.

Lemma get_unique {K} `{!EqDecision K} (key : A → K) l x :
  NoDup (key <$> l) → x ∈ l → get (λ r, key r = key x) l = Some x.
Proof.
  unfold get. induction l as [|y l IH]; intros Hnd Hx.
  - by apply elem_of_nil in Hx.
  - rewrite fmap_cons in Hnd. apply NoDup_cons in Hnd as [Hy Hnd].
    rewrite filter_cons. apply elem_of_cons in Hx as [->|Hx].
    + by rewrite decide_True.
    + rewrite decide_False; [by apply IH|].
      intros E. apply Hy. rewrite E. by apply list_elem_of_fmap_2.
Qed.

Lemma filter_idemp P `{!∀ x, Decision (P x)} l :
  filter P (filter P l) = filter P l.
Proof.
  induction l as [|y l IH]; [done|].
  rewrite filter_cons. destruct (decide (P y)) as [HP|HP]; [|done].
  rewrite filter_cons, decide_True by done. by rewrite IH.
Qed.

Lemma changes_pos P `{!∀ x, Decision (P x)} l :
  0 < changes P l ↔ ∃ x, x ∈ l ∧ P x.
Proof.
  unfold changes. split.
  - destruct (filter P l) as [|x k] eqn:E; simpl; [lia|]. intros _.
    exists x. assert (x ∈ filter P l) as Hq by (rewrite E; left).
    apply list_elem_of_filter in Hq. tauto.
  - intros (x & Hx & HP).
    assert (x ∈ filter P l) as Hq by (by apply list_elem_of_filter).
    destruct (filter P l); [by apply elem_of_nil in Hq | simpl; lia].
Qed.

Lemma changes_delete_where P `{!∀ x, Decision (P x)} l :
  changes P (delete_where P l) = 0.
Proof.
  unfold changes, delete_where.
  replace (filter P (filter (λ r, ¬ P r) l)) with (@nil A); [done|].
  symmetry. induction l as [|y l IH]; [done|].
  rewrite filter_cons. destruct (decide (¬ P y)) as [HP|HP]; [|done].
  by rewrite filter_cons, decide_False.
Qed.

Lemma delete_where_idemp P `{!∀ x, Decision (P x)} l :
  delete_where P (delete_where P l) = delete_where P l.
Proof. apply filter_idemp. Qed.

Lemma delete_where_none P `{!∀ x, Decision (P x)} l :
  (∀ x, x ∈ l → ¬ P x) → delete_where P l = l.
Proof.
  unfold delete_where. induction l as [|y l IH]; intros Hq; [done|].
  rewrite filter_cons, decide_True by (apply Hq; left).
  f_equal. apply IH. intros x Hx. apply Hq. by right.
Qed.

Lemma elem_of_delete_where P `{!∀ x, Decision (P x)} l x :
  x ∈ delete_where P l ↔ x ∈ l ∧ ¬ P x.
Proof. unfold delete_where. rewrite list_elem_of_filter. tauto. Qed.

End statements.

(** ** The exchange-request store *)

Lemma get_by_id_update_where (Q : ExchangeRequest.t → Prop)
    `{!∀ r, Decision (Q r)} s id rows :
  get (λ r, ExchangeRequest.request_id r = id)
      (update_where Q (ExchangeRequest.set_status s) rows)
  = (λ r, if decide (Q r) then ExchangeRequest.set_status s r else r)
      <$> get (λ r, ExchangeRequest.request_id r = id) rows.
Proof.
  unfold update_where. apply get_fmap_preserve.
  intros r. by destruct (decide (Q r)).
Qed.

Lemma getExchangeRequestById_found db id R :
  get (λ r, ExchangeRequest.request_id r = id) (exchange_requests db) = Some R →
  ExchangeRequestsDAO.getExchangeRequestById id db = (Ok R, db).
Proof.
  intros E. unfold ExchangeRequestsDAO.getExchangeRequestById, bind, read.
  by rewrite E.
Qed.

Lemma getExchangeRequestById_missing db id :
  get (λ r, ExchangeRequest.request_id r = id) (exchange_requests db) = None →
  ExchangeRequestsDAO.getExchangeRequestById id db
  = (Throw {| name := ExchangeRequestNotFoundError;
              message := "Exchange request with ID " +:+ pretty id
                         +:+ " not found" |}, db).
Proof.
  intros E. unfold ExchangeRequestsDAO.getExchangeRequestById, bind, read.
  by rewrite E.
Qed.

Lemma updateExchangeRequestStatus_found db id s R :
  get (λ r, ExchangeRequest.request_id r = id) (exchange_requests db) = Some R →
  ExchangeRequestsDAO.updateExchangeRequestStatus id s db
  = (Ok (ExchangeRequest.set_status s R),
     with_exchange_requests
       (update_where (λ r, ExchangeRequest.request_id r = id)
          (ExchangeRequest.set_status s) (exchange_requests db)) db).
Proof.
  intros E.
  unfold ExchangeRequestsDAO.updateExchangeRequestStatus, transaction,
    try_catch, bind, write.
  erewrite getExchangeRequestById_found; [done|].
  simpl. rewrite get_by_id_update_where, E. simpl.
  apply get_Some in E as [_ Hid]. by rewrite decide_True.
Qed.

Lemma updateExchangeRequestStatus_missing db id s :
  get (λ r, ExchangeRequest.request_id r = id) (exchange_requests db) = None →
  ExchangeRequestsDAO.updateExchangeRequestStatus id s db
  = (Throw {| name := UpdateExchangeRequestError;
              message := "Failed to retrieve updated exchange request. Transaction failed and rolled back." |},
     db).
Proof.
  intros E.
  unfold ExchangeRequestsDAO.updateExchangeRequestStatus, transaction,
    try_catch, bind, write.
  erewrite getExchangeRequestById_missing; [done|].
  simpl. by rewrite get_by_id_update_where, E.
Qed.

(** What [acceptExchangeRequest] leaves in the table. *)
Lemma acceptExchangeRequest_found db id R :
  get (λ r, ExchangeRequest.request_id r = id) (exchange_requests db) = Some R →
  ExchangeRequestsDAO.acceptExchangeRequest id db
  = (Ok (ExchangeRequest.set_status "accepted" R),
     with_exchange_requests
       (update_where
          (λ r, ExchangeRequest.requestee_listing_id r
                = ExchangeRequest.requestee_listing_id R
                ∧ ExchangeRequest.request_id r ≠ id)
          (ExchangeRequest.set_status "rejected")
          (update_where (λ r, ExchangeRequest.request_id r = id)
             (ExchangeRequest.set_status "accepted") (exchange_requests db)))
       db).
Proof.
  intros E. pose proof (get_Some _ _ _ E) as [_ Hid].
  unfold ExchangeRequestsDAO.acceptExchangeRequest, transaction, bind.
  rewrite (getExchangeRequestById_found _ _ _ E).
  rewrite (updateExchangeRequestStatus_found _ _ _ _ E).
  unfold write. erewrite getExchangeRequestById_found; [done|].
  simpl. rewrite !get_by_id_update_where, E. simpl.
  rewrite (decide_True (P := ExchangeRequest.request_id R = id)) by done.
  rewrite decide_False; [done|]. simpl. tauto.
Qed.

Lemma acceptExchangeRequest_missing db id :
  get (λ r, ExchangeRequest.request_id r = id) (exchange_requests db) = None →
  ExchangeRequestsDAO.acceptExchangeRequest id db
  = (Throw {| name := ExchangeRequestNotFoundError;
              message := "Exchange request with ID " +:+ pretty id
                         +:+ " not found" |}, db).
Proof.
  intros E. unfold ExchangeRequestsDAO.acceptExchangeRequest, transaction, bind.
  by rewrite (getExchangeRequestById_missing _ _ E).
Qed.

Lemma request_ids_unique_eq db q r :
  request_ids_unique db →
  q ∈ exchange_requests db → r ∈ exchange_requests db →
  ExchangeRequest.request_id q = ExchangeRequest.request_id r → q = r.
Proof.
  intros Hnd Hq Hr E.
  pose proof (get_unique ExchangeRequest.request_id _ q Hnd Hq) as Gq.
  pose proof (get_unique ExchangeRequest.request_id _ r Hnd Hr) as Gr.
  rewrite E in Gq. congruence.
Qed.

(** The row found at position [i] after [acceptExchangeRequest id], from the
    row [q] found there before. *)
Lemma accept_rows_lookup id X rows i q :
  rows !! i = Some q →
  update_where
    (λ r, ExchangeRequest.requestee_listing_id r = X
          ∧ ExchangeRequest.request_id r ≠ id)
    (ExchangeRequest.set_status "rejected")
    (update_where (λ r, ExchangeRequest.request_id r = id)
       (ExchangeRequest.set_status "accepted") rows) !! i
  = Some (if decide (ExchangeRequest.request_id q = id)
          then ExchangeRequest.set_status "accepted" q
          else if decide (ExchangeRequest.requestee_listing_id q = X)
               then ExchangeRequest.set_status "rejected" q
               else q).
Proof.
  intros Hq. unfold update_where. rewrite !list_lookup_fmap, Hq. simpl.
  f_equal. destruct (decide (ExchangeRequest.request_id q = id)) as [Hid|Hid].
  - rewrite decide_False; [done|]. simpl. tauto.
  - destruct (decide (ExchangeRequest.requestee_listing_id q = X)) as [HX|HX].
    + by rewrite decide_True.
    + rewrite decide_False; [done|]. tauto.
Qed.

(** C1: after [accept(R.request_id)] on a stored request [R] whose requestee
    listing is [X], [R] is [accepted], every other request on [X] is
    [rejected] whatever its status was, and a request on another listing
    keeps its status (the whole row is as before). *)
Theorem accept_cascades_on_requestee db R :
  request_ids_unique db →
  R ∈ exchange_requests db →
  ∃ db',
    ExchangeRequestsDAO.acceptExchangeRequest (ExchangeRequest.request_id R) db
    = (Ok (ExchangeRequest.set_status "accepted" R), db')
    ∧ length (exchange_requests db') = length (exchange_requests db)
    ∧ (∀ i, exchange_requests db !! i = Some R →
            exchange_requests db' !! i
            = Some (ExchangeRequest.set_status "accepted" R))
    ∧ (∀ i q, exchange_requests db !! i = Some q →
              ExchangeRequest.request_id q ≠ ExchangeRequest.request_id R →
              ExchangeRequest.requestee_listing_id q
              = ExchangeRequest.requestee_listing_id R →
              exchange_requests db' !! i
              = Some (ExchangeRequest.set_status "rejected" q))
    ∧ (∀ i q, exchange_requests db !! i = Some q →
              ExchangeRequest.requestee_listing_id q
              ≠ ExchangeRequest.requestee_listing_id R →
              exchange_requests db' !! i = Some q).
Proof.
  intros Hnd HR.
  pose proof (get_unique ExchangeRequest.request_id _ R Hnd HR) as G.
  eexists. split; [by apply acceptExchangeRequest_found|]. simpl.
  split; [unfold update_where; by rewrite !length_fmap|].
  split; [|split].
  - intros i Hi. rewrite (accept_rows_lookup _ _ _ _ _ Hi).
    by rewrite decide_True.
  - intros i q Hi Hid HX. rewrite (accept_rows_lookup _ _ _ _ _ Hi).
    by rewrite decide_False, decide_True.
  - intros i q Hi HX. rewrite (accept_rows_lookup _ _ _ _ _ Hi).
    rewrite decide_False, decide_False; [done..|].
    intros Hid. apply HX. f_equal.
    apply (request_ids_unique_eq db); [done| |done..].
    by eapply list_elem_of_lookup_2.
Qed.

Lemma accept_cascades_on_requestee_witness :
  ∃ db',
    ExchangeRequestsDAO.acceptExchangeRequest 1 (scenario true)
    = (Ok (ExchangeRequest.mk 1 100 200 "accepted" 1700000300), db')
    ∧ exchange_requests db'
      = [ExchangeRequest.mk 1 100 200 "accepted" 1700000300;
         ExchangeRequest.mk 2 100 300 "rejected" 1700000400;
         ExchangeRequest.mk 3 300 200 "pending" 1700000500;
         ExchangeRequest.mk 4 200 300 "rejected" 1700000600;
         ExchangeRequest.mk 5 200 100 "pending" 1700000700;
         ExchangeRequest.mk 6 400 300 "pending" 1700000750].
Proof.
  destruct (accept_cascades_on_requestee (scenario true)
              (ExchangeRequest.mk 1 100 200 "pending" 1700000300))
    as (db' & Hrun & _).
  - by_evaluation.
  - by_evaluation.
  - exists db'. split; [exact Hrun|].
    vm_compute in Hrun. injection Hrun as <-. reflexivity.
Defined.

Lemma frame_update_where (Q : ExchangeRequest.t → Prop)
    `{!∀ r, Decision (Q r)} s rows :
  ExchangeRequest.frame <$> update_where Q (ExchangeRequest.set_status s) rows
  = ExchangeRequest.frame <$> rows.
Proof.
  unfold update_where. rewrite <- list_fmap_compose.
  apply list_fmap_ext. intros _ r _. simpl. by destruct (decide (Q r)).
Qed.

(** C8: [accept] on a stored request writes [status] columns only: position
    by position the rows keep their [request_id], [requestee_listing_id],
    [requester_listing_id] and [request_date] (so no row is added or
    removed), and the other tables are as before. *)
Theorem accept_changes_status_only db id R :
  ExchangeRequestsDAO.getExchangeRequestById id db = (Ok R, db) →
  ∃ accepted db',
    ExchangeRequestsDAO.acceptExchangeRequest id db = (Ok accepted, db')
    ∧ ExchangeRequest.frame <$> exchange_requests db'
      = ExchangeRequest.frame <$> exchange_requests db
    ∧ db' = with_exchange_requests (exchange_requests db') db.
Proof.
  intros Hget.
  destruct (get (λ r, ExchangeRequest.request_id r = id) (exchange_requests db))
    as [R'|] eqn:E.
  - eexists _, _. split; [by apply acceptExchangeRequest_found|].
    simpl. by rewrite !frame_update_where.
  - by rewrite (getExchangeRequestById_missing _ _ E) in Hget.
Qed.

Lemma accept_changes_status_only_witness :
  ∃ accepted db',
    ExchangeRequestsDAO.acceptExchangeRequest 1 (scenario true)
    = (Ok accepted, db')
    ∧ ExchangeRequest.frame <$> exchange_requests db'
      = [(1, 100, 200, 1700000300); (2, 100, 300, 1700000400);
         (3, 300, 200, 1700000500); (4, 200, 300, 1700000600);
         (5, 200, 100, 1700000700); (6, 400, 300, 1700000750)]
    ∧ db' = with_exchange_requests (exchange_requests db') (scenario true).
Proof.
  apply (accept_changes_status_only (scenario true) 1
           (ExchangeRequest.mk 1 100 200 "pending" 1700000300)).
  vm_compute. reflexivity.
Defined.

(** C9: [accept] does not look at the status of its target: for a stored
    request [R] in any status it succeeds, leaves [R] accepted and rejects
    every other request on [R]'s requestee listing. *)
Theorem accept_ignores_current_status db id R (s : string) :
  ExchangeRequestsDAO.getExchangeRequestById id db = (Ok R, db) →
  ExchangeRequest.status R = s →
  ∃ db',
    ExchangeRequestsDAO.acceptExchangeRequest id db
    = (Ok (ExchangeRequest.set_status "accepted" R), db')
    ∧ ExchangeRequestsDAO.getExchangeRequestById id db'
      = (Ok (ExchangeRequest.set_status "accepted" R), db')
    ∧ ∀ q, q ∈ exchange_requests db' →
           ExchangeRequest.request_id q ≠ id →
           ExchangeRequest.requestee_listing_id q
           = ExchangeRequest.requestee_listing_id R →
           ExchangeRequest.status q = "rejected".
Proof.
  intros Hget _.
  destruct (get (λ r, ExchangeRequest.request_id r = id) (exchange_requests db))
    as [R'|] eqn:E;
    [|by rewrite (getExchangeRequestById_missing _ _ E) in Hget].
  rewrite (getExchangeRequestById_found _ _ _ E) in Hget.
  injection Hget as ->.
  eexists. split; [by apply acceptExchangeRequest_found|]. split.
  - apply getExchangeRequestById_found. simpl.
    rewrite !get_by_id_update_where, E. simpl.
    apply get_Some in E as [_ Hid].
    rewrite (decide_True (P := ExchangeRequest.request_id R = id)) by done.
    rewrite decide_False; [done|]. simpl. tauto.
  - simpl. intros q Hq Hid HX.
    apply list_elem_of_lookup in Hq as [i Hq].
    destruct (lookup_lt_is_Some_2 (exchange_requests db) i) as [q0 Hq0].
    { apply lookup_lt_Some in Hq.
      unfold update_where in Hq. by rewrite !length_fmap in Hq. }
    rewrite (accept_rows_lookup _ _ _ _ _ Hq0) in Hq.
    injection Hq as <-.
    destruct (decide (ExchangeRequest.request_id q0 = id)); [done|].
    destruct (decide (ExchangeRequest.requestee_listing_id q0
                      = ExchangeRequest.requestee_listing_id R)); done.
Qed.

Lemma accept_ignores_current_status_witness :
  ∃ db',
    ExchangeRequestsDAO.acceptExchangeRequest 4 (scenario true)
    = (Ok (ExchangeRequest.mk 4 200 300 "accepted" 1700000600), db')
    ∧ ExchangeRequestsDAO.getExchangeRequestById 4 db'
      = (Ok (ExchangeRequest.mk 4 200 300 "accepted" 1700000600), db')
    ∧ ∀ q, q ∈ exchange_requests db' →
           ExchangeRequest.request_id q ≠ 4 →
           ExchangeRequest.requestee_listing_id q = 200 →
           ExchangeRequest.status q = "rejected".
Proof.
  apply (accept_ignores_current_status (scenario true) 4
           (ExchangeRequest.mk 4 200 300 "rejected" 1700000600) "rejected").
  - vm_compute. reflexivity.
  - reflexivity.
Defined.

(** ** Deleting rows *)

Lemma with_book_listings_id db : with_book_listings (book_listings db) db = db.
Proof. by destruct db. Qed.

Lemma with_exchange_requests_id db :
  with_exchange_requests (exchange_requests db) db = db.
Proof. by destruct db. Qed.

Lemma deleteBookListing_absent db id :
  (∀ l, l ∈ book_listings db → BookListing.listing_id l ≠ id) →
  BookListingsDAO.deleteBookListing id db = (Ok false, db).
Proof.
  intros Habs. unfold BookListingsDAO.deleteBookListing.
  assert (¬ 0 < changes (λ l, BookListing.listing_id l = id) (book_listings db))
    as Hn.
  { rewrite changes_pos. intros (l & Hl & E). by apply (Habs l). }
  rewrite (bool_decide_eq_false_2 _ Hn), andb_false_r.
  simpl. rewrite delete_where_none by done.
  by rewrite with_book_listings_id.
Qed.

Lemma deleteBookListing_listings db id :
  book_listings (BookListingsDAO.deleteBookListing id db).2
  = delete_where (λ l, BookListing.listing_id l = id) (book_listings db).
Proof.
  unfold BookListingsDAO.deleteBookListing. simpl.
  by destruct (foreign_keys db && _).
Qed.

(** C7: on both stores [delete(id)] answers [true] exactly when a row with
    that id was stored, leaves no such row behind, and a second [delete(id)]
    answers [false] without throwing and without changing the store again. *)
Theorem delete_reports_removal_and_repeats_as_false db id :
  (∃ b db1,
     BookListingsDAO.deleteBookListing id db = (Ok b, db1)
     ∧ (b = true ↔ ∃ l, l ∈ book_listings db ∧ BookListing.listing_id l = id)
     ∧ (∀ l, l ∈ book_listings db1 → BookListing.listing_id l ≠ id)
     ∧ BookListingsDAO.deleteBookListing id db1 = (Ok false, db1))
  ∧ (∃ b db1,
       ExchangeRequestsDAO.deleteExchangeRequest id db = (Ok b, db1)
       ∧ (b = true
          ↔ ∃ r, r ∈ exchange_requests db ∧ ExchangeRequest.request_id r = id)
       ∧ (∀ r, r ∈ exchange_requests db1 → ExchangeRequest.request_id r ≠ id)
       ∧ ExchangeRequestsDAO.deleteExchangeRequest id db1 = (Ok false, db1)).
Proof.
  split.
  - exists (bool_decide
              (0 < changes (λ l, BookListing.listing_id l = id)
                     (book_listings db))),
           (BookListingsDAO.deleteBookListing id db).2.
    assert (∀ l, l ∈ book_listings (BookListingsDAO.deleteBookListing id db).2
                 → BookListing.listing_id l ≠ id) as Habs.
    { intros l. rewrite deleteBookListing_listings, elem_of_delete_where.
      tauto. }
    split; [done|].
    split; [by rewrite bool_decide_eq_true, changes_pos|].
    split; [done | by apply deleteBookListing_absent].
  - eexists _, _. split; [done|]. split; [|split].
    + by rewrite bool_decide_eq_true, changes_pos.
    + simpl. intros r. rewrite elem_of_delete_where. tauto.
    + unfold ExchangeRequestsDAO.deleteExchangeRequest. simpl.
      rewrite changes_delete_where, delete_where_idemp. done.
Qed.

(** ** Updating a row that is not there *)

Lemma getBookListingById_found db id l :
  get (λ l, BookListing.listing_id l = id) (book_listings db) = Some l →
  BookListingsDAO.getBookListingById id db = (Ok l, db).
Proof.
  intros E. unfold BookListingsDAO.getBookListingById, bind, read.
  by rewrite E.
Qed.

Lemma getBookListingById_missing db id :
  get (λ l, BookListing.listing_id l = id) (book_listings db) = None →
  BookListingsDAO.getBookListingById id db
  = (Throw {| name := BookListingNotFoundError;
              message := "Book listing with ID " +:+ pretty id
                         +:+ " not found" |}, db).
Proof.
  intros E. unfold BookListingsDAO.getBookListingById, bind, read.
  by rewrite E.
Qed.

Lemma updateBookListing_missing db id updates :
  get (λ l, BookListing.listing_id l = id) (book_listings db) = None →
  BookListingsDAO.updateBookListing id updates db
  = (Throw {| name := UpdateBookListingError;
              message := "Failed to retrieve updated listing. Transaction failed and rolled back." |},
     db).
Proof.
  intros E.
  unfold BookListingsDAO.updateBookListing, transaction, try_catch, bind.
  destruct (BookListingsDAO.has_fields updates).
  - unfold BookListingsDAO.run_update.
    assert (filter (λ l, BookListing.listing_id l = id) (book_listings db) = [])
      as -> by (by apply head_None).
    rewrite bool_decide_eq_false_2 by tauto.
    rewrite andb_false_r. simpl.
    erewrite getBookListingById_missing; [done|]. simpl.
    unfold update_where. rewrite get_fmap_preserve; [by rewrite E|].
    intros l. by destruct (decide _).
  - simpl. by rewrite (getBookListingById_missing _ _ E).
Qed.

(** C6, as the code has it: when no row has the id, [update] on the Listing
    Store throws [UpdateBookListingError] and [updateStatus] on the Exchange
    Request Store throws [UpdateExchangeRequestError], the not-found error of
    the read-back being replaced inside the transaction; both leave the
    database as it was. *)
Theorem update_of_absent_row_throws_update_error db lid updates rid s :
  (∀ l, l ∈ book_listings db → BookListing.listing_id l ≠ lid) →
  (∀ r, r ∈ exchange_requests db → ExchangeRequest.request_id r ≠ rid) →
  BookListingsDAO.updateBookListing lid updates db
  = (Throw {| name := UpdateBookListingError;
              message := "Failed to retrieve updated listing. Transaction failed and rolled back." |},
     db)
  ∧ ExchangeRequestsDAO.updateExchangeRequestStatus rid s db
    = (Throw {| name := UpdateExchangeRequestError;
                message := "Failed to retrieve updated exchange request. Transaction failed and rolled back." |},
       db).
Proof.
  intros Hl Hr. split.
  - apply updateBookListing_missing. by apply get_None.
  - apply updateExchangeRequestStatus_missing. by apply get_None.
Qed.

Lemma update_of_absent_row_throws_update_error_witness :
  BookListingsDAO.updateBookListing 999
    {| upd_description := Some "signed copy"; upd_list_on_date := None;
       upd_user_id := None; upd_book_id := None |} (scenario true)
  = (Throw {| name := UpdateBookListingError;
              message := "Failed to retrieve updated listing. Transaction failed and rolled back." |},
     scenario true)
  ∧ ExchangeRequestsDAO.updateExchangeRequestStatus 999 "accepted"
      (scenario true)
    = (Throw {| name := UpdateExchangeRequestError;
                message := "Failed to retrieve updated exchange request. Transaction failed and rolled back." |},
       scenario true).
Proof.
  apply (update_of_absent_row_throws_update_error (scenario true)).
  - for_each_row.
  - for_each_row.
Defined.

(** C6 as stated fails: no row has id 999, and neither operation throws the
    store's not-found error. *)
Lemma update_of_absent_row_not_found_counterexample :
  (∀ l, l ∈ book_listings (scenario true) → BookListing.listing_id l ≠ 999)
  ∧ (∀ r, r ∈ exchange_requests (scenario true)
          → ExchangeRequest.request_id r ≠ 999)
  ∧ ¬ (∃ msg,
         (BookListingsDAO.updateBookListing 999
            {| upd_description := Some "signed copy"; upd_list_on_date := None;
               upd_user_id := None; upd_book_id := None |}
            (scenario true)).1
         = Throw {| name := BookListingNotFoundError; message := msg |})
  ∧ ¬ (∃ msg,
         (ExchangeRequestsDAO.updateExchangeRequestStatus 999 "accepted"
            (scenario true)).1
         = Throw {| name := ExchangeRequestNotFoundError; message := msg |}).
Proof.
  split; [|split; [|split]].
  - for_each_row.
  - for_each_row.
  - intros [msg H]. vm_compute in H. discriminate H.
  - intros [msg H]. vm_compute in H. discriminate H.
Qed.

(** ** Creating requests *)

Lemma max_rowid_ge rows r :
  r ∈ rows →
  (ExchangeRequest.request_id r ≤ ExchangeRequestsDAO.max_rowid rows)%Z.
Proof.
  unfold ExchangeRequestsDAO.max_rowid.
  induction rows as [|q rows IH]; intros Hr.
  - by apply elem_of_nil in Hr.
  - rewrite fmap_cons. simpl. apply elem_of_cons in Hr as [->|Hr].
    + lia.
    + specialize (IH Hr). lia.
Qed.

Lemma listing_owner_exists db id u :
  ExchangeRequestsDAO.listing_owner db id = Some u → listing_exists db id.
Proof.
  unfold ExchangeRequestsDAO.listing_owner, listing_exists.
  destruct (get _ _) as [l|] eqn:E; [|done]. intros _.
  apply get_Some in E as [Hl Hid]. apply Exists_exists. eauto.
Qed.

Lemma createExchangeRequest_ok db now req ua ub :
  ExchangeRequestsDAO.listing_owner db (new_requestee_listing_id req) = Some ua →
  ExchangeRequestsDAO.listing_owner db (new_requester_listing_id req) = Some ub →
  ua ≠ ub →
  let r :=
    inserted db (new_requestee_listing_id req) (new_requester_listing_id req)
      (if decide (new_status req = "") then "pending" else new_status req)
      (default (now `div` 1000) (new_request_date req)) in
  ExchangeRequestsDAO.createExchangeRequest now req db
  = (Ok r, after_insert db r).
Proof.
  intros Ha Hb Hne r.
  unfold ExchangeRequestsDAO.createExchangeRequest, try_catch, transaction,
    bind, read.
  rewrite Ha, Hb, decide_False by done.
  unfold ExchangeRequestsDAO.insert.
  rewrite bool_decide_eq_true_2 by eauto using listing_owner_exists.
  rewrite andb_false_r. fold r.
  erewrite getExchangeRequestById_found; [done|]. simpl.
  apply get_snoc_fresh; [|done].
  intros q Hq. apply max_rowid_ge in Hq. subst r. simpl. lia.
Qed.

Lemma createExchangeRequest_same_owner db now req u :
  ExchangeRequestsDAO.listing_owner db (new_requestee_listing_id req) = Some u →
  ExchangeRequestsDAO.listing_owner db (new_requester_listing_id req) = Some u →
  ExchangeRequestsDAO.createExchangeRequest now req db
  = (Throw {| name := CreateExchangeRequestError;
              message := "Failed to create exchange request: Cannot create exchange request between listings owned by the same user" |},
     db).
Proof.
  intros Ha Hb.
  unfold ExchangeRequestsDAO.createExchangeRequest, try_catch, transaction,
    bind, read.
  by rewrite Ha, Hb, decide_True.
Qed.

Lemma createExchangeRequest_not_found db now req :
  ExchangeRequestsDAO.listing_owner db (new_requestee_listing_id req) = None
  ∨ ExchangeRequestsDAO.listing_owner db (new_requester_listing_id req) = None →
  ExchangeRequestsDAO.createExchangeRequest now req db
  = (Throw {| name := CreateExchangeRequestError;
              message := "Failed to create exchange request: One or both listings not found" |},
     db).
Proof.
  intros H.
  unfold ExchangeRequestsDAO.createExchangeRequest, try_catch, transaction,
    bind, read.
  destruct H as [-> | ->]; [done|].
  by destruct (ExchangeRequestsDAO.listing_owner db
                 (new_requestee_listing_id req)).
Qed.

(** [create] of the Exchange Request Store never succeeds on a listing paired
    with itself or with a listing of the same owner. *)
Lemma createExchangeRequest_self db now req :
  new_requestee_listing_id req = new_requester_listing_id req →
  ∃ msg,
    ExchangeRequestsDAO.createExchangeRequest now req db
    = (Throw {| name := CreateExchangeRequestError; message := msg |}, db).
Proof.
  intros E.
  destruct (ExchangeRequestsDAO.listing_owner db (new_requestee_listing_id req))
    as [u|] eqn:Ha.
  - eexists. apply (createExchangeRequest_same_owner _ _ _ u); congruence.
  - eexists. apply createExchangeRequest_not_found. by left.
Qed.

Lemma exchangeRequestExists_run db a b :
  ExchangeRequestsDAO.exchangeRequestExists a b db
  = (Ok (bool_decide
           (0 < changes
                  (λ r, ExchangeRequest.requestee_listing_id r = a
                        ∧ ExchangeRequest.requester_listing_id r = b)
                  (exchange_requests db))), db).
Proof. done. Qed.

Lemma exchangeRequestExists_true db a b :
  ExchangeRequestsDAO.exchangeRequestExists a b db = (Ok true, db)
  ↔ ∃ r, r ∈ exchange_requests db
         ∧ ExchangeRequest.requestee_listing_id r = a
         ∧ ExchangeRequest.requester_listing_id r = b.
Proof.
  rewrite exchangeRequestExists_run. split.
  - intros H. injection H as H. apply bool_decide_eq_true in H.
    apply changes_pos in H. naive_solver.
  - intros (r & Hr & Ha & Hb). do 2 f_equal.
    apply bool_decide_eq_true, changes_pos. eauto.
Qed.

Lemma service_create_duplicate db now a b :
  ExchangeRequestsDAO.exchangeRequestExists a b db = (Ok true, db) →
  ExchangeService.createExchangeRequest now a b db
  = (Throw {| name := CreateExchangeRequestError;
              message := "An exchange request already exists between these listings" |},
     db).
Proof.
  intros E. unfold ExchangeService.createExchangeRequest, try_catch, bind.
  by rewrite E.
Qed.

Lemma service_create_ok db now a b r db' :
  ExchangeRequestsDAO.exchangeRequestExists a b db = (Ok false, db) →
  ExchangeRequestsDAO.createExchangeRequest now (proposal now a b) db
  = (Ok r, db') →
  ExchangeService.createExchangeRequest now a b db = (Ok r, db').
Proof.
  intros E Hc. unfold ExchangeService.createExchangeRequest, try_catch, bind.
  rewrite E. fold (proposal now a b). by rewrite Hc.
Qed.

Lemma service_create_rejected db now a b :
  rejects CreateExchangeRequestError
    (ExchangeRequestsDAO.createExchangeRequest now (proposal now a b)) db →
  rejects CreateExchangeRequestError
    (ExchangeService.createExchangeRequest now a b) db.
Proof.
  intros [msg Hc].
  destruct (bool_decide
              (0 < changes
                     (λ r, ExchangeRequest.requestee_listing_id r = a
                           ∧ ExchangeRequest.requester_listing_id r = b)
                     (exchange_requests db))) eqn:E.
  - eexists. apply service_create_duplicate.
    by rewrite exchangeRequestExists_run, E.
  - exists msg.
    unfold ExchangeService.createExchangeRequest, try_catch, bind.
    rewrite exchangeRequestExists_run, E. fold (proposal now a b).
    by rewrite Hc.
Qed.

(** C4: [create(L1, L1)] always fails with the store's creation error
    ([CreateExchangeRequestError], the code's validation error), and so does
    [create(L1, L2)] for two listings of one owner; in both cases the
    database, and with it the set of exchange requests, is as before.  This
    holds for the DAO's [createExchangeRequest] and for the service in front
    of it. *)
Theorem create_rejects_self_exchange db now :
  (∀ L1,
     rejects CreateExchangeRequestError
       (ExchangeService.createExchangeRequest now L1 L1) db)
  ∧ (∀ L1 L2 A,
       ExchangeRequestsDAO.listing_owner db L1 = Some A →
       ExchangeRequestsDAO.listing_owner db L2 = Some A →
       rejects CreateExchangeRequestError
         (ExchangeService.createExchangeRequest now L1 L2) db)
  ∧ (∀ req,
       new_requestee_listing_id req = new_requester_listing_id req →
       rejects CreateExchangeRequestError
         (ExchangeRequestsDAO.createExchangeRequest now req) db)
  ∧ (∀ req A,
       ExchangeRequestsDAO.listing_owner db (new_requestee_listing_id req)
       = Some A →
       ExchangeRequestsDAO.listing_owner db (new_requester_listing_id req)
       = Some A →
       ExchangeRequestsDAO.createExchangeRequest now req db
       = (Throw {| name := CreateExchangeRequestError;
                   message := "Failed to create exchange request: Cannot create exchange request between listings owned by the same user" |},
          db)).
Proof.
  split; [|split; [|split]].
  - intros L1. apply service_create_rejected.
    by apply createExchangeRequest_self.
  - intros L1 L2 A H1 H2. apply service_create_rejected.
    eexists. by apply (createExchangeRequest_same_owner _ _ _ A).
  - intros req. apply createExchangeRequest_self.
  - intros req A. apply createExchangeRequest_same_owner.
Qed.

Lemma create_rejects_self_exchange_witness :
  rejects CreateExchangeRequestError
    (ExchangeService.createExchangeRequest 1700000800999 100 100)
    (scenario_second_listing true)
  ∧ rejects CreateExchangeRequestError
      (ExchangeService.createExchangeRequest 1700000800999 500 100)
      (scenario_second_listing true)
  ∧ ExchangeRequestsDAO.createExchangeRequest 1700000800999
      (proposal 1700000800999 500 100) (scenario_second_listing true)
    = (Throw {| name := CreateExchangeRequestError;
                message := "Failed to create exchange request: Cannot create exchange request between listings owned by the same user" |},
       scenario_second_listing true).
Proof.
  pose proof (create_rejects_self_exchange (scenario_second_listing true)
                1700000800999) as (Hself & Hsame & _ & Hdao).
  split; [apply Hself|]. split.
  - apply (Hsame 500 100 1); reflexivity.
  - apply (Hdao (proposal 1700000800999 500 100) 1); reflexivity.
Defined.

Lemma exchangeRequestExists_false db a b :
  ExchangeRequestsDAO.exchangeRequestExists a b db = (Ok false, db)
  ↔ ∀ r, r ∈ exchange_requests db →
         ¬ (ExchangeRequest.requestee_listing_id r = a
            ∧ ExchangeRequest.requester_listing_id r = b).
Proof.
  rewrite exchangeRequestExists_run. split.
  - intros H r Hr Hm. injection H as H. apply bool_decide_eq_false in H.
    apply H, changes_pos. eauto.
  - intros H. do 2 f_equal. apply bool_decide_eq_false.
    rewrite changes_pos. intros (r & Hr & Hm). by apply (H r).
Qed.

Lemma exchangeRequestExists_after_insert db a b r :
  ¬ (ExchangeRequest.requestee_listing_id r = a
     ∧ ExchangeRequest.requester_listing_id r = b) →
  ExchangeRequestsDAO.exchangeRequestExists a b db = (Ok false, db) →
  ExchangeRequestsDAO.exchangeRequestExists a b (after_insert db r)
  = (Ok false, after_insert db r).
Proof.
  rewrite !exchangeRequestExists_false. simpl. intros Hr Hdb q Hq.
  apply elem_of_app in Hq as [Hq|Hq]; [by apply Hdb|].
  apply list_elem_of_singleton in Hq. by subst q.
Qed.

(** C3: with listing [L1] owned by [A], listing [L2] owned by [B ≠ A] and no
    request yet for the ordered pair, [create(L1, L2)] succeeds and stores a
    pending request; a second [create(L1, L2)] fails with the duplicate error
    ([CreateExchangeRequestError], "already exists") and stores nothing; and
    the reverse [create(L2, L1)] still succeeds afterwards whenever no request
    for the reverse pair was there before. *)
Theorem create_once_per_ordered_pair db now now2 now3 L1 L2 A B :
  ExchangeRequestsDAO.listing_owner db L1 = Some A →
  ExchangeRequestsDAO.listing_owner db L2 = Some B →
  A ≠ B →
  ExchangeRequestsDAO.exchangeRequestExists L1 L2 db = (Ok false, db) →
  ∃ r1 db1,
    ExchangeService.createExchangeRequest now L1 L2 db = (Ok r1, db1)
    ∧ ExchangeRequest.requestee_listing_id r1 = L1
    ∧ ExchangeRequest.requester_listing_id r1 = L2
    ∧ ExchangeRequest.status r1 = "pending"
    ∧ exchange_requests db1 = (exchange_requests db ++ [r1])%list
    ∧ ExchangeService.createExchangeRequest now2 L1 L2 db1
      = (Throw {| name := CreateExchangeRequestError;
                  message := "An exchange request already exists between these listings" |},
         db1)
    ∧ (ExchangeRequestsDAO.exchangeRequestExists L2 L1 db = (Ok false, db) →
       ∃ r2 db2,
         ExchangeService.createExchangeRequest now3 L2 L1 db1 = (Ok r2, db2)
         ∧ ExchangeRequest.requestee_listing_id r2 = L2
         ∧ ExchangeRequest.requester_listing_id r2 = L1
         ∧ ExchangeRequest.status r2 = "pending"
         ∧ exchange_requests db2 = (exchange_requests db ++ [r1; r2])%list).
Proof.
  intros HA HB Hne Hfresh.
  pose proof (createExchangeRequest_ok db now (proposal now L1 L2) A B
                HA HB Hne) as Hc.
  simpl in Hc. set (r1 := inserted db L1 L2 "pending" (now `div` 1000)) in Hc.
  exists r1, (after_insert db r1).
  split; [by apply service_create_ok|].
  do 4 (split; [done|]). split.
  - apply service_create_duplicate, exchangeRequestExists_true.
    exists r1. split; [|done]. simpl. apply elem_of_app. right. left.
  - intros Hrev.
    assert (L1 ≠ L2) as HL by congruence.
    pose proof (createExchangeRequest_ok (after_insert db r1) now3
                  (proposal now3 L2 L1) B A HB HA (not_eq_sym Hne)) as Hc2.
    simpl in Hc2.
    set (r2 := inserted (after_insert db r1) L2 L1 "pending"
                 (now3 `div` 1000)) in Hc2.
    exists r2, (after_insert (after_insert db r1) r2).
    split.
    + apply service_create_ok; [|done].
      apply exchangeRequestExists_after_insert; [|done].
      simpl. intros [? ?]. by apply HL.
    + do 3 (split; [done|]). simpl. by rewrite <- app_assoc.
Qed.

Lemma create_once_per_ordered_pair_witness :
  ExchangeRequestsDAO.exchangeRequestExists 100 400 (scenario true)
  = (Ok false, scenario true)
  ∧ ∃ r1 db1,
      ExchangeService.createExchangeRequest 1700000800999 400 100
        (scenario true)
      = (Ok r1, db1)
      ∧ ExchangeRequest.requestee_listing_id r1 = 400
      ∧ ExchangeRequest.requester_listing_id r1 = 100
      ∧ ExchangeRequest.status r1 = "pending"
      ∧ exchange_requests db1
        = (exchange_requests (scenario true) ++ [r1])%list
      ∧ ExchangeService.createExchangeRequest 1700000900999 400 100 db1
        = (Throw {| name := CreateExchangeRequestError;
                    message := "An exchange request already exists between these listings" |},
           db1)
      ∧ ∃ r2 db2,
          ExchangeService.createExchangeRequest 1700001000999 100 400 db1
          = (Ok r2, db2)
          ∧ ExchangeRequest.requestee_listing_id r2 = 100
          ∧ ExchangeRequest.requester_listing_id r2 = 400
          ∧ ExchangeRequest.status r2 = "pending"
          ∧ exchange_requests db2
            = (exchange_requests (scenario true) ++ [r1; r2])%list.
Proof.
  assert (ExchangeRequestsDAO.exchangeRequestExists 100 400 (scenario true)
          = (Ok false, scenario true)) as Hreverse
    by (vm_compute; reflexivity).
  split; [exact Hreverse|].
  destruct (create_once_per_ordered_pair (scenario true) 1700000800999
              1700000900999 1700001000999 400 100 4 1)
    as (r1 & db1 & Hrun & Hee & Her & Hst & Hrows & Hdup & Hrev);
    [reflexivity | reflexivity | lia | vm_compute; reflexivity | ].
  exists r1, db1.
  split; [exact Hrun|]. split; [exact Hee|]. split; [exact Her|].
  split; [exact Hst|]. split; [exact Hrows|]. split; [exact Hdup|].
  exact (Hrev Hreverse).
Defined.

(** ** The accept route *)

Lemma getUserProfile_found db username u :
  get (λ u, User.username u = username) (users db) = Some u →
  UserService.getUserProfile username db = (Ok u, db).
Proof.
  intros E.
  unfold UserService.getUserProfile, try_catch, UserDAO.getUserByUsername,
    bind, read.
  by rewrite E.
Qed.

Lemma getUserProfile_missing db username :
  get (λ u, User.username u = username) (users db) = None →
  UserService.getUserProfile username db
  = (Throw {| name := UserNotFoundError;
              message := "User with username " +:+ username +:+ " not found" |},
     db).
Proof.
  intros E.
  unfold UserService.getUserProfile, try_catch, UserDAO.getUserByUsername,
    bind, read.
  by rewrite E.
Qed.

(** A caller who does not own the requestee listing is turned away before
    anything is written. *)
Lemma acceptExchange_forbidden db username id R u l :
  get (λ r, ExchangeRequest.request_id r = id) (exchange_requests db) = Some R →
  get (λ u, User.username u = username) (users db) = Some u →
  get (λ l, BookListing.listing_id l = ExchangeRequest.requestee_listing_id R)
      (book_listings db) = Some l →
  BookListing.user_id l ≠ User.user_id u →
  acceptExchange (Some username) (Some id) db
  = ({| status_code := 403;
        body := ErrorBody "Only the owner of the requested book can accept an exchange request" |},
     db).
Proof.
  intros HR Hu Hl Hne. unfold acceptExchange, bind.
  unfold ExchangeService.getExchangeRequestById,
    BooksService.getBookListingById.
  rewrite (getExchangeRequestById_found _ _ _ HR).
  rewrite (getUserProfile_found _ _ _ Hu).
  rewrite (getBookListingById_found _ _ _ Hl).
  by rewrite decide_True.
Qed.

(** The owner's accept: the request is accepted with its cascade, then both
    listings are deleted. *)
Lemma acceptExchange_owner db username id R u l :
  get (λ r, ExchangeRequest.request_id r = id) (exchange_requests db) = Some R →
  get (λ u, User.username u = username) (users db) = Some u →
  get (λ l, BookListing.listing_id l = ExchangeRequest.requestee_listing_id R)
      (book_listings db) = Some l →
  BookListing.user_id l = User.user_id u →
  acceptExchange (Some username) (Some id) db
  = ({| status_code := 200;
        body := ExchangeBody (ExchangeRequest.set_status "accepted" R) |},
     (BookListingsDAO.deleteBookListing
        (ExchangeRequest.requester_listing_id R)
        (BookListingsDAO.deleteBookListing
           (ExchangeRequest.requestee_listing_id R)
           (ExchangeRequestsDAO.acceptExchangeRequest id db).2).2).2).
Proof.
  intros HR Hu Hl Heq. unfold acceptExchange, bind.
  unfold ExchangeService.getExchangeRequestById,
    BooksService.getBookListingById, ExchangeService.acceptExchangeRequest,
    BooksService.deleteBookListing.
  rewrite (getExchangeRequestById_found _ _ _ HR).
  rewrite (getUserProfile_found _ _ _ Hu).
  rewrite (getBookListingById_found _ _ _ Hl).
  rewrite decide_False by (intros H; by apply H).
  by rewrite (acceptExchangeRequest_found _ _ _ HR).
Qed.

(** Whatever the caller and the id, a response other than 200 means that the
    database was not written. *)
Lemma acceptExchange_failure_writes_nothing db req_user requestId :
  status_code (acceptExchange req_user requestId db).1 ≠ 200 →
  (acceptExchange req_user requestId db).2 = db.
Proof.
  unfold acceptExchange, bind.
  destruct requestId as [id|]; [|done].
  destruct req_user as [username|]; [|done].
  unfold ExchangeService.getExchangeRequestById,
    BooksService.getBookListingById, ExchangeService.acceptExchangeRequest,
    BooksService.deleteBookListing.
  destruct (get (λ r, ExchangeRequest.request_id r = id) (exchange_requests db))
    as [R|] eqn:HR.
  2: { by rewrite (getExchangeRequestById_missing _ _ HR). }
  rewrite (getExchangeRequestById_found _ _ _ HR).
  destruct (get (λ u, User.username u = username) (users db)) as [u|] eqn:Hu.
  2: { by rewrite (getUserProfile_missing _ _ Hu). }
  rewrite (getUserProfile_found _ _ _ Hu).
  destruct (get (λ l, BookListing.listing_id l
                      = ExchangeRequest.requestee_listing_id R)
                (book_listings db)) as [l|] eqn:Hl.
  2: { by rewrite (getBookListingById_missing _ _ Hl). }
  rewrite (getBookListingById_found _ _ _ Hl).
  destruct (decide (BookListing.user_id l ≠ User.user_id u)); [done|].
  rewrite (acceptExchangeRequest_found _ _ _ HR). simpl. done.
Qed.

(** C2: a caller who is not the owner of the requestee listing of a stored
    request gets 403 (the route's authorization failure) and the database is
    left exactly as it was: the request keeps its status, no sibling is
    rejected, and both listings stay in the Listing Store. *)
Theorem accept_by_non_owner_is_refused db username u id R l :
  ExchangeRequestsDAO.getExchangeRequestById id db = (Ok R, db) →
  UserService.getUserProfile username db = (Ok u, db) →
  BookListingsDAO.getBookListingById
    (ExchangeRequest.requestee_listing_id R) db = (Ok l, db) →
  BookListing.user_id l ≠ User.user_id u →
  ∃ response db',
    acceptExchange (Some username) (Some id) db = (response, db')
    ∧ status_code response = 403
    ∧ db' = db
    ∧ ExchangeRequestsDAO.getExchangeRequestById id db' = (Ok R, db')
    ∧ book_listings db' = book_listings db
    ∧ exchange_requests db' = exchange_requests db.
Proof.
  intros HR Hu Hl Hne.
  destruct (get (λ r, ExchangeRequest.request_id r = id) (exchange_requests db))
    as [R'|] eqn:ER;
    [|by rewrite (getExchangeRequestById_missing _ _ ER) in HR].
  rewrite (getExchangeRequestById_found _ _ _ ER) in HR. injection HR as ->.
  destruct (get (λ u, User.username u = username) (users db)) as [u'|] eqn:Eu.
  2: { by rewrite (getUserProfile_missing _ _ Eu) in Hu. }
  rewrite (getUserProfile_found _ _ _ Eu) in Hu. injection Hu as ->.
  destruct (get (λ l, BookListing.listing_id l
                      = ExchangeRequest.requestee_listing_id R)
                (book_listings db)) as [l'|] eqn:El;
    [|by rewrite (getBookListingById_missing _ _ El) in Hl].
  rewrite (getBookListingById_found _ _ _ El) in Hl. injection Hl as ->.
  eexists _, db. split; [by eapply acceptExchange_forbidden|].
  repeat split; try done. by apply getExchangeRequestById_found.
Qed.

Lemma accept_by_non_owner_is_refused_witness :
  ∃ response db',
    acceptExchange (Some "bob") (Some 1) (scenario true) = (response, db')
    ∧ status_code response = 403
    ∧ db' = scenario true
    ∧ ExchangeRequestsDAO.getExchangeRequestById 1 db'
      = (Ok (ExchangeRequest.mk 1 100 200 "pending" 1700000300), db')
    ∧ book_listings db' = book_listings (scenario true)
    ∧ exchange_requests db' = exchange_requests (scenario true).
Proof.
  apply (accept_by_non_owner_is_refused (scenario true) "bob" (User.mk 2 "bob")
           1 (ExchangeRequest.mk 1 100 200 "pending" 1700000300)
           (BookListing.mk 100 "worn" 1700000000 1 10)).
  - vm_compute. reflexivity.
  - vm_compute. reflexivity.
  - vm_compute. reflexivity.
  - simpl. lia.
Defined.

Lemma getExchangeRequestById_inv db id R :
  ExchangeRequestsDAO.getExchangeRequestById id db = (Ok R, db) →
  get (λ r, ExchangeRequest.request_id r = id) (exchange_requests db) = Some R.
Proof.
  intros H.
  destruct (get (λ r, ExchangeRequest.request_id r = id) (exchange_requests db))
    as [R'|] eqn:E.
  - rewrite (getExchangeRequestById_found _ _ _ E) in H. congruence.
  - by rewrite (getExchangeRequestById_missing _ _ E) in H.
Qed.

Lemma getUserProfile_inv db username u :
  UserService.getUserProfile username db = (Ok u, db) →
  get (λ u, User.username u = username) (users db) = Some u.
Proof.
  intros H.
  destruct (get (λ u, User.username u = username) (users db)) as [u'|] eqn:E.
  - rewrite (getUserProfile_found _ _ _ E) in H. congruence.
  - by rewrite (getUserProfile_missing _ _ E) in H.
Qed.

Lemma getBookListingById_inv db id l :
  BookListingsDAO.getBookListingById id db = (Ok l, db) →
  get (λ l, BookListing.listing_id l = id) (book_listings db) = Some l.
Proof.
  intros H.
  destruct (get (λ l, BookListing.listing_id l = id) (book_listings db))
    as [l'|] eqn:E.
  - rewrite (getBookListingById_found _ _ _ E) in H. congruence.
  - by rewrite (getBookListingById_missing _ _ E) in H.
Qed.

(** C5: when the owner of the requestee listing accepts a stored request
    through the route, the route answers 200 with the accepted request and
    neither of the two listings of the request is among [listAll()]
    afterwards. *)
Theorem accepted_listings_leave_the_store db username u id R l :
  ExchangeRequestsDAO.getExchangeRequestById id db = (Ok R, db) →
  UserService.getUserProfile username db = (Ok u, db) →
  BookListingsDAO.getBookListingById
    (ExchangeRequest.requestee_listing_id R) db = (Ok l, db) →
  BookListing.user_id l = User.user_id u →
  ∃ db' all,
    acceptExchange (Some username) (Some id) db
    = ({| status_code := 200;
          body := ExchangeBody (ExchangeRequest.set_status "accepted" R) |},
       db')
    ∧ BookListingsDAO.getAllBookListings db' = (Ok all, db')
    ∧ ∀ x, x ∈ all →
           BookListing.listing_id x ≠ ExchangeRequest.requestee_listing_id R
           ∧ BookListing.listing_id x ≠ ExchangeRequest.requester_listing_id R.
Proof.
  intros HR%getExchangeRequestById_inv Hu%getUserProfile_inv
         Hl%getBookListingById_inv Hown.
  eexists _, _. split; [by eapply acceptExchange_owner|].
  split; [done|].
  intros x. rewrite !deleteBookListing_listings.
  rewrite (acceptExchangeRequest_found _ _ _ HR). simpl.
  rewrite !elem_of_delete_where. tauto.
Qed.

Lemma accepted_listings_leave_the_store_witness :
  ∃ db' all,
    acceptExchange (Some "alice") (Some 1) (scenario false)
    = ({| status_code := 200;
          body := ExchangeBody
                    (ExchangeRequest.mk 1 100 200 "accepted" 1700000300) |},
       db')
    ∧ BookListingsDAO.getAllBookListings db' = (Ok all, db')
    ∧ ∀ x, x ∈ all →
           BookListing.listing_id x ≠ 100 ∧ BookListing.listing_id x ≠ 200.
Proof.
  apply (accepted_listings_leave_the_store (scenario false) "alice"
           (User.mk 1 "alice") 1
           (ExchangeRequest.mk 1 100 200 "pending" 1700000300)
           (BookListing.mk 100 "worn" 1700000000 1 10));
    vm_compute; reflexivity.
Defined.

(** ** Listings retired by the route, and the requests that reference them *)

Lemma deleteBookListing_requests db id :
  exchange_requests (BookListingsDAO.deleteBookListing id db).2
  = if foreign_keys db
       && bool_decide (0 < changes (λ l, BookListing.listing_id l = id)
                              (book_listings db))
    then delete_where
           (λ r, ExchangeRequest.requestee_listing_id r = id
                 ∨ ExchangeRequest.requester_listing_id r = id)
           (exchange_requests db)
    else exchange_requests db.
Proof.
  unfold BookListingsDAO.deleteBookListing. simpl.
  by destruct (foreign_keys db && _).
Qed.

Lemma deleteBookListing_foreign_keys db id :
  foreign_keys (BookListingsDAO.deleteBookListing id db).2 = foreign_keys db.
Proof.
  unfold BookListingsDAO.deleteBookListing. simpl.
  by destruct (foreign_keys db && _).
Qed.

Lemma listing_exists_changes db id :
  listing_exists db id
  ↔ 0 < changes (λ l, BookListing.listing_id l = id) (book_listings db).
Proof. unfold listing_exists. by rewrite Exists_exists, changes_pos. Qed.

Lemma listing_exists_after_delete db id id' :
  listing_exists (BookListingsDAO.deleteBookListing id db).2 id'
  ↔ listing_exists db id' ∧ id' ≠ id.
Proof.
  unfold listing_exists. rewrite deleteBookListing_listings, !Exists_exists.
  split.
  - intros (l & Hl & E). apply elem_of_delete_where in Hl as [Hl Hne].
    split; [eauto | congruence].
  - intros [(l & Hl & E) Hne]. exists l. split; [|done].
    apply elem_of_delete_where. split; [done | congruence].
Qed.

(** With foreign keys enforced, deleting two stored listings leaves only
    requests that reference neither. *)
Lemma delete_two_listings_cascade db X Y q :
  foreign_keys db = true →
  listing_exists db X → listing_exists db Y →
  q ∈ exchange_requests
        (BookListingsDAO.deleteBookListing Y
           (BookListingsDAO.deleteBookListing X db).2).2 →
  q ∈ exchange_requests db
  ∧ ExchangeRequest.requestee_listing_id q ≠ X
  ∧ ExchangeRequest.requester_listing_id q ≠ X
  ∧ ExchangeRequest.requestee_listing_id q ≠ Y
  ∧ ExchangeRequest.requester_listing_id q ≠ Y.
Proof.
  intros Hfk HX HY.
  rewrite deleteBookListing_requests, deleteBookListing_foreign_keys, Hfk.
  assert (∀ q, q ∈ exchange_requests (BookListingsDAO.deleteBookListing X db).2
               → q ∈ exchange_requests db
                 ∧ ExchangeRequest.requestee_listing_id q ≠ X
                 ∧ ExchangeRequest.requester_listing_id q ≠ X) as H1.
  { intros q'. rewrite deleteBookListing_requests, Hfk.
    rewrite bool_decide_eq_true_2 by (by apply listing_exists_changes).
    simpl. rewrite elem_of_delete_where. tauto. }
  simpl. case_bool_decide as Hn.
  - rewrite elem_of_delete_where. intros [Hq ?].
    apply H1 in Hq. tauto.
  - intros Hq. apply H1 in Hq.
    destruct (decide (Y = X)) as [->|Hne]; [tauto|].
    destruct Hn. apply listing_exists_changes, listing_exists_after_delete.
    done.
Qed.

Lemma references_ok_accept db id :
  references_ok db →
  references_ok (ExchangeRequestsDAO.acceptExchangeRequest id db).2.
Proof.
  intros Hok.
  destruct (get (λ r, ExchangeRequest.request_id r = id) (exchange_requests db))
    as [R|] eqn:E.
  2: { by rewrite (acceptExchangeRequest_missing _ _ E). }
  rewrite (acceptExchangeRequest_found _ _ _ E).
  unfold references_ok, listing_exists in *. simpl.
  unfold update_where. rewrite !Forall_fmap.
  eapply Forall_impl; [exact Hok|]. intros q Hq. simpl.
  repeat (destruct (decide _); simpl); done.
Qed.

(** C10, as the code has it: with the schema's foreign keys enforced (the
    connection default under better-sqlite3), a successful [acceptExchange]
    on [R] removes, together with [R]'s two listings, every request that
    references either of them in either column; no stored request is left
    pointing at a listing that is gone, so the route preserves the invariant
    that every stored request references stored listings. *)
Theorem accept_retires_requests_with_their_listings db username u id R l :
  foreign_keys db = true →
  references_ok db →
  ExchangeRequestsDAO.getExchangeRequestById id db = (Ok R, db) →
  UserService.getUserProfile username db = (Ok u, db) →
  BookListingsDAO.getBookListingById
    (ExchangeRequest.requestee_listing_id R) db = (Ok l, db) →
  BookListing.user_id l = User.user_id u →
  ∃ response db',
    acceptExchange (Some username) (Some id) db = (response, db')
    ∧ status_code response = 200
    ∧ (∀ q, q ∈ exchange_requests db' →
            ExchangeRequest.requestee_listing_id q
            ≠ ExchangeRequest.requestee_listing_id R
            ∧ ExchangeRequest.requester_listing_id q
              ≠ ExchangeRequest.requestee_listing_id R
            ∧ ExchangeRequest.requestee_listing_id q
              ≠ ExchangeRequest.requester_listing_id R
            ∧ ExchangeRequest.requester_listing_id q
              ≠ ExchangeRequest.requester_listing_id R)
    ∧ references_ok db'.
Proof.
  intros Hfk Hok HR%getExchangeRequestById_inv Hu%getUserProfile_inv
         Hl%getBookListingById_inv Hown.
  set (X := ExchangeRequest.requestee_listing_id R).
  set (Y := ExchangeRequest.requester_listing_id R).
  set (dbA := (ExchangeRequestsDAO.acceptExchangeRequest id db).2).
  assert (foreign_keys dbA = true) as HfkA.
  { subst dbA. by rewrite (acceptExchangeRequest_found _ _ _ HR). }
  assert (∀ k, listing_exists dbA k ↔ listing_exists db k) as HlsA.
  { intros k. subst dbA. by rewrite (acceptExchangeRequest_found _ _ _ HR). }
  assert (references_ok dbA) as HokA by (by apply references_ok_accept).
  assert (listing_exists db X ∧ listing_exists db Y) as [HX HY].
  { apply get_Some in HR as [HRin _].
    unfold references_ok in Hok. rewrite Forall_forall in Hok.
    by apply Hok. }
  apply HlsA in HX, HY.
  eexists _, _. split; [by eapply acceptExchange_owner|].
  split; [done|]. fold X Y dbA.
  assert (∀ q, q ∈ exchange_requests
                     (BookListingsDAO.deleteBookListing Y
                        (BookListingsDAO.deleteBookListing X dbA).2).2 →
               q ∈ exchange_requests dbA
               ∧ ExchangeRequest.requestee_listing_id q ≠ X
               ∧ ExchangeRequest.requester_listing_id q ≠ X
               ∧ ExchangeRequest.requestee_listing_id q ≠ Y
               ∧ ExchangeRequest.requester_listing_id q ≠ Y) as Hleft.
  { intros q. by apply delete_two_listings_cascade. }
  split.
  - intros q Hq. apply Hleft in Hq. tauto.
  - unfold references_ok. apply Forall_forall. intros q Hq.
    apply Hleft in Hq as (Hq & ? & ? & ? & ?).
    unfold references_ok in HokA. rewrite Forall_forall in HokA.
    apply HokA in Hq as [Hee Her].
    rewrite !listing_exists_after_delete. tauto.
Qed.

Lemma accept_retires_requests_with_their_listings_witness :
  ∃ response db',
    acceptExchange (Some "alice") (Some 1) (scenario true) = (response, db')
    ∧ status_code response = 200
    ∧ (∀ q, q ∈ exchange_requests db' →
            ExchangeRequest.requestee_listing_id q ≠ 100
            ∧ ExchangeRequest.requester_listing_id q ≠ 100
            ∧ ExchangeRequest.requestee_listing_id q ≠ 200
            ∧ ExchangeRequest.requester_listing_id q ≠ 200)
    ∧ references_ok db'.
Proof.
  apply (accept_retires_requests_with_their_listings (scenario true) "alice"
           (User.mk 1 "alice") 1
           (ExchangeRequest.mk 1 100 200 "pending" 1700000300)
           (BookListing.mk 100 "worn" 1700000000 1 10)).
  - reflexivity.
  - by_evaluation.
  - vm_compute. reflexivity.
  - vm_compute. reflexivity.
  - vm_compute. reflexivity.
  - reflexivity.
Defined.

(** C10 as stated fails on the running example: request 3 is pending, offers
    listing 200 (the requester listing of request 1) for listing 300, and
    after Alice accepts request 1 it is no longer stored: the five requests
    that reference listing 100 or 200 went with them, and request 6 alone is
    left. *)
Lemma accept_leaves_dangling_request_counterexample :
  ExchangeRequest.mk 3 300 200 "pending" 1700000500
    ∈ exchange_requests (scenario true)
  ∧ status_code (acceptExchange (Some "alice") (Some 1) (scenario true)).1
    = 200
  ∧ ¬ listing_exists
        (acceptExchange (Some "alice") (Some 1) (scenario true)).2 200
  ∧ ¬ (ExchangeRequest.mk 3 300 200 "pending" 1700000500
         ∈ exchange_requests
             (acceptExchange (Some "alice") (Some 1) (scenario true)).2)
  ∧ exchange_requests
      (acceptExchange (Some "alice") (Some 1) (scenario true)).2
    = [ExchangeRequest.mk 6 400 300 "pending" 1700000750]
  ∧ references_ok (acceptExchange (Some "alice") (Some 1) (scenario true)).2.
Proof.
  split; [by_evaluation|]. split; [by vm_compute|].
  split; [by_evaluation|]. split; [by_evaluation|].
  split; [by vm_compute | by_evaluation].
Qed.

(** Without foreign-key enforcement the same route leaves such a request in
    place: pending, and pointing at a listing that is gone. *)
Lemma accept_without_foreign_keys_leaves_request db username u id R l Q :
  foreign_keys db = false →
  ExchangeRequestsDAO.getExchangeRequestById id db = (Ok R, db) →
  UserService.getUserProfile username db = (Ok u, db) →
  BookListingsDAO.getBookListingById
    (ExchangeRequest.requestee_listing_id R) db = (Ok l, db) →
  BookListing.user_id l = User.user_id u →
  Q ∈ exchange_requests db →
  ExchangeRequest.request_id Q ≠ id →
  ExchangeRequest.requestee_listing_id Q
  ≠ ExchangeRequest.requestee_listing_id R →
  ExchangeRequest.requester_listing_id Q
  = ExchangeRequest.requestee_listing_id R
  ∨ ExchangeRequest.requester_listing_id Q
    = ExchangeRequest.requester_listing_id R →
  let after := acceptExchange (Some username) (Some id) db in
  status_code (after.1) = 200
  ∧ Q ∈ exchange_requests (after.2)
  ∧ ¬ listing_exists (after.2) (ExchangeRequest.requester_listing_id Q).
Proof.
  intros Hfk HR%getExchangeRequestById_inv Hu%getUserProfile_inv
         Hl%getBookListingById_inv Hown HQ Hid Hee Her after.
  subst after. rewrite (acceptExchange_owner _ _ _ _ _ _ HR Hu Hl Hown).
  cbn [fst snd status_code]. split; [done|]. split.
  - rewrite !deleteBookListing_requests, !deleteBookListing_foreign_keys.
    rewrite (acceptExchangeRequest_found _ _ _ HR).
    cbn [fst snd with_exchange_requests foreign_keys exchange_requests].
    rewrite Hfk. cbn [andb].
    apply list_elem_of_lookup in HQ as [i HQ].
    apply list_elem_of_lookup. exists i.
    rewrite (accept_rows_lookup _ _ _ _ _ HQ).
    by rewrite !decide_False.
  - rewrite !listing_exists_after_delete. intros [[_ H1] H2].
    destruct Her; congruence.
Qed.

(** ** The two invariants are kept by the operations

    [request_ids_unique] is the primary key of [exchange_requests];
    [references_ok] is what the foreign keys of [exchange_requests] maintain
    while they are enforced. *)

Lemma createExchangeRequest_cases db now req :
  (∃ e, ExchangeRequestsDAO.createExchangeRequest now req db = (Throw e, db))
  ∨ (∃ s date,
       listing_exists db (new_requestee_listing_id req)
       ∧ listing_exists db (new_requester_listing_id req)
       ∧ ExchangeRequestsDAO.createExchangeRequest now req db
         = (Ok (inserted db (new_requestee_listing_id req)
                  (new_requester_listing_id req) s date),
            after_insert db
              (inserted db (new_requestee_listing_id req)
                 (new_requester_listing_id req) s date))).
Proof.
  destruct (ExchangeRequestsDAO.listing_owner db (new_requestee_listing_id req))
    as [ua|] eqn:Ha.
  2: { left. eexists. apply createExchangeRequest_not_found. by left. }
  destruct (ExchangeRequestsDAO.listing_owner db (new_requester_listing_id req))
    as [ub|] eqn:Hb.
  2: { left. eexists. apply createExchangeRequest_not_found. by right. }
  destruct (decide (ua = ub)) as [->|Hne].
  - left. eexists. by eapply createExchangeRequest_same_owner.
  - right. eexists _, _.
    split; [by eapply listing_owner_exists|].
    split; [by eapply listing_owner_exists|].
    by eapply createExchangeRequest_ok.
Qed.

Lemma request_ids_unique_after_insert db a b s date :
  request_ids_unique db →
  request_ids_unique (after_insert db (inserted db a b s date)).
Proof.
  unfold request_ids_unique. simpl. intros Hnd.
  rewrite fmap_app. apply NoDup_app. split; [done|]. split.
  - intros k Hk Hin. apply list_elem_of_singleton in Hin. simpl in Hin.
    apply list_elem_of_fmap in Hk as (q & -> & Hq).
    apply max_rowid_ge in Hq. lia.
  - apply NoDup_singleton.
Qed.

Lemma request_id_update_where (Q : ExchangeRequest.t → Prop)
    `{!∀ r, Decision (Q r)} s rows :
  ExchangeRequest.request_id
    <$> update_where Q (ExchangeRequest.set_status s) rows
  = ExchangeRequest.request_id <$> rows.
Proof.
  unfold update_where. rewrite <- list_fmap_compose.
  apply list_fmap_ext. intros _ r _. simpl. by destruct (decide (Q r)).
Qed.

Lemma NoDup_fmap_delete_where {A K} (key : A → K) (P : A → Prop)
    `{!∀ x, Decision (P x)} (l : list A) :
  NoDup (key <$> l) → NoDup (key <$> delete_where P l).
Proof.
  intros Hnd. eapply sublist_NoDup; [exact Hnd|].
  apply fmap_sublist, sublist_filter.
Qed.

(** The primary key survives every write to [exchange_requests]. *)
Lemma request_ids_unique_preserved db :
  request_ids_unique db →
  (∀ now req,
     request_ids_unique
       (ExchangeRequestsDAO.createExchangeRequest now req db).2)
  ∧ (∀ id s,
       request_ids_unique
         (ExchangeRequestsDAO.updateExchangeRequestStatus id s db).2)
  ∧ (∀ id,
       request_ids_unique (ExchangeRequestsDAO.acceptExchangeRequest id db).2)
  ∧ (∀ id,
       request_ids_unique (ExchangeRequestsDAO.deleteExchangeRequest id db).2)
  ∧ (∀ id, request_ids_unique (BookListingsDAO.deleteBookListing id db).2).
Proof.
  intros Hnd. split; [|split; [|split; [|split]]].
  - intros now req.
    destruct (createExchangeRequest_cases db now req)
      as [[e ->] | (s & date & _ & _ & ->)]; [done|].
    by apply request_ids_unique_after_insert.
  - intros id s.
    destruct (get (λ r, ExchangeRequest.request_id r = id)
                  (exchange_requests db)) as [R|] eqn:E.
    + rewrite (updateExchangeRequestStatus_found _ _ _ _ E).
      unfold request_ids_unique. simpl. by rewrite request_id_update_where.
    + by rewrite (updateExchangeRequestStatus_missing _ _ _ E).
  - intros id.
    destruct (get (λ r, ExchangeRequest.request_id r = id)
                  (exchange_requests db)) as [R|] eqn:E.
    + rewrite (acceptExchangeRequest_found _ _ _ E).
      unfold request_ids_unique. simpl. by rewrite !request_id_update_where.
    + by rewrite (acceptExchangeRequest_missing _ _ E).
  - intros id. unfold request_ids_unique. simpl.
    by apply NoDup_fmap_delete_where.
  - intros id. unfold request_ids_unique.
    rewrite deleteBookListing_requests.
    destruct (foreign_keys db && _); [|done].
    by apply NoDup_fmap_delete_where.
Qed.

(** While foreign keys are enforced, no write leaves a request that
    references a listing that is not stored. *)
Lemma references_ok_preserved db :
  foreign_keys db = true →
  references_ok db →
  (∀ now req,
     references_ok (ExchangeRequestsDAO.createExchangeRequest now req db).2)
  ∧ (∀ id, references_ok (ExchangeRequestsDAO.acceptExchangeRequest id db).2)
  ∧ (∀ id, references_ok (ExchangeRequestsDAO.deleteExchangeRequest id db).2)
  ∧ (∀ id, references_ok (BookListingsDAO.deleteBookListing id db).2).
Proof.
  intros Hfk Hok. split; [|split; [|split]].
  - intros now req.
    destruct (createExchangeRequest_cases db now req)
      as [[e ->] | (s & date & Ha & Hb & ->)]; [done|].
    unfold references_ok, listing_exists in *. simpl.
    apply Forall_app. split; [done|]. by apply Forall_singleton.
  - intros id. by apply references_ok_accept.
  - intros id. unfold references_ok, listing_exists in *. simpl.
    apply Forall_forall. intros q Hq%elem_of_delete_where.
    rewrite Forall_forall in Hok. apply Hok. tauto.
  - intros id. unfold references_ok in *. rewrite Forall_forall in *.
    intros q. rewrite deleteBookListing_requests, Hfk.
    rewrite !listing_exists_after_delete. simpl.
    case_bool_decide as Hn.
    + rewrite elem_of_delete_where. intros [Hq Hne].
      apply Hok in Hq. tauto.
    + intros Hq. apply Hok in Hq as [Hee Her].
      rewrite <- listing_exists_changes in Hn.
      split; (split; [done|]); intros E; apply Hn; congruence.
Qed.

(** * Beyond the claims: the rest of the stores and routes *)

(** ** More on statements *)

Lemma changes_plus_kept {A} (P : A → Prop) `{!∀ x, Decision (P x)}
    (l : list A) :
  changes P l + Z.of_nat (length (delete_where P l)) = Z.of_nat (length l).
Proof.
  unfold changes, delete_where.
  pose proof (Permutation_length (filter_app_complement P l)) as Hlen.
  rewrite length_app in Hlen. lia.
Qed.

Lemma update_where_lookup {A} (P : A → Prop) `{!∀ x, Decision (P x)}
    (f : A → A) (l : list A) i :
  update_where P f l !! i
  = (λ x, if decide (P x) then f x else x) <$> l !! i.
Proof. unfold update_where. apply list_lookup_fmap. Qed.

Lemma update_where_none {A} (P : A → Prop) `{!∀ x, Decision (P x)}
    (f : A → A) (l : list A) :
  (∀ x, x ∈ l → P x → f x = x) → update_where P f l = l.
Proof.
  unfold update_where. induction l as [|y l IH]; intros Hf; [done|].
  rewrite fmap_cons. f_equal.
  - destruct (decide (P y)); [|done]. apply Hf; [left | done].
  - apply IH. intros x Hx. apply Hf. by right.
Qed.

(** ** [deleteExchangeRequestsByListing] *)

(** X1: [deleteExchangeRequestsByListing(listingId)] removes exactly the
    requests that name the listing as requestee or as requester and keeps
    the others; the number it returns is the number of rows that went; a
    second call returns 0 and changes nothing. *)
Theorem deleteExchangeRequestsByListing_removes_both_roles db listingId :
  ∃ n db1,
    ExchangeRequestsDAO.deleteExchangeRequestsByListing listingId db
    = (Ok n, db1)
    ∧ n = Z.of_nat (length (exchange_requests db))
          - Z.of_nat (length (exchange_requests db1))
    ∧ (∀ r, r ∈ exchange_requests db1
            ↔ r ∈ exchange_requests db
              ∧ ExchangeRequest.requestee_listing_id r ≠ listingId
              ∧ ExchangeRequest.requester_listing_id r ≠ listingId)
    ∧ db1 = with_exchange_requests (exchange_requests db1) db
    ∧ ExchangeRequestsDAO.deleteExchangeRequestsByListing listingId db1
      = (Ok 0, db1).
Proof.
  eexists _, _. split; [done|]. simpl. split; [|split; [|split]].
  - pose proof (changes_plus_kept
                  (λ r, ExchangeRequest.requestee_listing_id r = listingId
                        ∨ ExchangeRequest.requester_listing_id r = listingId)
                  (exchange_requests db)). lia.
  - intros r. rewrite elem_of_delete_where. tauto.
  - done.
  - unfold ExchangeRequestsDAO.deleteExchangeRequestsByListing. simpl.
    by rewrite changes_delete_where, delete_where_idemp.
Qed.

(** ** [updateExchangeRequest] *)

Lemma updateExchangeRequest_missing db id updates :
  get (λ r, ExchangeRequest.request_id r = id) (exchange_requests db) = None →
  ExchangeRequestsDAO.updateExchangeRequest id updates db
  = (Throw {| name := UpdateExchangeRequestError;
              message := "Failed to retrieve updated exchange request. Transaction failed and rolled back." |},
     db).
Proof.
  intros E.
  unfold ExchangeRequestsDAO.updateExchangeRequest, transaction, try_catch,
    bind.
  destruct (ExchangeRequestsDAO.has_fields updates).
  - unfold ExchangeRequestsDAO.run_update.
    assert (filter (λ r, ExchangeRequest.request_id r = id)
                   (exchange_requests db) = []) as ->
      by (by apply head_None).
    rewrite bool_decide_eq_false_2 by tauto.
    rewrite andb_false_r. simpl.
    erewrite getExchangeRequestById_missing; [done|]. simpl.
    unfold update_where. rewrite get_fmap_preserve; [by rewrite E|].
    intros r. by destruct (decide _).
  - simpl. by rewrite (getExchangeRequestById_missing _ _ E).
Qed.

Lemma apply_updates_no_fields u r :
  ExchangeRequestsDAO.has_fields u = false →
  ExchangeRequestsDAO.apply_updates u r = r.
Proof.
  unfold ExchangeRequestsDAO.has_fields. intros H%bool_decide_eq_false.
  destruct u as [[a|] [b|] [c|] [d|]]; simpl in *;
    try (destruct H; eauto 10; fail).
  by destruct r.
Qed.

Lemma updateExchangeRequest_found db id updates R :
  get (λ r, ExchangeRequest.request_id r = id) (exchange_requests db) = Some R →
  foreign_keys db = false ∨ ExchangeRequestsDAO.parents_ok db updates →
  ExchangeRequestsDAO.updateExchangeRequest id updates db
  = (Ok (ExchangeRequestsDAO.apply_updates updates R),
     with_exchange_requests
       (update_where (λ r, ExchangeRequest.request_id r = id)
          (ExchangeRequestsDAO.apply_updates updates) (exchange_requests db))
       db).
Proof.
  intros E Hfk. pose proof (get_Some _ _ _ E) as [_ Hid].
  unfold ExchangeRequestsDAO.updateExchangeRequest, transaction, try_catch,
    bind.
  destruct (ExchangeRequestsDAO.has_fields updates) eqn:Hf.
  - unfold ExchangeRequestsDAO.run_update.
    assert (foreign_keys db
            && bool_decide (filter (λ r, ExchangeRequest.request_id r = id)
                              (exchange_requests db) ≠ [])
            && negb (bool_decide (ExchangeRequestsDAO.parents_ok db updates))
            = false) as ->.
    { destruct Hfk as [-> | Hp]; [done|].
      rewrite (bool_decide_eq_true_2 _ Hp). apply andb_false_r. }
    unfold write. erewrite getExchangeRequestById_found; [done|]. simpl.
    unfold update_where. rewrite get_fmap_preserve.
    + rewrite E. simpl. by rewrite decide_True.
    + intros r. by destruct (decide _).
  - simpl. rewrite (getExchangeRequestById_found _ _ _ E).
    rewrite apply_updates_no_fields by done. do 2 f_equal.
    rewrite update_where_none; [by rewrite with_exchange_requests_id|].
    intros r _ _. by apply apply_updates_no_fields.
Qed.

(** X2: an [updateExchangeRequest] whose only key is [status] does what
    [updateExchangeRequestStatus] does: the same result and the same
    database, for every id and every database. *)
Theorem updateExchangeRequest_status_only db id s :
  ExchangeRequestsDAO.updateExchangeRequest id
    {| upd_requestee_listing_id := None; upd_requester_listing_id := None;
       upd_status := Some s; upd_request_date := None |} db
  = ExchangeRequestsDAO.updateExchangeRequestStatus id s db.
Proof.
  destruct (get (λ r, ExchangeRequest.request_id r = id) (exchange_requests db))
    as [R|] eqn:E.
  - rewrite (updateExchangeRequest_found _ _ _ _ E) by (right; by split).
    by rewrite (updateExchangeRequestStatus_found _ _ _ _ E).
  - rewrite (updateExchangeRequest_missing _ _ _ E).
    by rewrite (updateExchangeRequestStatus_missing _ _ _ E).
Qed.

(** X3: [updateExchangeRequest] on a stored request writes the given keys to
    the rows with that id and to no other row: the result is the stored row
    with the given keys replaced, every row keeps its [request_id], and a row
    with another id is as before.  (The statement runs when foreign keys are
    not enforced or the listings written exist.) *)
Theorem updateExchangeRequest_writes_given_fields_only db id updates R :
  ExchangeRequestsDAO.getExchangeRequestById id db = (Ok R, db) →
  foreign_keys db = false ∨ ExchangeRequestsDAO.parents_ok db updates →
  ∃ db',
    ExchangeRequestsDAO.updateExchangeRequest id updates db
    = (Ok (ExchangeRequestsDAO.apply_updates updates R), db')
    ∧ ExchangeRequestsDAO.getExchangeRequestById id db'
      = (Ok (ExchangeRequestsDAO.apply_updates updates R), db')
    ∧ ExchangeRequest.request_id <$> exchange_requests db'
      = ExchangeRequest.request_id <$> exchange_requests db
    ∧ (∀ i q, exchange_requests db !! i = Some q →
              ExchangeRequest.request_id q ≠ id →
              exchange_requests db' !! i = Some q)
    ∧ db' = with_exchange_requests (exchange_requests db') db.
Proof.
  intros E%getExchangeRequestById_inv Hfk.
  pose proof (get_Some _ _ _ E) as [_ Hid].
  eexists. split; [by apply updateExchangeRequest_found|]. simpl.
  split; [|split; [|split]].
  - apply getExchangeRequestById_found. simpl.
    unfold update_where. rewrite get_fmap_preserve.
    + rewrite E. simpl. by rewrite decide_True.
    + intros r. by destruct (decide _).
  - unfold update_where. rewrite <- list_fmap_compose.
    apply list_fmap_ext. intros _ r _. simpl. by destruct (decide _).
  - intros i q Hq Hne. rewrite update_where_lookup, Hq. simpl.
    by rewrite decide_False.
  - done.
Qed.

Lemma updateExchangeRequest_writes_given_fields_only_witness :
  ∃ db',
    ExchangeRequestsDAO.updateExchangeRequest 2
      {| upd_requestee_listing_id := None; upd_requester_listing_id := Some 400;
         upd_status := None; upd_request_date := Some 1700000999 |}
      (scenario true)
    = (Ok (ExchangeRequest.mk 2 100 400 "pending" 1700000999), db')
    ∧ ExchangeRequestsDAO.getExchangeRequestById 2 db'
      = (Ok (ExchangeRequest.mk 2 100 400 "pending" 1700000999), db')
    ∧ ExchangeRequest.request_id <$> exchange_requests db'
      = ExchangeRequest.request_id <$> exchange_requests (scenario true)
    ∧ (∀ i q, exchange_requests (scenario true) !! i = Some q →
              ExchangeRequest.request_id q ≠ 2 →
              exchange_requests db' !! i = Some q)
    ∧ db' = with_exchange_requests (exchange_requests db') (scenario true).
Proof.
  apply (updateExchangeRequest_writes_given_fields_only (scenario true) 2
           {| upd_requestee_listing_id := None;
              upd_requester_listing_id := Some 400;
              upd_status := None; upd_request_date := Some 1700000999 |}
           (ExchangeRequest.mk 2 100 300 "pending" 1700000400)).
  - vm_compute. reflexivity.
  - right. by_evaluation.
Defined.

(** X4: [updateExchangeRequest] checks neither owners nor duplicates: any
    stored request can be pointed at any stored listing in both columns,
    which leaves a request between a listing and itself, the very request
    [createExchangeRequest] refuses to make. *)
Theorem updateExchangeRequest_skips_create_validation db now id R L :
  ExchangeRequestsDAO.getExchangeRequestById id db = (Ok R, db) →
  listing_exists db L →
  ∃ db',
    ExchangeRequestsDAO.updateExchangeRequest id
      {| upd_requestee_listing_id := Some L; upd_requester_listing_id := Some L;
         upd_status := None; upd_request_date := None |} db
    = (Ok (ExchangeRequest.mk id L L (ExchangeRequest.status R)
             (ExchangeRequest.request_date R)), db')
    ∧ ExchangeRequest.mk id L L (ExchangeRequest.status R)
        (ExchangeRequest.request_date R) ∈ exchange_requests db'
    ∧ rejects CreateExchangeRequestError
        (ExchangeRequestsDAO.createExchangeRequest now (proposal now L L)) db'.
Proof.
  intros E%getExchangeRequestById_inv HL.
  pose proof (get_Some _ _ _ E) as [HR Hid].
  eexists. split; [|split].
  - rewrite (updateExchangeRequest_found _ _ _ _ E) by (right; by split).
    unfold ExchangeRequestsDAO.apply_updates. simpl. by rewrite Hid.
  - simpl. apply list_elem_of_lookup in HR as [i HR].
    apply list_elem_of_lookup. exists i.
    rewrite update_where_lookup, HR. simpl. rewrite decide_True by done.
    unfold ExchangeRequestsDAO.apply_updates. simpl. by rewrite Hid.
  - by apply createExchangeRequest_self.
Qed.

Lemma updateExchangeRequest_skips_create_validation_witness :
  ∃ db',
    ExchangeRequestsDAO.updateExchangeRequest 1
      {| upd_requestee_listing_id := Some 100;
         upd_requester_listing_id := Some 100;
         upd_status := None; upd_request_date := None |} (scenario true)
    = (Ok (ExchangeRequest.mk 1 100 100 "pending" 1700000300), db')
    ∧ ExchangeRequest.mk 1 100 100 "pending" 1700000300
        ∈ exchange_requests db'
    ∧ rejects CreateExchangeRequestError
        (ExchangeRequestsDAO.createExchangeRequest 1700000800999
           (proposal 1700000800999 100 100)) db'.
Proof.
  apply (updateExchangeRequest_skips_create_validation (scenario true)
           1700000800999 1
           (ExchangeRequest.mk 1 100 200 "pending" 1700000300) 100).
  - vm_compute. reflexivity.
  - by_evaluation.
Defined.

(** ** Requests seen through their listings *)

Lemma elem_of_join_listings
    (W : ExchangeRequest.t → BookListing.t → BookListing.t → Prop)
    `{!∀ er bl1 bl2, Decision (W er bl1 bl2)} db r :
  r ∈ ExchangeRequestsDAO.join_listings W db
  ↔ r ∈ exchange_requests db
    ∧ ∃ bl1 bl2,
        bl1 ∈ book_listings db
        ∧ BookListing.listing_id bl1 = ExchangeRequest.requestee_listing_id r
        ∧ bl2 ∈ book_listings db
        ∧ BookListing.listing_id bl2 = ExchangeRequest.requester_listing_id r
        ∧ W r bl1 bl2.
Proof.
  unfold ExchangeRequestsDAO.join_listings. rewrite list_elem_of_bind. split.
  - intros (er & Hr & Her).
    apply list_elem_of_bind in Hr as (bl1 & Hr & H1).
    apply list_elem_of_bind in Hr as (bl2 & Hr & H2).
    apply list_elem_of_filter in H1 as [E1 H1].
    apply list_elem_of_filter in H2 as [E2 H2].
    destruct (decide (W er bl1 bl2)) as [HW|]; [|by apply elem_of_nil in Hr].
    apply list_elem_of_singleton in Hr as ->. eauto 10.
  - intros (Hr & bl1 & bl2 & H1 & E1 & H2 & E2 & HW).
    exists r. split; [|done].
    apply list_elem_of_bind. exists bl1.
    split; [|by apply list_elem_of_filter].
    apply list_elem_of_bind. exists bl2.
    split; [|by apply list_elem_of_filter].
    rewrite decide_True by done. left.
Qed.

Lemma join_listings_references_exist
    (W : ExchangeRequest.t → BookListing.t → BookListing.t → Prop)
    `{!∀ er bl1 bl2, Decision (W er bl1 bl2)} db r :
  r ∈ ExchangeRequestsDAO.join_listings W db →
  listing_exists db (ExchangeRequest.requestee_listing_id r)
  ∧ listing_exists db (ExchangeRequest.requester_listing_id r).
Proof.
  rewrite elem_of_join_listings.
  intros (_ & bl1 & bl2 & H1 & E1 & H2 & E2 & _).
  unfold listing_exists. rewrite !Exists_exists. split; eauto.
Qed.

(** X5: once the owner has accepted a request through the route, the
    requests a user sees ([getExchangeRequestsByUser], and so
    [getAcceptedExchangeRequestsByUser]) contain no request on either of the
    two listings, whoever the user is and whether or not foreign keys are
    enforced: the request that was just accepted is not among them. *)
Theorem accepted_request_is_not_listed db username u id R l userId :
  ExchangeRequestsDAO.getExchangeRequestById id db = (Ok R, db) →
  UserService.getUserProfile username db = (Ok u, db) →
  BookListingsDAO.getBookListingById
    (ExchangeRequest.requestee_listing_id R) db = (Ok l, db) →
  BookListing.user_id l = User.user_id u →
  ∃ response db' listed accepted,
    acceptExchange (Some username) (Some id) db = (response, db')
    ∧ body response = ExchangeBody (ExchangeRequest.set_status "accepted" R)
    ∧ ExchangeRequestsDAO.getExchangeRequestsByUser userId db'
      = (Ok listed, db')
    ∧ ExchangeRequestsDAO.getAcceptedExchangeRequestsByUser userId db'
      = (Ok accepted, db')
    ∧ (∀ q, q ∈ listed ∨ q ∈ accepted →
            ExchangeRequest.requestee_listing_id q
            ≠ ExchangeRequest.requestee_listing_id R
            ∧ ExchangeRequest.requester_listing_id q
              ≠ ExchangeRequest.requestee_listing_id R
            ∧ ExchangeRequest.requestee_listing_id q
              ≠ ExchangeRequest.requester_listing_id R
            ∧ ExchangeRequest.requester_listing_id q
              ≠ ExchangeRequest.requester_listing_id R)
    ∧ ¬ (ExchangeRequest.set_status "accepted" R ∈ listed)
    ∧ ¬ (ExchangeRequest.set_status "accepted" R ∈ accepted).
Proof.
  intros HR%getExchangeRequestById_inv Hu%getUserProfile_inv
         Hl%getBookListingById_inv Hown.
  set (db' := (BookListingsDAO.deleteBookListing
                 (ExchangeRequest.requester_listing_id R)
                 (BookListingsDAO.deleteBookListing
                    (ExchangeRequest.requestee_listing_id R)
                    (ExchangeRequestsDAO.acceptExchangeRequest id db).2).2).2).
  assert (∀ k, listing_exists db' k →
               k ≠ ExchangeRequest.requestee_listing_id R
               ∧ k ≠ ExchangeRequest.requester_listing_id R) as Hgone.
  { intros k. subst db'. rewrite !listing_exists_after_delete. tauto. }
  assert (∀ (W : ExchangeRequest.t → BookListing.t → BookListing.t → Prop)
            `{!∀ er bl1 bl2, Decision (W er bl1 bl2)} q,
            q ∈ ExchangeRequestsDAO.join_listings W db' →
            ExchangeRequest.requestee_listing_id q
            ≠ ExchangeRequest.requestee_listing_id R
            ∧ ExchangeRequest.requester_listing_id q
              ≠ ExchangeRequest.requestee_listing_id R
            ∧ ExchangeRequest.requestee_listing_id q
              ≠ ExchangeRequest.requester_listing_id R
            ∧ ExchangeRequest.requester_listing_id q
              ≠ ExchangeRequest.requester_listing_id R) as Hrefs.
  { intros W ? q [Hee Her]%join_listings_references_exist.
    apply Hgone in Hee, Her. tauto. }
  eexists _, db', _, _. split; [by eapply acceptExchange_owner|].
  split; [done|]. split; [done|]. split; [done|].
  split; [|split].
  - intros q [Hq|Hq]; by apply Hrefs in Hq.
  - intros Hin%Hrefs. by destruct Hin as [H _].
  - intros Hin%Hrefs. by destruct Hin as [H _].
Qed.

Lemma accepted_request_is_not_listed_witness :
  ∃ response db' listed accepted,
    acceptExchange (Some "alice") (Some 1) (scenario false) = (response, db')
    ∧ body response
      = ExchangeBody (ExchangeRequest.mk 1 100 200 "accepted" 1700000300)
    ∧ ExchangeRequestsDAO.getExchangeRequestsByUser 2 db' = (Ok listed, db')
    ∧ ExchangeRequestsDAO.getAcceptedExchangeRequestsByUser 2 db'
      = (Ok accepted, db')
    ∧ (∀ q, q ∈ listed ∨ q ∈ accepted →
            ExchangeRequest.requestee_listing_id q ≠ 100
            ∧ ExchangeRequest.requester_listing_id q ≠ 100
            ∧ ExchangeRequest.requestee_listing_id q ≠ 200
            ∧ ExchangeRequest.requester_listing_id q ≠ 200)
    ∧ ¬ (ExchangeRequest.mk 1 100 200 "accepted" 1700000300 ∈ listed)
    ∧ ¬ (ExchangeRequest.mk 1 100 200 "accepted" 1700000300 ∈ accepted).
Proof.
  apply (accepted_request_is_not_listed (scenario false) "alice"
           (User.mk 1 "alice") 1
           (ExchangeRequest.mk 1 100 200 "pending" 1700000300)
           (BookListing.mk 100 "worn" 1700000000 1 10) 2);
    vm_compute; reflexivity.
Defined.

(** ** Reading back what [createExchangeRequest] stored *)

Lemma service_create_inv db now a b r db1 :
  ExchangeService.createExchangeRequest now a b db = (Ok r, db1) →
  ∃ ua ub,
    ExchangeRequestsDAO.listing_owner db a = Some ua
    ∧ ExchangeRequestsDAO.listing_owner db b = Some ub
    ∧ ua ≠ ub
    ∧ ExchangeRequestsDAO.exchangeRequestExists a b db = (Ok false, db)
    ∧ r = inserted db a b "pending" (now `div` 1000)
    ∧ db1 = after_insert db r.
Proof.
  unfold ExchangeService.createExchangeRequest, try_catch, bind.
  rewrite exchangeRequestExists_run.
  destruct (bool_decide _) eqn:Hex; [done|]. fold (proposal now a b).
  destruct (ExchangeRequestsDAO.listing_owner db a) as [ua|] eqn:Ha.
  2: { rewrite createExchangeRequest_not_found by (by left). done. }
  destruct (ExchangeRequestsDAO.listing_owner db b) as [ub|] eqn:Hb.
  2: { rewrite createExchangeRequest_not_found by (by right). done. }
  destruct (decide (ua = ub)) as [->|Hne].
  { by rewrite (createExchangeRequest_same_owner _ _ _ ub). }
  rewrite (createExchangeRequest_ok _ _ _ ua ub) by done. simpl.
  intros [= <- <-]. by exists ua, ub.
Qed.

(** X6: a request that [ExchangeService.createExchangeRequest] returned can
    be read back: it is pending between the two listings, dated by the clock
    in seconds, with an id above every id stored before; [getById] returns
    it, [exists] answers true for the pair, the lists by requestee, by
    requester and by status contain it, and so does the list of each owner.
    Both listings are stored, whether or not foreign keys are enforced. *)
Theorem created_request_is_read_back db now a b r db1 :
  ExchangeService.createExchangeRequest now a b db = (Ok r, db1) →
  r = ExchangeRequest.mk (ExchangeRequest.request_id r) a b "pending"
        (now `div` 1000)
  ∧ (∀ q, q ∈ exchange_requests db →
          ExchangeRequest.request_id q < ExchangeRequest.request_id r)
  ∧ ExchangeRequestsDAO.getExchangeRequestById (ExchangeRequest.request_id r)
      db1 = (Ok r, db1)
  ∧ ExchangeRequestsDAO.exchangeRequestExists a b db1 = (Ok true, db1)
  ∧ (∃ listed,
       ExchangeRequestsDAO.getExchangeRequestsByRequestee a db1
       = (Ok listed, db1) ∧ r ∈ listed)
  ∧ (∃ listed,
       ExchangeRequestsDAO.getExchangeRequestsByRequester b db1
       = (Ok listed, db1) ∧ r ∈ listed)
  ∧ (∃ listed,
       ExchangeRequestsDAO.getExchangeRequestsByStatus "pending" db1
       = (Ok listed, db1) ∧ r ∈ listed)
  ∧ (∀ l, l ∈ book_listings db →
          BookListing.listing_id l = a ∨ BookListing.listing_id l = b →
          ∃ listed,
            ExchangeRequestsDAO.getExchangeRequestsByUser
              (BookListing.user_id l) db1 = (Ok listed, db1)
            ∧ r ∈ listed)
  ∧ listing_exists db1 a ∧ listing_exists db1 b.
Proof.
  intros (ua & ub & Ha & Hb & Hne & Hex & -> & ->)%service_create_inv.
  set (r := inserted db a b "pending" (now `div` 1000)).
  assert (r ∈ exchange_requests (after_insert db r)) as Hin.
  { simpl. apply elem_of_app. right. left. }
  assert (∀ q, q ∈ exchange_requests db →
               ExchangeRequest.request_id q < ExchangeRequest.request_id r)
    as Hfresh.
  { intros q Hq%max_rowid_ge. subst r. simpl. lia. }
  split; [done|]. split; [done|]. split.
  { apply getExchangeRequestById_found. simpl.
    apply get_snoc_fresh; [|done]. intros q Hq. apply Hfresh in Hq.
    subst r. simpl in *. lia. }
  split.
  { apply exchangeRequestExists_true. by exists r. }
  split; [eexists; split; [done|]; by apply list_elem_of_filter|].
  split; [eexists; split; [done|]; by apply list_elem_of_filter|].
  split; [eexists; split; [done|]; by apply list_elem_of_filter|].
  assert (∃ la, la ∈ book_listings db ∧ BookListing.listing_id la = a)
    as (la & Hla & Ea).
  { apply listing_owner_exists in Ha. by apply Exists_exists in Ha. }
  assert (∃ lb, lb ∈ book_listings db ∧ BookListing.listing_id lb = b)
    as (lb & Hlb & Eb).
  { apply listing_owner_exists in Hb. by apply Exists_exists in Hb. }
  split.
  - intros l Hl Hid. eexists. split; [done|].
    apply elem_of_join_listings. split; [done|].
    destruct Hid as [Hid|Hid].
    + exists l, lb. simpl. eauto 10.
    + exists la, l. simpl. eauto 10.
  - split; eapply listing_owner_exists; eauto.
Qed.

Lemma created_request_is_read_back_witness :
  ExchangeRequestsDAO.getExchangeRequestById 7
    (ExchangeService.createExchangeRequest 1700000800999 300 100
       (scenario true)).2
  = (Ok (ExchangeRequest.mk 7 300 100 "pending" 1700000800),
     (ExchangeService.createExchangeRequest 1700000800999 300 100
        (scenario true)).2).
Proof.
  pose proof (created_request_is_read_back (scenario true) 1700000800999
                300 100 (ExchangeRequest.mk 7 300 100 "pending" 1700000800)
                (ExchangeService.createExchangeRequest 1700000800999 300 100
                   (scenario true)).2) as H.
  apply H. vm_compute. reflexivity.
Defined.

(** ** Bulk removal of listings *)

Lemma delete_listings_listings (P : BookListing.t → Prop)
    `{!∀ l, Decision (P l)} db :
  book_listings (BookListingsDAO.delete_listings P db).2
  = delete_where P (book_listings db).
Proof.
  unfold BookListingsDAO.delete_listings. simpl.
  destruct (foreign_keys db); reflexivity.
Qed.

Lemma delete_listings_foreign_keys (P : BookListing.t → Prop)
    `{!∀ l, Decision (P l)} db :
  foreign_keys (BookListingsDAO.delete_listings P db).2 = foreign_keys db.
Proof.
  unfold BookListingsDAO.delete_listings. simpl.
  destruct (foreign_keys db) eqn:E; simpl; by rewrite E.
Qed.

Lemma delete_listings_count (P : BookListing.t → Prop)
    `{!∀ l, Decision (P l)} db :
  (BookListingsDAO.delete_listings P db).1
  = Ok (Z.of_nat (length (book_listings db))
        - Z.of_nat (length (book_listings
                              (BookListingsDAO.delete_listings P db).2))).
Proof.
  rewrite delete_listings_listings.
  unfold BookListingsDAO.delete_listings. simpl. f_equal.
  pose proof (changes_plus_kept P (book_listings db)). lia.
Qed.

(** The requests left by [delete_listings]: all of them without foreign
    keys; with foreign keys, those that reference no removed listing. *)
Lemma delete_listings_requests (P : BookListing.t → Prop)
    `{!∀ l, Decision (P l)} db q :
  q ∈ exchange_requests (BookListingsDAO.delete_listings P db).2
  ↔ q ∈ exchange_requests db
    ∧ (foreign_keys db = true →
       ∀ l, l ∈ book_listings db → P l →
            ExchangeRequest.requestee_listing_id q ≠ BookListing.listing_id l
            ∧ ExchangeRequest.requester_listing_id q
              ≠ BookListing.listing_id l).
Proof.
  unfold BookListingsDAO.delete_listings. simpl.
  destruct (foreign_keys db); simpl; [|split; [by split | tauto]].
  rewrite elem_of_delete_where. split.
  - intros [Hq Hno]. split; [done|]. intros _ l Hl HP.
    split; intros E; apply Hno; [left|right]; rewrite E;
      apply list_elem_of_fmap_2; by apply list_elem_of_filter.
  - intros [Hq Hno]. split; [done|]. specialize (Hno eq_refl).
    intros [Hin|Hin]; apply list_elem_of_fmap in Hin as (l & E & Hl);
      apply list_elem_of_filter in Hl as [HP Hl];
      destruct (Hno l Hl HP); congruence.
Qed.

Lemma delete_listings_requests_sub (P : BookListing.t → Prop)
    `{!∀ l, Decision (P l)} db :
  exchange_requests (BookListingsDAO.delete_listings P db).2
  `sublist_of` exchange_requests db.
Proof.
  unfold BookListingsDAO.delete_listings. simpl.
  destruct (foreign_keys db); simpl; [apply sublist_filter | done].
Qed.

Lemma delete_listings_rest (P : BookListing.t → Prop)
    `{!∀ l, Decision (P l)} db :
  users (BookListingsDAO.delete_listings P db).2 = users db
  ∧ books (BookListingsDAO.delete_listings P db).2 = books db
  ∧ exchange_requests_seq (BookListingsDAO.delete_listings P db).2
    = exchange_requests_seq db.
Proof.
  unfold BookListingsDAO.delete_listings. simpl.
  destruct (foreign_keys db); repeat split; reflexivity.
Qed.

Lemma database_eq db1 db2 :
  foreign_keys db1 = foreign_keys db2 →
  users db1 = users db2 → books db1 = books db2 →
  book_listings db1 = book_listings db2 →
  exchange_requests db1 = exchange_requests db2 →
  exchange_requests_seq db1 = exchange_requests_seq db2 →
  db1 = db2.
Proof. destruct db1, db2. simpl. by intros -> -> -> -> -> ->. Qed.

(** [deleteBookListing] is the one-id case of the shared statement. *)
Lemma deleteBookListing_as_delete_listings db id :
  BookListingsDAO.deleteBookListing id db
  = (Ok (bool_decide
           (0 < changes (λ l, BookListing.listing_id l = id)
                  (book_listings db))),
     (BookListingsDAO.delete_listings
        (λ l, BookListing.listing_id l = id) db).2).
Proof.
  unfold BookListingsDAO.deleteBookListing. f_equal.
  set (Q := λ l : BookListing.t, BookListing.listing_id l = id).
  apply database_eq.
  - rewrite delete_listings_foreign_keys. by destruct (foreign_keys db && _).
  - rewrite (proj1 (delete_listings_rest Q db)).
    by destruct (foreign_keys db && _).
  - rewrite (proj1 (proj2 (delete_listings_rest Q db))).
    by destruct (foreign_keys db && _).
  - rewrite delete_listings_listings. by destruct (foreign_keys db && _).
  - unfold BookListingsDAO.delete_listings. simpl.
    destruct (foreign_keys db); simpl; [|done].
    case_bool_decide as Hn; simpl.
    + unfold delete_where. apply list_filter_iff. intros r.
      apply changes_pos in Hn as (l0 & Hl0 & E0).
      assert (∀ k, k ∈ BookListing.listing_id <$> filter Q (book_listings db)
                   ↔ k = id) as Hk.
      { intros k. rewrite list_elem_of_fmap. split.
        - intros (l & -> & Hl). by apply list_elem_of_filter in Hl as [? _].
        - intros ->. exists l0. split; [done|].
          by apply list_elem_of_filter. }
      by rewrite !Hk.
    + symmetry. apply delete_where_none. intros r _.
      assert (filter Q (book_listings db) = []) as ->.
      { destruct (filter Q (book_listings db)) as [|l0 k] eqn:E; [done|].
        destruct Hn. apply changes_pos. exists l0.
        assert (l0 ∈ filter Q (book_listings db)) as Hl0
          by (rewrite E; left).
        apply list_elem_of_filter in Hl0. tauto. }
      simpl. intros [H|H]; by apply elem_of_nil in H.
  - rewrite (proj2 (proj2 (delete_listings_rest Q db))).
    by destruct (foreign_keys db && _).
Qed.

Lemma references_ok_delete_listings (P : BookListing.t → Prop)
    `{!∀ l, Decision (P l)} db :
  foreign_keys db = true →
  references_ok db →
  references_ok (BookListingsDAO.delete_listings P db).2.
Proof.
  intros Hfk Hok. unfold references_ok in *. rewrite Forall_forall in *.
  intros q [Hq Hno]%delete_listings_requests. specialize (Hno Hfk).
  destruct (Hok q Hq) as [Hee Her].
  unfold listing_exists in *. rewrite delete_listings_listings.
  rewrite !Exists_exists in *.
  destruct Hee as (l1 & Hl1 & E1), Her as (l2 & Hl2 & E2).
  split.
  - exists l1. split; [|done]. apply elem_of_delete_where. split; [done|].
    intros HP. destruct (Hno l1 Hl1 HP). congruence.
  - exists l2. split; [|done]. apply elem_of_delete_where. split; [done|].
    intros HP. destruct (Hno l2 Hl2 HP). congruence.
Qed.

(** X7: [deleteBookListingsByUser(userId)] and [deleteBookListingsByBook]
    remove exactly the listings of that user (of that book) and return how
    many went; afterwards [getBookListingsByUser] ([getBookListingsByBook])
    is empty, the other listings are as before, no request is added, and
    with foreign keys enforced every request on a removed listing is gone, so
    that requests which referenced stored listings still do. *)
Theorem bulk_delete_removes_the_listings_of_one_owner db key :
  (∃ n db1,
     BookListingsDAO.deleteBookListingsByUser key db = (Ok n, db1)
     ∧ n = Z.of_nat (length (book_listings db))
           - Z.of_nat (length (book_listings db1))
     ∧ book_listings db1
       = filter (λ l, BookListing.user_id l ≠ key) (book_listings db)
     ∧ BookListingsDAO.getBookListingsByUser key db1 = (Ok [], db1)
     ∧ exchange_requests db1 `sublist_of` exchange_requests db
     ∧ (foreign_keys db = true → references_ok db → references_ok db1))
  ∧ (∃ n db1,
       BookListingsDAO.deleteBookListingsByBook key db = (Ok n, db1)
       ∧ n = Z.of_nat (length (book_listings db))
             - Z.of_nat (length (book_listings db1))
       ∧ book_listings db1
         = filter (λ l, BookListing.book_id l ≠ key) (book_listings db)
       ∧ BookListingsDAO.getBookListingsByBook key db1 = (Ok [], db1)
       ∧ exchange_requests db1 `sublist_of` exchange_requests db
       ∧ (foreign_keys db = true → references_ok db → references_ok db1)).
Proof.
  split.
  - exists (changes (λ l, BookListing.user_id l = key) (book_listings db)),
           (BookListingsDAO.delete_listings
              (λ l, BookListing.user_id l = key) db).2.
    split; [done|]. split.
    { pose proof (delete_listings_count
                    (λ l, BookListing.user_id l = key) db) as H.
      by injection H. }
    split; [apply delete_listings_listings|]. split.
    { unfold BookListingsDAO.getBookListingsByUser, read. f_equal. f_equal.
      rewrite delete_listings_listings.
      pose proof (changes_delete_where (λ l, BookListing.user_id l = key)
                    (book_listings db)) as H.
      unfold changes in H. destruct (filter _ (delete_where _ _)); [done|].
      simpl in H. lia. }
    split; [apply delete_listings_requests_sub|].
    apply references_ok_delete_listings.
  - exists (changes (λ l, BookListing.book_id l = key) (book_listings db)),
           (BookListingsDAO.delete_listings
              (λ l, BookListing.book_id l = key) db).2.
    split; [done|]. split.
    { pose proof (delete_listings_count
                    (λ l, BookListing.book_id l = key) db) as H.
      by injection H. }
    split; [apply delete_listings_listings|]. split.
    { unfold BookListingsDAO.getBookListingsByBook, read. f_equal. f_equal.
      rewrite delete_listings_listings.
      pose proof (changes_delete_where (λ l, BookListing.book_id l = key)
                    (book_listings db)) as H.
      unfold changes in H. destruct (filter _ (delete_where _ _)); [done|].
      simpl in H. lia. }
    split; [apply delete_listings_requests_sub|].
    apply references_ok_delete_listings.
Qed.

Lemma delete_each_spec listingIds :
  ∀ acc db,
    ∃ db1,
      BookListingsDAO.delete_each listingIds acc db
      = (Ok (acc + (Z.of_nat (length (book_listings db))
                    - Z.of_nat (length (book_listings db1)))), db1)
      ∧ book_listings db1
        = filter (λ l, BookListing.listing_id l ∉ listingIds)
                 (book_listings db)
      ∧ exchange_requests db1 `sublist_of` exchange_requests db
      ∧ foreign_keys db1 = foreign_keys db
      ∧ (foreign_keys db = true → references_ok db → references_ok db1).
Proof.
  induction listingIds as [|k rest IH]; intros acc db.
  - exists db. split; [|split; [|split; [|split]]]; try done.
    + unfold BookListingsDAO.delete_each, ret. do 2 f_equal. lia.
    + symmetry. apply (delete_where_none (λ l, BookListing.listing_id l ∈ [])).
      intros l _ H. by apply elem_of_nil in H.
  - set (Pk := λ l : BookListing.t, BookListing.listing_id l = k).
    set (db0 := (BookListingsDAO.delete_listings Pk db).2).
    destruct (IH (acc + changes Pk (book_listings db)) db0)
      as (db1 & Hrun & Hls & Hsub & Hfk & Hok).
    exists db1. split; [|split; [|split; [|split]]].
    + simpl. unfold bind. fold Pk.
      change (BookListingsDAO.delete_listings Pk db)
        with (Ok (changes Pk (book_listings db)) : Result Z, db0).
      cbv beta iota. rewrite Hrun. do 2 f_equal.
      pose proof (changes_plus_kept Pk (book_listings db)) as Hc.
      subst db0. rewrite delete_listings_listings. lia.
    + rewrite Hls. subst db0. rewrite delete_listings_listings.
      unfold delete_where. rewrite list_filter_filter.
      apply list_filter_iff. intros l. subst Pk. simpl.
      rewrite not_elem_of_cons. tauto.
    + etrans; [exact Hsub|]. apply delete_listings_requests_sub.
    + rewrite Hfk. apply delete_listings_foreign_keys.
    + intros Hfk0 Hok0. apply Hok.
      * subst db0. by rewrite delete_listings_foreign_keys.
      * by apply references_ok_delete_listings.
Qed.

Lemma deleteMultipleBookListings_requests db listingIds :
  ∃ n db1,
    BookListingsDAO.deleteMultipleBookListings listingIds db = (Ok n, db1)
    ∧ exchange_requests db1 `sublist_of` exchange_requests db
    ∧ (foreign_keys db = true → references_ok db → references_ok db1).
Proof.
  unfold BookListingsDAO.deleteMultipleBookListings.
  destruct (decide (length listingIds = 0%nat)) as [Hnil|Hne].
  - by exists 0, db.
  - destruct (delete_each_spec listingIds 0 db)
      as (db1 & Hrun & _ & Hsub & _ & Hok).
    eexists _, db1. unfold transaction. by rewrite Hrun.
Qed.

(** X8: [deleteMultipleBookListings(listingIds)] removes the stored listings
    whose id is in the list, keeps the others in order, and returns the
    number of listings that went (an id given twice or not stored adds
    nothing); the empty list returns 0 and leaves the database as it is.  No
    request is added, and with foreign keys enforced requests that referenced
    stored listings still do afterwards. *)
Theorem deleteMultipleBookListings_removes_listed_ids db listingIds :
  ∃ n db1,
    BookListingsDAO.deleteMultipleBookListings listingIds db = (Ok n, db1)
    ∧ n = Z.of_nat (length (book_listings db))
          - Z.of_nat (length (book_listings db1))
    ∧ book_listings db1
      = filter (λ l, BookListing.listing_id l ∉ listingIds) (book_listings db)
    ∧ exchange_requests db1 `sublist_of` exchange_requests db
    ∧ (listingIds = [] → db1 = db)
    ∧ (foreign_keys db = true → references_ok db → references_ok db1).
Proof.
  unfold BookListingsDAO.deleteMultipleBookListings.
  destruct (decide (length listingIds = 0%nat)) as [Hnil|Hne].
  - apply length_zero_iff_nil in Hnil as ->. exists 0, db.
    split; [done|]. split; [lia|]. split; [|done].
    symmetry. apply (delete_where_none (λ l, BookListing.listing_id l ∈ [])).
    intros l _ H. by apply elem_of_nil in H.
  - destruct (delete_each_spec listingIds 0 db)
      as (db1 & Hrun & Hls & Hsub & _ & Hok).
    eexists _, db1. unfold transaction. rewrite Hrun.
    split; [done|]. split; [lia|]. split; [done|]. split; [done|].
    split; [|done]. intros ->. done.
Qed.

(** ** Recent listings *)

Lemma more_recent_trans : Transitive BookListingsDAO.more_recent.
Proof. intros a b c. unfold BookListingsDAO.more_recent. lia. Qed.

Lemma place_by_date_Permutation x sorted :
  BookListingsDAO.place_by_date x sorted ≡ₚ x :: sorted.
Proof.
  induction sorted as [|y rest IH]; simpl; [done|].
  destruct (decide _); [done|]. rewrite IH. apply Permutation_swap.
Qed.

Lemma place_by_date_sorted x sorted :
  StronglySorted BookListingsDAO.more_recent sorted →
  StronglySorted BookListingsDAO.more_recent
    (BookListingsDAO.place_by_date x sorted).
Proof.
  induction 1 as [|y rest Hrest IH Hy]; simpl.
  - repeat constructor.
  - destruct (decide (BookListingsDAO.more_recent x y)) as [Hxy|Hxy].
    + constructor; [by constructor|]. constructor; [done|].
      eapply Forall_impl; [exact Hy|]. intros z Hz.
      by apply (more_recent_trans x y z).
    + constructor; [done|]. rewrite place_by_date_Permutation.
      constructor; [|done]. unfold BookListingsDAO.more_recent in *. lia.
Qed.

Lemma order_by_date_desc_Permutation rows :
  BookListingsDAO.order_by_date_desc rows ≡ₚ rows.
Proof.
  induction rows as [|x rows IH]; [done|].
  unfold BookListingsDAO.order_by_date_desc in *. simpl.
  by rewrite place_by_date_Permutation, IH.
Qed.

Lemma order_by_date_desc_sorted rows :
  StronglySorted BookListingsDAO.more_recent
    (BookListingsDAO.order_by_date_desc rows).
Proof.
  induction rows as [|x rows IH]; [constructor|].
  by apply place_by_date_sorted.
Qed.

Lemma first_rows_take {A} (n : Z) (rows : list A) :
  (0 ≤ n)%Z → BookListingsDAO.first_rows n rows = take (Z.to_nat n) rows.
Proof.
  revert n. induction rows as [|x rows IH]; intros n Hn; simpl.
  - by destruct (Z.to_nat n).
  - destruct (decide (0 < n)) as [Hpos|Hzero].
    + rewrite IH by lia.
      replace (Z.to_nat n) with (S (Z.to_nat (n - 1))) by lia. done.
    + by replace n with 0 by lia.
Qed.

Lemma sql_limit_split {A} (n : Z) (rows : list A) :
  ∃ rest,
    (BookListingsDAO.sql_limit n rows ++ rest)%list = rows
    ∧ length (BookListingsDAO.sql_limit n rows)
      = if decide (n < 0) then length rows
        else Nat.min (Z.to_nat n) (length rows).
Proof.
  unfold BookListingsDAO.sql_limit. destruct (decide (n < 0)).
  - exists []. by rewrite app_nil_r.
  - rewrite first_rows_take by lia.
    exists (drop (Z.to_nat n) rows). by rewrite take_drop, length_take.
Qed.

Lemma getRecentBookListings_in_range db limit :
  BookListingsDAO.limit_in_range limit →
  BookListingsDAO.getRecentBookListings limit db
  = (Ok (BookListingsDAO.sql_limit limit
           (BookListingsDAO.order_by_date_desc (book_listings db))), db).
Proof.
  intros Hin. unfold BookListingsDAO.getRecentBookListings.
  by rewrite decide_True.
Qed.

Lemma getRecentBookListings_out_of_range db limit :
  ¬ BookListingsDAO.limit_in_range limit →
  BookListingsDAO.getRecentBookListings limit db
  = (Throw {| name := SqliteError; message := "datatype mismatch" |}, db).
Proof.
  intros Hout. unfold BookListingsDAO.getRecentBookListings.
  by rewrite decide_False.
Qed.

Lemma getRecentBookListings_length db limit :
  BookListingsDAO.limit_in_range limit →
  ∃ listed,
    BookListingsDAO.getRecentBookListings limit db = (Ok listed, db)
    ∧ length listed
      = if decide (limit < 0) then length (book_listings db)
        else Nat.min (Z.to_nat limit) (length (book_listings db)).
Proof.
  intros Hin.
  destruct (sql_limit_split limit
              (BookListingsDAO.order_by_date_desc (book_listings db)))
    as (rest & _ & Hlen).
  eexists. split; [by apply getRecentBookListings_in_range|]. rewrite Hlen.
  by rewrite (Permutation_length (order_by_date_desc_Permutation _)).
Qed.

(** X9: for a [limit] strictly between -2^63 and 2^63,
    [getRecentBookListings(limit)] returns stored listings, most recent
    first: the result is sorted by [list_on_date] descending, it is a part of
    the stored listings whose remainder holds nothing more recent than what
    was returned, and it has [min(limit, count)] rows for [limit >= 0] and
    all rows for a negative [limit].  For any other [limit] the statement
    throws [SqliteError] "datatype mismatch".  The database is not written
    either way. *)
Theorem getRecentBookListings_returns_the_latest db limit :
  (BookListingsDAO.limit_in_range limit →
   ∃ listed rest,
     BookListingsDAO.getRecentBookListings limit db = (Ok listed, db)
     ∧ (listed ++ rest)%list ≡ₚ book_listings db
     ∧ StronglySorted BookListingsDAO.more_recent listed
     ∧ (∀ x y, x ∈ listed → y ∈ rest →
               (BookListing.list_on_date y ≤ BookListing.list_on_date x)%Z)
     ∧ length listed
       = if decide (limit < 0) then length (book_listings db)
         else Nat.min (Z.to_nat limit) (length (book_listings db)))
  ∧ (¬ BookListingsDAO.limit_in_range limit →
     BookListingsDAO.getRecentBookListings limit db
     = (Throw {| name := SqliteError; message := "datatype mismatch" |}, db)).
Proof.
  split; [|apply getRecentBookListings_out_of_range].
  intros Hin.
  set (sorted := BookListingsDAO.order_by_date_desc (book_listings db)).
  destruct (sql_limit_split limit sorted) as (rest & Hsplit & Hlen).
  assert (StronglySorted BookListingsDAO.more_recent sorted) as Hsorted
    by apply order_by_date_desc_sorted.
  assert (sorted ≡ₚ book_listings db) as Hperm
    by apply order_by_date_desc_Permutation.
  rewrite <- Hsplit in Hsorted.
  apply StronglySorted_app in Hsorted as (Hcross & Hl & _).
  exists (BookListingsDAO.sql_limit limit sorted), rest.
  split; [by apply getRecentBookListings_in_range|].
  split; [by rewrite Hsplit|]. split; [done|].
  split; [exact Hcross|].
  rewrite Hlen. by rewrite (Permutation_length Hperm).
Qed.

Lemma getRecentBookListings_returns_the_latest_witness :
  (∃ listed rest,
     BookListingsDAO.getRecentBookListings 2 (scenario true)
     = (Ok listed, scenario true)
     ∧ (listed ++ rest)%list ≡ₚ book_listings (scenario true)
     ∧ StronglySorted BookListingsDAO.more_recent listed
     ∧ (∀ x y, x ∈ listed → y ∈ rest →
               (BookListing.list_on_date y ≤ BookListing.list_on_date x)%Z)
     ∧ length listed = 2%nat)
  ∧ BookListingsDAO.getRecentBookListings (2 ^ 63) (scenario true)
    = (Throw {| name := SqliteError; message := "datatype mismatch" |},
       scenario true).
Proof.
  split.
  - apply (proj1 (getRecentBookListings_returns_the_latest (scenario true) 2)).
    unfold BookListingsDAO.limit_in_range. lia.
  - apply (proj2 (getRecentBookListings_returns_the_latest (scenario true)
                    (2 ^ 63))).
    unfold BookListingsDAO.limit_in_range. lia.
Defined.

(** X10: [GET /listings/recent/:limit] writes nothing.  A limit that does
    not parse, or 0, is served as 10 (so 0 never yields an empty answer while
    listings exist).  A limit strictly between -2^63 and 2^63 is answered 200:
    with every listing when it is negative, with at most [limit] listings
    otherwise.  Any other limit is answered 500, since the statement
    throws. *)
Theorem recentListings_defaults_to_ten db limit :
  (recentListings limit db).2 = db
  ∧ recentListings None db = recentListings (Some 10) db
  ∧ recentListings (Some 0) db = recentListings (Some 10) db
  ∧ ((∀ n, limit = Some n → BookListingsDAO.limit_in_range n) →
     ∃ listed,
       recentListings limit db
       = ({| reply_code := 200; reply_body := ListingsPayload listed |}, db)
       ∧ length listed
         = match limit with
           | None => Nat.min 10 (length (book_listings db))
           | Some n =>
               if decide (n = 0) then Nat.min 10 (length (book_listings db))
               else if decide (n < 0) then length (book_listings db)
                    else Nat.min (Z.to_nat n) (length (book_listings db))
           end)
  ∧ (∀ n, limit = Some n → ¬ BookListingsDAO.limit_in_range n →
          recentListings limit db
          = ({| reply_code := 500;
                reply_body := ErrorPayload "Internal server error" |}, db)).
Proof.
  assert (BookListingsDAO.limit_in_range 10) as Hten
    by (unfold BookListingsDAO.limit_in_range; lia).
  assert (∀ n, BookListingsDAO.limit_in_range n →
            ∃ listed,
              BooksService.getRecentBookListings n db = (Ok listed, db)
              ∧ length listed
                = if decide (n < 0) then length (book_listings db)
                  else Nat.min (Z.to_nat n) (length (book_listings db)))
    as Hdao.
  { intros n. apply getRecentBookListings_length. }
  assert (∀ n, ¬ BookListingsDAO.limit_in_range n →
            BooksService.getRecentBookListings n db
            = (Throw {| name := SqliteError; message := "datatype mismatch" |},
               db)) as Hthrows.
  { intros n. apply getRecentBookListings_out_of_range. }
  assert (recentListings None db = recentListings (Some 10) db) as H1
    by reflexivity.
  assert (recentListings (Some 0) db = recentListings (Some 10) db) as H2
    by reflexivity.
  assert (∀ n, n ≠ 0 → ¬ BookListingsDAO.limit_in_range n →
            recentListings (Some n) db
            = ({| reply_code := 500;
                  reply_body := ErrorPayload "Internal server error" |}, db))
    as Hout.
  { intros n Hn Hrange. unfold recentListings.
    rewrite decide_False by done. by rewrite (Hthrows n Hrange). }
  assert ((∀ n, limit = Some n → BookListingsDAO.limit_in_range n) →
          ∃ listed,
            recentListings limit db
            = ({| reply_code := 200; reply_body := ListingsPayload listed |},
               db)
            ∧ length listed
              = match limit with
                | None => Nat.min 10 (length (book_listings db))
                | Some n =>
                    if decide (n = 0)
                    then Nat.min 10 (length (book_listings db))
                    else if decide (n < 0) then length (book_listings db)
                         else Nat.min (Z.to_nat n) (length (book_listings db))
                end) as Hin.
  { intros Hrange. unfold recentListings.
    destruct limit as [n|]; [destruct (decide (n = 0)) as [->|Hn]|].
    - destruct (Hdao 10 Hten) as (listed & -> & Hlen). by exists listed.
    - destruct (Hdao n (Hrange n eq_refl)) as (listed & -> & Hlen).
      by exists listed.
    - destruct (Hdao 10 Hten) as (listed & -> & Hlen). by exists listed. }
  split; [|split; [exact H1|split; [exact H2|split; [exact Hin|]]]].
  - destruct limit as [n|].
    + destruct (decide (BookListingsDAO.limit_in_range n)) as [Hr|Hr].
      * destruct Hin as (listed & -> & _); [|done].
        intros m [= <-]. exact Hr.
      * rewrite Hout; [done| |done].
        intros ->. apply Hr. unfold BookListingsDAO.limit_in_range. lia.
    + destruct Hin as (listed & -> & _); [|done]. intros m [=].
  - intros n -> Hr. apply Hout; [|done].
    intros ->. apply Hr. unfold BookListingsDAO.limit_in_range. lia.
Qed.

Lemma recentListings_defaults_to_ten_witness :
  (∃ listed,
     recentListings (Some 3) (scenario true)
     = ({| reply_code := 200; reply_body := ListingsPayload listed |},
        scenario true)
     ∧ length listed = 3%nat)
  ∧ recentListings (Some 100000000000000000000) (scenario true)
    = ({| reply_code := 500;
          reply_body := ErrorPayload "Internal server error" |},
       scenario true).
Proof.
  split.
  - pose proof (recentListings_defaults_to_ten (scenario true) (Some 3))
      as (_ & _ & _ & Hin & _).
    apply Hin. intros n [= <-]. unfold BookListingsDAO.limit_in_range. lia.
  - pose proof (recentListings_defaults_to_ten (scenario true)
                  (Some 100000000000000000000)) as (_ & _ & _ & _ & Hout).
    apply (Hout 100000000000000000000); [reflexivity|].
    unfold BookListingsDAO.limit_in_range. lia.
Defined.

(** ** Creating listings *)

Lemma listing_max_rowid_ge rows l :
  l ∈ rows →
  (BookListing.listing_id l ≤ BookListingsDAO.max_rowid rows)%Z.
Proof.
  unfold BookListingsDAO.max_rowid.
  induction rows as [|q rows IH]; intros Hl.
  - by apply elem_of_nil in Hl.
  - rewrite fmap_cons. simpl. apply elem_of_cons in Hl as [->|Hl].
    + lia.
    + specialize (IH Hl). lia.
Qed.

(** X11: when foreign keys are not enforced, or the user and the book exist,
    [createBookListing] appends one listing and returns it: its id is above
    the AUTOINCREMENT counter and above every stored id, the date is the
    given one or else the clock in seconds, [getBookListingById] reads it
    back, it is in [getBookListingsByUser] of its owner, and the listings
    stored before are unchanged. *)
Theorem created_listing_is_read_back db seq now bookListing :
  foreign_keys db = false
  ∨ (user_exists db (new_user_id bookListing)
     ∧ book_exists db (new_book_id bookListing)) →
  ∃ l db1,
    BookListingsDAO.createBookListing seq now bookListing db = (Ok l, db1)
    ∧ l = BookListing.mk (BookListing.listing_id l)
            (new_description bookListing)
            (default (now `div` 1000) (new_list_on_date bookListing))
            (new_user_id bookListing) (new_book_id bookListing)
    ∧ seq < BookListing.listing_id l
    ∧ (∀ x, x ∈ book_listings db →
            BookListing.listing_id x < BookListing.listing_id l)
    ∧ book_listings db1 = (book_listings db ++ [l])%list
    ∧ db1 = with_book_listings (book_listings db1) db
    ∧ BookListingsDAO.getBookListingById (BookListing.listing_id l) db1
      = (Ok l, db1)
    ∧ (∃ listed,
         BookListingsDAO.getBookListingsByUser (new_user_id bookListing) db1
         = (Ok listed, db1) ∧ l ∈ listed).
Proof.
  intros Hfk.
  set (id := Z.max seq (BookListingsDAO.max_rowid (book_listings db)) + 1).
  set (l := BookListing.mk id (new_description bookListing)
              (default (now `div` 1000) (new_list_on_date bookListing))
              (new_user_id bookListing) (new_book_id bookListing)).
  set (db1 := with_book_listings (book_listings db ++ [l]) db).
  assert (∀ x, x ∈ book_listings db →
               BookListing.listing_id x < BookListing.listing_id l) as Hfresh.
  { intros x Hx%listing_max_rowid_ge. subst l id. simpl. lia. }
  assert (BookListingsDAO.getBookListingById id db1 = (Ok l, db1)) as Hback.
  { apply getBookListingById_found. simpl.
    apply get_snoc_fresh; [|done]. intros x Hx. apply Hfresh in Hx.
    subst l. simpl in *. lia. }
  exists l, db1. split.
  - unfold BookListingsDAO.createBookListing, try_catch, transaction, bind,
      BookListingsDAO.insert.
    assert (foreign_keys db
            && negb (bool_decide
                       (user_exists db (new_user_id bookListing)
                        ∧ book_exists db (new_book_id bookListing)))
            = false) as ->.
    { destruct Hfk as [-> | Hp]; [done|].
      rewrite (bool_decide_eq_true_2 _ Hp). apply andb_false_r. }
    fold id. fold l. fold db1. by rewrite Hback.
  - split; [done|]. split; [subst l id; simpl; lia|].
    split; [done|]. split; [done|]. split; [done|]. split; [done|].
    eexists. split; [done|]. apply list_elem_of_filter. split; [done|].
    simpl. apply elem_of_app. right. left.
Qed.

Lemma created_listing_is_read_back_witness :
  ∃ l db1,
    BookListingsDAO.createBookListing 400 1700000999123
      {| new_description := "signed"; new_list_on_date := None;
         new_user_id := 2; new_book_id := 10 |} (scenario true)
    = (Ok l, db1)
    ∧ l = BookListing.mk (BookListing.listing_id l) "signed" 1700000999 2 10
    ∧ 400 < BookListing.listing_id l
    ∧ (∀ x, x ∈ book_listings (scenario true) →
            BookListing.listing_id x < BookListing.listing_id l)
    ∧ book_listings db1 = (book_listings (scenario true) ++ [l])%list
    ∧ db1 = with_book_listings (book_listings db1) (scenario true)
    ∧ BookListingsDAO.getBookListingById (BookListing.listing_id l) db1
      = (Ok l, db1)
    ∧ (∃ listed,
         BookListingsDAO.getBookListingsByUser 2 db1 = (Ok listed, db1)
         ∧ l ∈ listed).
Proof.
  apply (created_listing_is_read_back (scenario true) 400 1700000999123
           {| new_description := "signed"; new_list_on_date := None;
              new_user_id := 2; new_book_id := 10 |}).
  right. split; by_evaluation.
Defined.

(** X12: with foreign keys enforced, [createBookListing] for a user or a
    book that is not stored throws [CreateBookListingError] carrying the
    engine's message, and stores nothing. *)
Theorem createBookListing_needs_user_and_book db seq now bookListing :
  foreign_keys db = true →
  ¬ (user_exists db (new_user_id bookListing)
     ∧ book_exists db (new_book_id bookListing)) →
  BookListingsDAO.createBookListing seq now bookListing db
  = (Throw {| name := CreateBookListingError;
              message := "Failed to create listing: FOREIGN KEY constraint failed" |},
     db).
Proof.
  intros Hfk Hmiss.
  unfold BookListingsDAO.createBookListing, try_catch, transaction, bind,
    BookListingsDAO.insert.
  by rewrite Hfk, (bool_decide_eq_false_2 _ Hmiss).
Qed.

Lemma createBookListing_needs_user_and_book_witness :
  BookListingsDAO.createBookListing 400 1700000999123
    {| new_description := "signed"; new_list_on_date := Some 1700000000;
       new_user_id := 9; new_book_id := 10 |} (scenario true)
  = (Throw {| name := CreateBookListingError;
              message := "Failed to create listing: FOREIGN KEY constraint failed" |},
     scenario true).
Proof.
  apply (createBookListing_needs_user_and_book (scenario true)).
  - reflexivity.
  - intros [H _]. revert H. apply (bool_decide_unpack _). vm_compute. exact I.
Defined.

(** ** The status, delete and view routes *)

Lemma valid_status_nonempty s : s ∈ valid_statuses → s ≠ "".
Proof.
  unfold valid_statuses. rewrite !elem_of_cons, elem_of_nil.
  intros [->|[->|[->|[->|[->|[]]]]]]; done.
Qed.

(** X13: [PUT /exchanges/:id/status] with one of the five status values on a
    stored request answers 200 with the updated request and changes that
    request only: unlike the accept route, setting [accepted] this way
    rejects no other request on the same listing and deletes no listing. *)
Theorem status_route_updates_one_request db id s R :
  ExchangeRequestsDAO.getExchangeRequestById id db = (Ok R, db) →
  s ∈ valid_statuses →
  ∃ db',
    updateExchangeStatus (Some id) (Some s) db
    = ({| status_code := 200;
          body := ExchangeBody (ExchangeRequest.set_status s R) |}, db')
    ∧ ExchangeRequestsDAO.getExchangeRequestById id db'
      = (Ok (ExchangeRequest.set_status s R), db')
    ∧ (∀ i q, exchange_requests db !! i = Some q →
              ExchangeRequest.request_id q ≠ id →
              exchange_requests db' !! i = Some q)
    ∧ length (exchange_requests db') = length (exchange_requests db)
    ∧ db' = with_exchange_requests (exchange_requests db') db.
Proof.
  intros E%getExchangeRequestById_inv Hs.
  pose proof (valid_status_nonempty _ Hs) as Hne.
  pose proof (get_Some _ _ _ E) as [_ Hid].
  eexists. split; [|split; [|split; [|split]]].
  - unfold updateExchangeStatus, bind,
      ExchangeService.updateExchangeRequestStatus.
    rewrite decide_True by done.
    by rewrite (updateExchangeRequestStatus_found _ _ _ _ E).
  - apply getExchangeRequestById_found. simpl.
    rewrite get_by_id_update_where, E. simpl. by rewrite decide_True.
  - intros i q Hq Hqid. simpl. rewrite update_where_lookup, Hq. simpl.
    by rewrite decide_False.
  - simpl. unfold update_where. by rewrite length_fmap.
  - done.
Qed.

Lemma status_route_updates_one_request_witness :
  ∃ db',
    updateExchangeStatus (Some 1) (Some "accepted") (scenario true)
    = ({| status_code := 200;
          body := ExchangeBody
                    (ExchangeRequest.mk 1 100 200 "accepted" 1700000300) |},
       db')
    ∧ ExchangeRequestsDAO.getExchangeRequestById 1 db'
      = (Ok (ExchangeRequest.mk 1 100 200 "accepted" 1700000300), db')
    ∧ (∀ i q, exchange_requests (scenario true) !! i = Some q →
              ExchangeRequest.request_id q ≠ 1 →
              exchange_requests db' !! i = Some q)
    ∧ length (exchange_requests db') = length (exchange_requests (scenario true))
    ∧ db' = with_exchange_requests (exchange_requests db') (scenario true).
Proof.
  apply (status_route_updates_one_request (scenario true) 1 "accepted"
           (ExchangeRequest.mk 1 100 200 "pending" 1700000300)).
  - vm_compute. reflexivity.
  - by_evaluation.
Defined.

(** X14: [PUT /exchanges/:id/status] refuses a missing status and a status
    outside the five values with 400, and for an id that is not stored it
    answers 500, not 404: the DAO reports the missing row as
    [UpdateExchangeRequestError], which the route does not map.  None of
    these answers writes to the database. *)
Theorem status_route_rejections db id status :
  (status = None ∨ (∃ s, status = Some s ∧ s ∉ valid_statuses) →
   updateExchangeStatus (Some id) status db
   = ({| status_code := 400;
         body := ErrorBody "Valid status is required (pending, accepted, rejected, completed, cancelled)" |},
      db))
  ∧ (∀ s, status = Some s → s ∈ valid_statuses →
          (∀ r, r ∈ exchange_requests db → ExchangeRequest.request_id r ≠ id) →
          updateExchangeStatus (Some id) status db
          = ({| status_code := 500; body := ErrorBody "Internal server error" |},
             db))
  ∧ updateExchangeStatus None status db
    = ({| status_code := 400; body := ErrorBody "Invalid request ID" |}, db).
Proof.
  split; [|split].
  - intros [->|(s & -> & Hs)]; [done|].
    unfold updateExchangeStatus. rewrite decide_False; [done|]. tauto.
  - intros s -> Hs Habs.
    pose proof (valid_status_nonempty _ Hs) as Hne.
    unfold updateExchangeStatus, bind,
      ExchangeService.updateExchangeRequestStatus.
    rewrite decide_True by done.
    rewrite updateExchangeRequestStatus_missing; [done|].
    by apply get_None.
  - done.
Qed.

Lemma status_route_rejections_witness :
  updateExchangeStatus (Some 1) (Some "done") (scenario true)
  = ({| status_code := 400;
        body := ErrorBody "Valid status is required (pending, accepted, rejected, completed, cancelled)" |},
     scenario true)
  ∧ updateExchangeStatus (Some 99) (Some "rejected") (scenario true)
    = ({| status_code := 500; body := ErrorBody "Internal server error" |},
       scenario true).
Proof.
  pose proof (status_route_rejections (scenario true) 1 (Some "done"))
    as (Hbad & _ & _).
  pose proof (status_route_rejections (scenario true) 99 (Some "rejected"))
    as (_ & Hmissing & _).
  split.
  - apply Hbad. right. exists "done". split; [done|]. by_evaluation.
  - apply (Hmissing "rejected"); [done | by_evaluation | for_each_row].
Defined.

(** X15: [DELETE /exchanges/:id] answers 204 exactly when a request with
    that id was stored and 404 otherwise; afterwards no request has the id,
    the other requests are as before, and asking again answers 404 without
    changing anything. *)
Theorem delete_route_answers_by_presence db id :
  ∃ reply db1,
    deleteExchange (Some id) db = (reply, db1)
    ∧ (reply_code reply = 204
       ↔ ∃ r, r ∈ exchange_requests db ∧ ExchangeRequest.request_id r = id)
    ∧ (reply_code reply = 204 ∨ reply_code reply = 404)
    ∧ (∀ r, r ∈ exchange_requests db1
            ↔ r ∈ exchange_requests db ∧ ExchangeRequest.request_id r ≠ id)
    ∧ deleteExchange (Some id) db1
      = ({| reply_code := 404;
            reply_body := ErrorPayload "Exchange request not found" |}, db1).
Proof.
  set (P := λ r : ExchangeRequest.t, ExchangeRequest.request_id r = id).
  set (db1 := with_exchange_requests (delete_where P (exchange_requests db)) db).
  assert (deleteExchange (Some id) db1
          = ({| reply_code := 404;
                reply_body := ErrorPayload "Exchange request not found" |},
             db1)) as Hagain.
  { unfold deleteExchange, ExchangeService.deleteExchangeRequest,
      ExchangeRequestsDAO.deleteExchangeRequest. fold P.
    replace (changes P (exchange_requests db1)) with 0
      by (symmetry; apply changes_delete_where).
    rewrite bool_decide_eq_false_2 by lia.
    subst db1. simpl. by rewrite delete_where_idemp. }
  assert (∀ r, r ∈ exchange_requests db1
               ↔ r ∈ exchange_requests db ∧ ExchangeRequest.request_id r ≠ id)
    as Hkept.
  { intros r. subst db1. simpl. rewrite elem_of_delete_where. tauto. }
  destruct (decide (0 < changes P (exchange_requests db))) as [Hn|Hn].
  - exists {| reply_code := 204; reply_body := NoContent |}, db1.
    split.
    { unfold deleteExchange, ExchangeService.deleteExchangeRequest,
        ExchangeRequestsDAO.deleteExchangeRequest. fold P.
      by rewrite bool_decide_eq_true_2. }
    split; [by rewrite <- changes_pos|]. split; [by left|]. done.
  - exists {| reply_code := 404;
              reply_body := ErrorPayload "Exchange request not found" |}, db1.
    split.
    { unfold deleteExchange, ExchangeService.deleteExchangeRequest,
        ExchangeRequestsDAO.deleteExchangeRequest. fold P.
      by rewrite bool_decide_eq_false_2. }
    split; [split; [done | by rewrite <- changes_pos]|].
    split; [by right|]. done.
Qed.

(** X16: [GET /exchanges/:id] shows a stored request to the owner of its
    requestee listing and to the owner of its requester listing, and answers
    403 to every other user; in both cases nothing is written. *)
Theorem view_route_is_for_the_two_owners db username u id R lee ler :
  ExchangeRequestsDAO.getExchangeRequestById id db = (Ok R, db) →
  UserService.getUserProfile username db = (Ok u, db) →
  BookListingsDAO.getBookListingById
    (ExchangeRequest.requestee_listing_id R) db = (Ok lee, db) →
  BookListingsDAO.getBookListingById
    (ExchangeRequest.requester_listing_id R) db = (Ok ler, db) →
  (BookListing.user_id lee = User.user_id u
   ∨ BookListing.user_id ler = User.user_id u →
   viewExchange (Some username) (Some id) db
   = ({| status_code := 200; body := ExchangeBody R |}, db))
  ∧ (BookListing.user_id lee ≠ User.user_id u →
     BookListing.user_id ler ≠ User.user_id u →
     viewExchange (Some username) (Some id) db
     = ({| status_code := 403;
           body := ErrorBody "Not authorized to view this exchange request" |},
        db)).
Proof.
  intros HR%getExchangeRequestById_inv Hu%getUserProfile_inv
         Hee%getBookListingById_inv Her%getBookListingById_inv.
  unfold viewExchange, bind, ExchangeService.getExchangeRequestById,
    BooksService.getBookListingById.
  rewrite (getExchangeRequestById_found _ _ _ HR).
  rewrite (getUserProfile_found _ _ _ Hu).
  rewrite (getBookListingById_found _ _ _ Hee).
  rewrite (getBookListingById_found _ _ _ Her).
  split.
  - intros Hown. rewrite decide_False; [done|]. tauto.
  - intros H1 H2. by rewrite decide_True.
Qed.

Lemma view_route_is_for_the_two_owners_witness :
  viewExchange (Some "bob") (Some 1) (scenario true)
  = ({| status_code := 200;
        body := ExchangeBody
                  (ExchangeRequest.mk 1 100 200 "pending" 1700000300) |},
     scenario true).
Proof.
  apply (view_route_is_for_the_two_owners (scenario true) "bob"
           (User.mk 2 "bob") 1
           (ExchangeRequest.mk 1 100 200 "pending" 1700000300)
           (BookListing.mk 100 "worn" 1700000000 1 10)
           (BookListing.mk 200 "good" 1700000100 2 20));
    try (vm_compute; reflexivity).
  right. reflexivity.
Defined.

(** X17: [GET /exchanges/:id] never writes, whatever the caller and the id;
    an id that does not parse is answered 400, an id that is not stored 404
    (before the caller is looked at), and a stored request one of whose
    listings is gone 500 for a registered caller. *)
Theorem view_route_reads_only db req_user requestId :
  (viewExchange req_user requestId db).2 = db
  ∧ status_code (viewExchange req_user None db).1 = 400
  ∧ (∀ id,
       (∀ r, r ∈ exchange_requests db → ExchangeRequest.request_id r ≠ id) →
       status_code (viewExchange req_user (Some id) db).1 = 404)
  ∧ (∀ id R username u,
       ExchangeRequestsDAO.getExchangeRequestById id db = (Ok R, db) →
       UserService.getUserProfile username db = (Ok u, db) →
       ¬ listing_exists db (ExchangeRequest.requestee_listing_id R)
       ∨ ¬ listing_exists db (ExchangeRequest.requester_listing_id R) →
       status_code (viewExchange (Some username) (Some id) db).1 = 500).
Proof.
  assert (∀ k, ¬ listing_exists db k →
               get (λ l, BookListing.listing_id l = k) (book_listings db)
               = None) as Hgone.
  { intros k Hk. apply get_None. intros l Hl E. apply Hk.
    apply Exists_exists. eauto. }
  split; [|split; [|split]].
  - unfold viewExchange, bind, ExchangeService.getExchangeRequestById,
      BooksService.getBookListingById.
    destruct requestId as [id|]; [|done].
    destruct (get (λ r, ExchangeRequest.request_id r = id)
                  (exchange_requests db)) as [R|] eqn:HR.
    2: { by rewrite (getExchangeRequestById_missing _ _ HR). }
    rewrite (getExchangeRequestById_found _ _ _ HR).
    destruct req_user as [username|]; [|done].
    destruct (get (λ u, User.username u = username) (users db))
      as [u|] eqn:Hu.
    2: { by rewrite (getUserProfile_missing _ _ Hu). }
    rewrite (getUserProfile_found _ _ _ Hu).
    destruct (get (λ l, BookListing.listing_id l
                        = ExchangeRequest.requestee_listing_id R)
                  (book_listings db)) as [lee|] eqn:Hee.
    2: { by rewrite (getBookListingById_missing _ _ Hee). }
    rewrite (getBookListingById_found _ _ _ Hee).
    destruct (get (λ l, BookListing.listing_id l
                        = ExchangeRequest.requester_listing_id R)
                  (book_listings db)) as [ler|] eqn:Her.
    2: { by rewrite (getBookListingById_missing _ _ Her). }
    rewrite (getBookListingById_found _ _ _ Her).
    by destruct (decide _).
  - done.
  - intros id Habs.
    unfold viewExchange, bind, ExchangeService.getExchangeRequestById.
    rewrite getExchangeRequestById_missing; [done|]. by apply get_None.
  - intros id R username u HR%getExchangeRequestById_inv
           Hu%getUserProfile_inv Hmiss.
    unfold viewExchange, bind, ExchangeService.getExchangeRequestById,
      BooksService.getBookListingById.
    rewrite (getExchangeRequestById_found _ _ _ HR).
    rewrite (getUserProfile_found _ _ _ Hu).
    destruct (get (λ l, BookListing.listing_id l
                        = ExchangeRequest.requestee_listing_id R)
                  (book_listings db)) as [lee|] eqn:Hee.
    2: { by rewrite (getBookListingById_missing _ _ Hee). }
    rewrite (getBookListingById_found _ _ _ Hee).
    destruct Hmiss as [Hmiss|Hmiss]; apply Hgone in Hmiss; [congruence|].
    by rewrite (getBookListingById_missing _ _ Hmiss).
Qed.

Lemma view_route_reads_only_witness :
  status_code (viewExchange (Some "alice") (Some 99) (scenario true)).1 = 404
  ∧ status_code
      (viewExchange (Some "bob") (Some 3)
         (acceptExchange (Some "alice") (Some 1) (scenario false)).2).1
    = 500.
Proof.
  split.
  - pose proof (view_route_reads_only (scenario true) (Some "alice") None)
      as (_ & _ & Hmissing & _).
    apply Hmissing. for_each_row.
  - pose proof (view_route_reads_only
                  (acceptExchange (Some "alice") (Some 1) (scenario false)).2
                  None None) as (_ & _ & _ & Hgone).
    apply (Hgone 3 (ExchangeRequest.mk 3 300 200 "pending" 1700000500) "bob"
             (User.mk 2 "bob")); [by vm_compute | by vm_compute |].
    right. by_evaluation.
Defined.

(** ** More on the accept route *)

(** X18: every refusal of [PUT /exchanges/:id/accept] leaves the database as
    it was: any answer other than 200, whatever the caller and the id.  An
    id that does not parse is answered 400, a request without user 401, an id
    that is not stored 404, and a caller whose username is not registered
    500.  The 404 names the id; for an id below 2^53 in size, where a number
    prints as its digits, the text is "Exchange request with ID <id> not
    found". *)
Theorem accept_route_refusals_write_nothing db req_user requestId :
  (status_code (acceptExchange req_user requestId db).1 ≠ 200 →
   (acceptExchange req_user requestId db).2 = db)
  ∧ status_code (acceptExchange req_user None db).1 = 400
  ∧ (∀ id, status_code (acceptExchange None (Some id) db).1 = 401)
  ∧ (∀ id username,
       (∀ r, r ∈ exchange_requests db → ExchangeRequest.request_id r ≠ id) →
       status_code (acceptExchange (Some username) (Some id) db).1 = 404
       ∧ (Z.abs id < 2 ^ 53 →
          body (acceptExchange (Some username) (Some id) db).1
          = ErrorBody ("Exchange request with ID " +:+ pretty id
                       +:+ " not found")))
  ∧ (∀ id username R,
       ExchangeRequestsDAO.getExchangeRequestById id db = (Ok R, db) →
       (∀ u, u ∈ users db → User.username u ≠ username) →
       status_code (acceptExchange (Some username) (Some id) db).1 = 500).
Proof.
  split; [apply acceptExchange_failure_writes_nothing|].
  split; [done|]. split; [done|]. split.
  - intros id username Habs.
    unfold acceptExchange, bind, ExchangeService.getExchangeRequestById.
    rewrite getExchangeRequestById_missing; [done|]. by apply get_None.
  - intros id username R HR%getExchangeRequestById_inv Habs.
    unfold acceptExchange, bind, ExchangeService.getExchangeRequestById.
    rewrite (getExchangeRequestById_found _ _ _ HR).
    rewrite getUserProfile_missing; [done|]. by apply get_None.
Qed.

Lemma accept_route_refusals_write_nothing_witness :
  (acceptExchange (Some "bob") (Some 1) (scenario true)).2 = scenario true
  ∧ status_code (acceptExchange (Some "alice") (Some 99) (scenario true)).1
    = 404
  ∧ body (acceptExchange (Some "alice") (Some 99) (scenario true)).1
    = ErrorBody "Exchange request with ID 99 not found"
  ∧ status_code (acceptExchange (Some "erin") (Some 1) (scenario true)).1
    = 500.
Proof.
  split; [|split; [|split]].
  - pose proof (accept_route_refusals_write_nothing (scenario true)
                  (Some "bob") (Some 1)) as (Hsame & _).
    apply Hsame. by vm_compute.
  - pose proof (accept_route_refusals_write_nothing (scenario true) None None)
      as (_ & _ & _ & Hmissing & _).
    apply (Hmissing 99 "alice"). for_each_row.
  - pose proof (accept_route_refusals_write_nothing (scenario true) None None)
      as (_ & _ & _ & Hmissing & _).
    apply (Hmissing 99 "alice"); [for_each_row | lia].
  - pose proof (accept_route_refusals_write_nothing (scenario true) None None)
      as (_ & _ & _ & _ & Hcaller).
    apply (Hcaller 1 "erin"
             (ExchangeRequest.mk 1 100 200 "pending" 1700000300));
      [by vm_compute | for_each_row].
Defined.

Lemma deleteBookListing_users db id :
  users (BookListingsDAO.deleteBookListing id db).2 = users db.
Proof.
  unfold BookListingsDAO.deleteBookListing. simpl.
  by destruct (foreign_keys db && _).
Qed.

Lemma acceptExchange_not_found db username id :
  get (λ r, ExchangeRequest.request_id r = id) (exchange_requests db) = None →
  acceptExchange (Some username) (Some id) db
  = ({| status_code := 404;
        body := ErrorBody ("Exchange request with ID " +:+ pretty id
                           +:+ " not found") |}, db).
Proof.
  intros E. unfold acceptExchange, bind, ExchangeService.getExchangeRequestById.
  by rewrite (getExchangeRequestById_missing _ _ E).
Qed.

Lemma acceptExchange_listing_gone db username id R u :
  get (λ r, ExchangeRequest.request_id r = id) (exchange_requests db) = Some R →
  get (λ u, User.username u = username) (users db) = Some u →
  get (λ l, BookListing.listing_id l = ExchangeRequest.requestee_listing_id R)
      (book_listings db) = None →
  acceptExchange (Some username) (Some id) db
  = ({| status_code := 500; body := ErrorBody "Internal server error" |}, db).
Proof.
  intros HR Hu Hl.
  unfold acceptExchange, bind, ExchangeService.getExchangeRequestById,
    BooksService.getBookListingById.
  rewrite (getExchangeRequestById_found _ _ _ HR).
  rewrite (getUserProfile_found _ _ _ Hu).
  by rewrite (getBookListingById_missing _ _ Hl).
Qed.

(** X19: an exchange is accepted once.  After the owner's accept went
    through, the same call again is refused and writes nothing: with foreign
    keys enforced the request is gone with its listings and the answer is
    404; without them the request is still stored but its requestee listing
    is not, and the answer is 500. *)
Theorem accept_route_cannot_be_repeated db username u id R l :
  request_ids_unique db →
  ExchangeRequestsDAO.getExchangeRequestById id db = (Ok R, db) →
  UserService.getUserProfile username db = (Ok u, db) →
  BookListingsDAO.getBookListingById
    (ExchangeRequest.requestee_listing_id R) db = (Ok l, db) →
  BookListing.user_id l = User.user_id u →
  ∃ first db' second,
    acceptExchange (Some username) (Some id) db = (first, db')
    ∧ status_code first = 200
    ∧ acceptExchange (Some username) (Some id) db' = (second, db')
    ∧ status_code second = if foreign_keys db then 404 else 500.
Proof.
  intros Hnd HR%getExchangeRequestById_inv Hu%getUserProfile_inv
         Hl%getBookListingById_inv Hown.
  pose proof (get_Some _ _ _ HR) as [HRin Hid].
  pose proof (get_Some _ _ _ Hl) as [Hlin Hlid].
  set (X := ExchangeRequest.requestee_listing_id R) in *.
  set (Y := ExchangeRequest.requester_listing_id R).
  set (rowsA :=
         update_where
           (λ r, ExchangeRequest.requestee_listing_id r = X
                 ∧ ExchangeRequest.request_id r ≠ id)
           (ExchangeRequest.set_status "rejected")
           (update_where (λ r, ExchangeRequest.request_id r = id)
              (ExchangeRequest.set_status "accepted") (exchange_requests db))).
  set (dbA := with_exchange_requests rowsA db).
  set (db1 := (BookListingsDAO.deleteBookListing X dbA).2).
  set (db' := (BookListingsDAO.deleteBookListing Y db1).2).
  assert (acceptExchange (Some username) (Some id) db
          = ({| status_code := 200;
                body := ExchangeBody (ExchangeRequest.set_status "accepted" R) |},
             db')) as Hfirst.
  { rewrite (acceptExchange_owner _ _ _ _ _ _ HR Hu Hl Hown).
    by rewrite (acceptExchangeRequest_found _ _ _ HR). }
  assert (get (λ u, User.username u = username) (users db') = Some u) as Hu'.
  { subst db' db1. by rewrite !deleteBookListing_users. }
  assert (get (λ l, BookListing.listing_id l = X) (book_listings db') = None)
    as Hl'.
  { apply get_None. intros x. subst db' db1.
    rewrite !deleteBookListing_listings, !elem_of_delete_where. tauto. }
  assert (∀ r, r ∈ rowsA → ExchangeRequest.request_id r = id →
               r = ExchangeRequest.set_status "accepted" R) as HrowsA.
  { intros r Hr Erid. apply list_elem_of_lookup in Hr as [i Hr].
    destruct (lookup_lt_is_Some_2 (exchange_requests db) i) as [q0 Hq0].
    { apply lookup_lt_Some in Hr. subst rowsA. unfold update_where in Hr.
      by rewrite !length_fmap in Hr. }
    subst rowsA. rewrite (accept_rows_lookup _ _ _ _ _ Hq0) in Hr.
    injection Hr as <-.
    destruct (decide (ExchangeRequest.request_id q0 = id)) as [E0|E0].
    - f_equal. apply (request_ids_unique_eq db); [done| |done|congruence].
      by eapply list_elem_of_lookup_2.
    - destruct (decide (ExchangeRequest.requestee_listing_id q0 = X));
        simpl in Erid; by destruct E0. }
  exists {| status_code := 200;
            body := ExchangeBody (ExchangeRequest.set_status "accepted" R) |},
         db'.
  destruct (foreign_keys db) eqn:Hfk.
  - exists {| status_code := 404;
              body := ErrorBody ("Exchange request with ID " +:+ pretty id
                                 +:+ " not found") |}.
    split; [done|]. split; [done|]. split; [|done].
    apply acceptExchange_not_found, get_None. intros r Hr Erid.
    assert (r ∈ exchange_requests db1) as Hr1.
    { subst db'. rewrite deleteBookListing_requests in Hr.
      destruct (foreign_keys db1 && _); [|done].
      by apply elem_of_delete_where in Hr as [? _]. }
    subst db1. rewrite deleteBookListing_requests in Hr1.
    assert (foreign_keys dbA = true) as HfA by done.
    rewrite HfA in Hr1.
    rewrite bool_decide_eq_true_2 in Hr1.
    2: { apply changes_pos. by exists l. }
    simpl in Hr1. apply elem_of_delete_where in Hr1 as [HrA Hno].
    apply HrowsA in HrA; [|done]. apply Hno. left. by rewrite HrA.
  - exists {| status_code := 500; body := ErrorBody "Internal server error" |}.
    split; [done|]. split; [done|]. split; [|done].
    apply (acceptExchange_listing_gone _ _ _
             (ExchangeRequest.set_status "accepted" R) u); [|done|done].
    assert (exchange_requests db' = rowsA) as ->.
    { subst db' db1. rewrite !deleteBookListing_requests.
      rewrite !deleteBookListing_foreign_keys.
      assert (foreign_keys dbA = false) as -> by done. done. }
    subst rowsA. rewrite !get_by_id_update_where, HR. simpl.
    rewrite (decide_True (P := ExchangeRequest.request_id R = id)) by done.
    rewrite decide_False; [done|]. simpl. tauto.
Qed.

Lemma accept_route_cannot_be_repeated_witness :
  ∃ first db' second,
    acceptExchange (Some "alice") (Some 1) (scenario false) = (first, db')
    ∧ status_code first = 200
    ∧ acceptExchange (Some "alice") (Some 1) db' = (second, db')
    ∧ status_code second = 500.
Proof.
  apply (accept_route_cannot_be_repeated (scenario false) "alice"
           (User.mk 1 "alice") 1
           (ExchangeRequest.mk 1 100 200 "pending" 1700000300)
           (BookListing.mk 100 "worn" 1700000000 1 10));
    [by_evaluation | by vm_compute..].
Defined.

(** ** Invariants over every write *)

Lemma updateExchangeRequest_state db id updates :
  (ExchangeRequestsDAO.updateExchangeRequest id updates db).2 = db
  ∨ ((foreign_keys db = false ∨ ExchangeRequestsDAO.parents_ok db updates)
     ∧ (ExchangeRequestsDAO.updateExchangeRequest id updates db).2
       = with_exchange_requests
           (update_where (λ r, ExchangeRequest.request_id r = id)
              (ExchangeRequestsDAO.apply_updates updates)
              (exchange_requests db)) db).
Proof.
  destruct (get (λ r, ExchangeRequest.request_id r = id) (exchange_requests db))
    as [R|] eqn:E.
  2: { left. by rewrite (updateExchangeRequest_missing _ _ _ E). }
  destruct (foreign_keys db) eqn:Hfk.
  - destruct (decide (ExchangeRequestsDAO.parents_ok db updates)) as [Hp|Hp].
    + right. split; [by right|].
      by rewrite (updateExchangeRequest_found _ _ _ _ E) by (by right).
    + destruct (ExchangeRequestsDAO.has_fields updates) eqn:Hf.
      * left.
        unfold ExchangeRequestsDAO.updateExchangeRequest, transaction,
          try_catch, bind, ExchangeRequestsDAO.run_update.
        rewrite Hf, Hfk, (bool_decide_eq_false_2 _ Hp).
        rewrite bool_decide_eq_true_2; [done|].
        unfold get in E. intros Hnil. by rewrite Hnil in E.
      * left.
        unfold ExchangeRequestsDAO.updateExchangeRequest, transaction,
          try_catch, bind.
        rewrite Hf. simpl.
        by rewrite (getExchangeRequestById_found _ _ _ E).
  - right. split; [by left|].
    by rewrite (updateExchangeRequest_found _ _ _ _ E) by (by left).
Qed.

Lemma acceptExchange_state db req_user requestId :
  (acceptExchange req_user requestId db).2 = db
  ∨ ∃ id R l,
      requestId = Some id
      ∧ get (λ r, ExchangeRequest.request_id r = id) (exchange_requests db)
        = Some R
      ∧ get (λ l, BookListing.listing_id l
                  = ExchangeRequest.requestee_listing_id R)
            (book_listings db) = Some l
      ∧ (acceptExchange req_user requestId db).2
        = (BookListingsDAO.deleteBookListing
             (ExchangeRequest.requester_listing_id R)
             (BookListingsDAO.deleteBookListing
                (ExchangeRequest.requestee_listing_id R)
                (ExchangeRequestsDAO.acceptExchangeRequest id db).2).2).2.
Proof.
  destruct (decide (status_code (acceptExchange req_user requestId db).1 = 200))
    as [H200|Hno]; [|left; by apply acceptExchange_failure_writes_nothing].
  revert H200. unfold acceptExchange, bind.
  destruct requestId as [id|]; [|done].
  destruct req_user as [username|]; [|done].
  unfold ExchangeService.getExchangeRequestById,
    BooksService.getBookListingById, ExchangeService.acceptExchangeRequest,
    BooksService.deleteBookListing.
  destruct (get (λ r, ExchangeRequest.request_id r = id) (exchange_requests db))
    as [R|] eqn:HR.
  2: { by rewrite (getExchangeRequestById_missing _ _ HR). }
  rewrite (getExchangeRequestById_found _ _ _ HR).
  destruct (get (λ u, User.username u = username) (users db)) as [u|] eqn:Hu.
  2: { by rewrite (getUserProfile_missing _ _ Hu). }
  rewrite (getUserProfile_found _ _ _ Hu).
  destruct (get (λ l, BookListing.listing_id l
                      = ExchangeRequest.requestee_listing_id R)
                (book_listings db)) as [l|] eqn:Hl.
  2: { by rewrite (getBookListingById_missing _ _ Hl). }
  rewrite (getBookListingById_found _ _ _ Hl).
  destruct (decide (BookListing.user_id l ≠ User.user_id u)); [done|].
  rewrite (acceptExchangeRequest_found _ _ _ HR). intros _.
  right. exists id, R, l. by rewrite (acceptExchangeRequest_found _ _ _ HR).
Qed.

(** X20: no write of the stores or of the accept route gives two requests
    the same [request_id]: if the ids are pairwise different before, they
    are after [createExchangeRequest] (DAO and service), both updates,
    [acceptExchangeRequest], the three deletes of requests and listings, the
    bulk deletes of listings and [PUT /exchanges/:id/accept]. *)
Theorem request_ids_stay_unique db :
  request_ids_unique db →
  (∀ now req,
     request_ids_unique
       (ExchangeRequestsDAO.createExchangeRequest now req db).2)
  ∧ (∀ now a b,
       request_ids_unique (ExchangeService.createExchangeRequest now a b db).2)
  ∧ (∀ id s,
       request_ids_unique
         (ExchangeRequestsDAO.updateExchangeRequestStatus id s db).2)
  ∧ (∀ id updates,
       request_ids_unique
         (ExchangeRequestsDAO.updateExchangeRequest id updates db).2)
  ∧ (∀ id,
       request_ids_unique (ExchangeRequestsDAO.acceptExchangeRequest id db).2)
  ∧ (∀ id,
       request_ids_unique (ExchangeRequestsDAO.deleteExchangeRequest id db).2)
  ∧ (∀ id,
       request_ids_unique
         (ExchangeRequestsDAO.deleteExchangeRequestsByListing id db).2)
  ∧ (∀ id, request_ids_unique (BookListingsDAO.deleteBookListing id db).2)
  ∧ (∀ ids,
       request_ids_unique (BookListingsDAO.deleteMultipleBookListings ids db).2)
  ∧ (∀ key,
       request_ids_unique (BookListingsDAO.deleteBookListingsByUser key db).2
       ∧ request_ids_unique
           (BookListingsDAO.deleteBookListingsByBook key db).2)
  ∧ (∀ req_user requestId,
       request_ids_unique (acceptExchange req_user requestId db).2).
Proof.
  intros Hnd.
  pose proof (request_ids_unique_preserved db Hnd)
    as (Hcreate & Hstatus & Haccept & Hdelete & Hlisting).
  assert (∀ db0 db1,
            request_ids_unique db0 →
            exchange_requests db1 `sublist_of` exchange_requests db0 →
            request_ids_unique db1) as Hsub.
  { unfold request_ids_unique. intros db0 db1 H0 Hs.
    eapply sublist_NoDup; [exact H0|]. by apply fmap_sublist. }
  split; [done|]. split.
  { intros now a b.
    destruct (ExchangeService.createExchangeRequest now a b db)
      as [[r|e] db1] eqn:Hrun.
    - apply service_create_inv in Hrun as (_ & _ & _ & _ & _ & _ & -> & ->).
      by apply request_ids_unique_after_insert.
    - revert Hrun.
      unfold ExchangeService.createExchangeRequest, try_catch, bind.
      rewrite exchangeRequestExists_run. destruct (bool_decide _).
      + simpl. by intros [= _ <-].
      + fold (proposal now a b).
        destruct (createExchangeRequest_cases db now (proposal now a b))
          as [[e' ->] | (s & date & _ & _ & ->)]; [|done].
        by destruct (decide _); intros [= _ <-]. }
  split; [done|]. split.
  { intros id updates.
    destruct (updateExchangeRequest_state db id updates) as [->|[_ ->]];
      [done|].
    unfold request_ids_unique. simpl.
    unfold update_where. rewrite <- list_fmap_compose.
    erewrite list_fmap_ext; [exact Hnd|].
    intros _ r _. simpl. by destruct (decide _). }
  split; [done|]. split; [done|]. split.
  { intros id. unfold request_ids_unique. simpl.
    by apply NoDup_fmap_delete_where. }
  split; [done|]. split.
  { intros ids.
    destruct (deleteMultipleBookListings_requests db ids)
      as (n & db1 & -> & Hs & _). by apply (Hsub db). }
  split.
  { intros key. split; apply (Hsub db); try done;
      apply delete_listings_requests_sub. }
  intros req_user requestId.
  destruct (acceptExchange_state db req_user requestId)
    as [->|(id & R & l & _ & _ & _ & ->)]; [done|].
  pose proof (Haccept id) as HA.
  apply request_ids_unique_preserved in HA as (_ & _ & _ & _ & HdelA).
  pose proof (HdelA (ExchangeRequest.requestee_listing_id R)) as H1.
  apply request_ids_unique_preserved in H1 as (_ & _ & _ & _ & Hdel1).
  apply Hdel1.
Qed.

Lemma request_ids_stay_unique_witness :
  request_ids_unique
    (acceptExchange (Some "alice") (Some 1) (scenario false)).2
  ∧ request_ids_unique
      (ExchangeService.createExchangeRequest 1700000800999 300 100
         (scenario true)).2.
Proof.
  assert (request_ids_unique (scenario false)) as H0 by by_evaluation.
  assert (request_ids_unique (scenario true)) as H1 by by_evaluation.
  pose proof (request_ids_stay_unique (scenario false) H0)
    as (_ & _ & _ & _ & _ & _ & _ & _ & _ & _ & Hroute).
  pose proof (request_ids_stay_unique (scenario true) H1)
    as (_ & Hcreate & _).
  split; [apply Hroute | apply Hcreate].
Defined.

Lemma references_ok_same_keys db db1 :
  references_ok db →
  BookListing.listing_id <$> book_listings db1
  = BookListing.listing_id <$> book_listings db →
  Forall (λ q, ∃ q0, q0 ∈ exchange_requests db
                     ∧ ExchangeRequest.requestee_listing_id q
                       = ExchangeRequest.requestee_listing_id q0
                     ∧ ExchangeRequest.requester_listing_id q
                       = ExchangeRequest.requester_listing_id q0)
         (exchange_requests db1) →
  references_ok db1.
Proof.
  unfold references_ok, listing_exists. rewrite !Forall_forall.
  intros Hok Hkeys Hreq q Hq.
  destruct (Hreq q Hq) as (q0 & Hq0 & -> & ->).
  assert (∀ k, Exists (λ l, BookListing.listing_id l = k) (book_listings db)
               → Exists (λ l, BookListing.listing_id l = k)
                   (book_listings db1)) as Hk.
  { intros k. rewrite !Exists_exists. intros (l & Hl & E).
    assert (k ∈ BookListing.listing_id <$> book_listings db1) as Hin.
    { rewrite Hkeys, <- E. by apply list_elem_of_fmap_2. }
    apply list_elem_of_fmap in Hin as (l1 & -> & Hl1). eauto. }
  destruct (Hok q0 Hq0). split; by apply Hk.
Qed.

(** X21: while foreign keys are enforced, no write leaves a request that
    references a listing that is not stored: if every request references
    stored listings before, the same holds after a status update, a field
    update, [deleteExchangeRequestsByListing], the bulk deletes of listings
    and [PUT /exchanges/:id/accept], whatever their arguments. *)
Theorem stored_requests_keep_stored_listings db :
  foreign_keys db = true →
  references_ok db →
  (∀ id s,
     references_ok (ExchangeRequestsDAO.updateExchangeRequestStatus id s db).2)
  ∧ (∀ id updates,
       references_ok (ExchangeRequestsDAO.updateExchangeRequest id updates db).2)
  ∧ (∀ id,
       references_ok
         (ExchangeRequestsDAO.deleteExchangeRequestsByListing id db).2)
  ∧ (∀ ids,
       references_ok (BookListingsDAO.deleteMultipleBookListings ids db).2)
  ∧ (∀ key,
       references_ok (BookListingsDAO.deleteBookListingsByUser key db).2
       ∧ references_ok (BookListingsDAO.deleteBookListingsByBook key db).2)
  ∧ (∀ req_user requestId,
       references_ok (acceptExchange req_user requestId db).2).
Proof.
  intros Hfk Hok. split; [|split; [|split; [|split; [|split]]]].
  - intros id s.
    destruct (get (λ r, ExchangeRequest.request_id r = id)
                  (exchange_requests db)) as [R|] eqn:E.
    2: { by rewrite (updateExchangeRequestStatus_missing _ _ _ E). }
    rewrite (updateExchangeRequestStatus_found _ _ _ _ E).
    apply (references_ok_same_keys db); [done..|]. simpl.
    unfold update_where. apply Forall_fmap, Forall_forall. intros q Hq.
    exists q. simpl. by destruct (decide _).
  - intros id updates.
    destruct (updateExchangeRequest_state db id updates)
      as [->|[[Hoff|[Hee Her]] ->]]; [done|congruence|].
    unfold references_ok in *. simpl. unfold update_where.
    rewrite Forall_forall in Hok. apply Forall_fmap, Forall_forall.
    intros q Hq. simpl. destruct (Hok q Hq) as [Hqe Hqr].
    destruct (decide _); [|done].
    unfold ExchangeRequestsDAO.apply_updates. simpl.
    destruct (upd_requestee_listing_id updates),
      (upd_requester_listing_id updates); simpl in *; done.
  - intros id. unfold references_ok, listing_exists in *. simpl.
    apply Forall_forall. intros q Hq%elem_of_delete_where.
    rewrite Forall_forall in Hok. apply Hok. tauto.
  - intros ids.
    destruct (deleteMultipleBookListings_requests db ids)
      as (n & db1 & -> & _ & H). by apply H.
  - intros key. split; by apply references_ok_delete_listings.
  - intros req_user requestId.
    destruct (acceptExchange_state db req_user requestId)
      as [->|(id & R & l & _ & HR & Hl & ->)]; [done|].
    pose proof (references_ok_preserved db Hfk Hok) as (_ & HA & _).
    specialize (HA id).
    assert (foreign_keys (ExchangeRequestsDAO.acceptExchangeRequest id db).2
            = true) as HfA
      by (by rewrite (acceptExchangeRequest_found _ _ _ HR)).
    pose proof (references_ok_preserved _ HfA HA) as (_ & _ & _ & H1).
    specialize (H1 (ExchangeRequest.requestee_listing_id R)).
    eapply references_ok_preserved; [|exact H1].
    by rewrite deleteBookListing_foreign_keys.
Qed.

Lemma stored_requests_keep_stored_listings_witness :
  references_ok
    (BookListingsDAO.deleteBookListingsByUser 3 (scenario true)).2
  ∧ references_ok
      (ExchangeRequestsDAO.updateExchangeRequest 1
         {| upd_requestee_listing_id := Some 999;
            upd_requester_listing_id := None;
            upd_status := None; upd_request_date := None |}
         (scenario true)).2.
Proof.
  assert (references_ok (scenario true)) as H0 by by_evaluation.
  pose proof (stored_requests_keep_stored_listings (scenario true) eq_refl H0)
    as (_ & Hupdate & _ & _ & Hbulk & _).
  split; [apply Hbulk | apply Hupdate].
Defined.

(** X22: on a connection that does not enforce foreign keys, the owner's
    accept deletes the two listings and no request: the requests are exactly
    those [acceptExchangeRequest] left, the accepted one included, and it now
    references two listings that are not stored. *)
Theorem accept_without_foreign_keys_deletes_no_request
    db username u id R l :
  foreign_keys db = false →
  ExchangeRequestsDAO.getExchangeRequestById id db = (Ok R, db) →
  UserService.getUserProfile username db = (Ok u, db) →
  BookListingsDAO.getBookListingById
    (ExchangeRequest.requestee_listing_id R) db = (Ok l, db) →
  BookListing.user_id l = User.user_id u →
  ∃ response db',
    acceptExchange (Some username) (Some id) db = (response, db')
    ∧ status_code response = 200
    ∧ exchange_requests db'
      = exchange_requests (ExchangeRequestsDAO.acceptExchangeRequest id db).2
    ∧ ExchangeRequestsDAO.getExchangeRequestById id db'
      = (Ok (ExchangeRequest.set_status "accepted" R), db')
    ∧ ¬ listing_exists db' (ExchangeRequest.requestee_listing_id R)
    ∧ ¬ listing_exists db' (ExchangeRequest.requester_listing_id R)
    ∧ ¬ references_ok db'.
Proof.
  intros Hfk HR%getExchangeRequestById_inv Hu%getUserProfile_inv
         Hl%getBookListingById_inv Hown.
  pose proof (get_Some _ _ _ HR) as [_ Hid].
  eexists _, _. split; [by eapply acceptExchange_owner|].
  split; [done|].
  match goal with |- ?a = ?b ∧ _ => assert (a = b) as Hrows end.
  { rewrite !deleteBookListing_requests, !deleteBookListing_foreign_keys.
    rewrite (acceptExchangeRequest_found _ _ _ HR).
    cbn [snd foreign_keys with_exchange_requests]. by rewrite Hfk. }
  split; [exact Hrows|].
  match goal with |- ?a = ?b ∧ _ => assert (a = b) as Hget end.
  { apply getExchangeRequestById_found. rewrite Hrows.
    rewrite (acceptExchangeRequest_found _ _ _ HR). simpl.
    rewrite !get_by_id_update_where, HR. simpl.
    rewrite (decide_True (P := ExchangeRequest.request_id R = id)) by done.
    rewrite decide_False; [done|]. simpl. tauto. }
  split; [exact Hget|].
  assert (∀ k, listing_exists
                 (BookListingsDAO.deleteBookListing
                    (ExchangeRequest.requester_listing_id R)
                    (BookListingsDAO.deleteBookListing
                       (ExchangeRequest.requestee_listing_id R)
                       (ExchangeRequestsDAO.acceptExchangeRequest id db).2).2).2
                 k →
               k ≠ ExchangeRequest.requestee_listing_id R
               ∧ k ≠ ExchangeRequest.requester_listing_id R) as Hgone.
  { intros k. rewrite !listing_exists_after_delete. tauto. }
  split; [intros H%Hgone; tauto|]. split; [intros H%Hgone; tauto|].
  intros Hok. unfold references_ok in Hok. rewrite Forall_forall in Hok.
  apply getExchangeRequestById_inv, get_Some in Hget as [Hin _].
  apply Hok in Hin as [Hee _]. apply Hgone in Hee. simpl in Hee. tauto.
Qed.

Lemma accept_without_foreign_keys_deletes_no_request_witness :
  ∃ response db',
    acceptExchange (Some "alice") (Some 1) (scenario false) = (response, db')
    ∧ status_code response = 200
    ∧ exchange_requests db'
      = exchange_requests
          (ExchangeRequestsDAO.acceptExchangeRequest 1 (scenario false)).2
    ∧ ExchangeRequestsDAO.getExchangeRequestById 1 db'
      = (Ok (ExchangeRequest.mk 1 100 200 "accepted" 1700000300), db')
    ∧ ¬ listing_exists db' 100
    ∧ ¬ listing_exists db' 200
    ∧ ¬ references_ok db'.
Proof.
  apply (accept_without_foreign_keys_deletes_no_request (scenario false)
           "alice" (User.mk 1 "alice") 1
           (ExchangeRequest.mk 1 100 200 "pending" 1700000300)
           (BookListing.mk 100 "worn" 1700000000 1 10));
    vm_compute; reflexivity.
Defined.

(** ** [updateBookListing] on a stored listing *)

Lemma updateBookListing_found db id updates l :
  get (λ l, BookListing.listing_id l = id) (book_listings db) = Some l →
  foreign_keys db = false ∨ BookListingsDAO.parents_ok db updates →
  BookListingsDAO.updateBookListing id updates db
  = (Ok (BookListingsDAO.apply_updates updates l),
     with_book_listings
       (update_where (λ l, BookListing.listing_id l = id)
          (BookListingsDAO.apply_updates updates) (book_listings db))
       db).
Proof.
  intros E Hfk. pose proof (get_Some _ _ _ E) as [_ Hid].
  assert (get (λ l, BookListing.listing_id l = id)
              (update_where (λ l, BookListing.listing_id l = id)
                 (BookListingsDAO.apply_updates updates) (book_listings db))
          = Some (BookListingsDAO.apply_updates updates l)) as Hback.
  { unfold update_where. rewrite get_fmap_preserve.
    - rewrite E. simpl. by rewrite decide_True.
    - intros r. by destruct (decide _). }
  unfold BookListingsDAO.updateBookListing, transaction, try_catch, bind.
  destruct (BookListingsDAO.has_fields updates) eqn:Hf.
  - unfold BookListingsDAO.run_update.
    assert (foreign_keys db
            && bool_decide (filter (λ l, BookListing.listing_id l = id)
                              (book_listings db) ≠ [])
            && negb (bool_decide (BookListingsDAO.parents_ok db updates))
            = false) as ->.
    { destruct Hfk as [-> | Hp]; [done|].
      rewrite (bool_decide_eq_true_2 _ Hp). apply andb_false_r. }
    unfold write. by erewrite getBookListingById_found.
  - simpl. rewrite (getBookListingById_found _ _ _ E).
    assert (∀ x, BookListingsDAO.apply_updates updates x = x) as Hnone.
    { intros x. unfold BookListingsDAO.has_fields in Hf.
      apply bool_decide_eq_false in Hf.
      destruct updates as [[a|] [b|] [c|] [d|]]; simpl in *;
        try (destruct Hf; eauto 10; fail).
      by destruct x. }
    rewrite Hnone. do 2 f_equal.
    rewrite update_where_none; [by rewrite with_book_listings_id|].
    intros x _ _. apply Hnone.
Qed.

(** X23: [updateBookListing] on a stored listing writes the given keys and
    nothing else: the result is the stored listing with those keys replaced
    and is what [getBookListingById] returns afterwards, every listing keeps
    its [listing_id], a listing with another id is as before, and no request
    is touched.  (The statement runs when foreign keys are not enforced or
    the user and book written exist.) *)
Theorem updateBookListing_writes_given_fields_only db id updates l :
  BookListingsDAO.getBookListingById id db = (Ok l, db) →
  foreign_keys db = false ∨ BookListingsDAO.parents_ok db updates →
  ∃ db',
    BookListingsDAO.updateBookListing id updates db
    = (Ok (BookListingsDAO.apply_updates updates l), db')
    ∧ BookListing.listing_id (BookListingsDAO.apply_updates updates l) = id
    ∧ BookListingsDAO.getBookListingById id db'
      = (Ok (BookListingsDAO.apply_updates updates l), db')
    ∧ BookListing.listing_id <$> book_listings db'
      = BookListing.listing_id <$> book_listings db
    ∧ (∀ i x, book_listings db !! i = Some x →
              BookListing.listing_id x ≠ id →
              book_listings db' !! i = Some x)
    ∧ db' = with_book_listings (book_listings db') db.
Proof.
  intros E%getBookListingById_inv Hfk.
  pose proof (get_Some _ _ _ E) as [_ Hid].
  eexists. split; [by apply updateBookListing_found|]. simpl.
  split; [done|]. split; [|split; [|split]].
  - apply getBookListingById_found. simpl.
    unfold update_where. rewrite get_fmap_preserve.
    + rewrite E. simpl. by rewrite decide_True.
    + intros r. by destruct (decide _).
  - unfold update_where. rewrite <- list_fmap_compose.
    apply list_fmap_ext. intros _ r _. simpl. by destruct (decide _).
  - intros i x Hx Hne. rewrite update_where_lookup, Hx. simpl.
    by rewrite decide_False.
  - done.
Qed.

Lemma updateBookListing_writes_given_fields_only_witness :
  ∃ db',
    BookListingsDAO.updateBookListing 200
      {| upd_description := Some "as new"; upd_list_on_date := None;
         upd_user_id := None; upd_book_id := Some 30 |} (scenario true)
    = (Ok (BookListing.mk 200 "as new" 1700000100 2 30), db')
    ∧ BookListing.listing_id (BookListing.mk 200 "as new" 1700000100 2 30)
      = 200
    ∧ BookListingsDAO.getBookListingById 200 db'
      = (Ok (BookListing.mk 200 "as new" 1700000100 2 30), db')
    ∧ BookListing.listing_id <$> book_listings db'
      = BookListing.listing_id <$> book_listings (scenario true)
    ∧ (∀ i x, book_listings (scenario true) !! i = Some x →
              BookListing.listing_id x ≠ 200 →
              book_listings db' !! i = Some x)
    ∧ db' = with_book_listings (book_listings db') (scenario true).
Proof.
  apply (updateBookListing_writes_given_fields_only (scenario true) 200
           {| upd_description := Some "as new"; upd_list_on_date := None;
              upd_user_id := None; upd_book_id := Some 30 |}
           (BookListing.mk 200 "good" 1700000100 2 20)).
  - vm_compute. reflexivity.
  - right. by_evaluation.
Defined.

(** X24: with foreign keys enforced, an update of a stored listing that
    writes a user or book id that is not stored fails with a plain [Error]
    carrying the engine's message, and the transaction is rolled back: the
    database is as before.  The same holds, on its own, for an update of a
    stored request that writes a listing id that is not stored. *)
Theorem update_to_missing_parent_is_rolled_back db :
  foreign_keys db = true →
  (∀ lid l lupdates,
     BookListingsDAO.getBookListingById lid db = (Ok l, db) →
     ¬ BookListingsDAO.parents_ok db lupdates →
     BookListingsDAO.updateBookListing lid lupdates db
     = (Throw {| name := PlainError;
                 message := "Failed to update listing: FOREIGN KEY constraint failed" |},
        db))
  ∧ (∀ rid R rupdates,
       ExchangeRequestsDAO.getExchangeRequestById rid db = (Ok R, db) →
       ¬ ExchangeRequestsDAO.parents_ok db rupdates →
       ExchangeRequestsDAO.updateExchangeRequest rid rupdates db
       = (Throw {| name := PlainError;
                   message := "Failed to update exchange request: FOREIGN KEY constraint failed" |},
          db)).
Proof.
  intros Hfk. split.
  - intros lid l lupdates El%getBookListingById_inv Hl.
    unfold BookListingsDAO.updateBookListing, transaction, try_catch, bind,
      BookListingsDAO.run_update.
    assert (BookListingsDAO.has_fields lupdates = true) as ->.
    { apply bool_decide_eq_true. unfold BookListingsDAO.parents_ok in Hl.
      destruct (upd_user_id lupdates), (upd_book_id lupdates);
        simpl in *; eauto; tauto. }
    rewrite Hfk, (bool_decide_eq_false_2 _ Hl).
    rewrite bool_decide_eq_true_2; [done|].
    unfold get in El. intros Hnil. by rewrite Hnil in El.
  - intros rid R rupdates ER%getExchangeRequestById_inv Hr.
    unfold ExchangeRequestsDAO.updateExchangeRequest, transaction, try_catch,
      bind, ExchangeRequestsDAO.run_update.
    assert (ExchangeRequestsDAO.has_fields rupdates = true) as ->.
    { apply bool_decide_eq_true. unfold ExchangeRequestsDAO.parents_ok in Hr.
      destruct (upd_requestee_listing_id rupdates),
        (upd_requester_listing_id rupdates); simpl in *; eauto; tauto. }
    rewrite Hfk, (bool_decide_eq_false_2 _ Hr).
    rewrite bool_decide_eq_true_2; [done|].
    unfold get in ER. intros Hnil. by rewrite Hnil in ER.
Qed.

Lemma update_to_missing_parent_is_rolled_back_witness :
  exchange_requests (with_exchange_requests [] (scenario true)) = []
  ∧ BookListingsDAO.updateBookListing 100
      {| upd_description := None; upd_list_on_date := None;
         upd_user_id := Some 9; upd_book_id := None |}
      (with_exchange_requests [] (scenario true))
    = (Throw {| name := PlainError;
                message := "Failed to update listing: FOREIGN KEY constraint failed" |},
       with_exchange_requests [] (scenario true))
  ∧ ExchangeRequestsDAO.updateExchangeRequest 1
      {| upd_requestee_listing_id := Some 999;
         upd_requester_listing_id := None;
         upd_status := Some "accepted"; upd_request_date := None |}
      (scenario true)
    = (Throw {| name := PlainError;
                message := "Failed to update exchange request: FOREIGN KEY constraint failed" |},
       scenario true).
Proof.
  split; [reflexivity|]. split.
  - apply (proj1 (update_to_missing_parent_is_rolled_back
                    (with_exchange_requests [] (scenario true)) eq_refl)
             100 (BookListing.mk 100 "worn" 1700000000 1 10)).
    + vm_compute. reflexivity.
    + intros [H _]. revert H. apply (bool_decide_unpack _). vm_compute.
      exact I.
  - apply (proj2 (update_to_missing_parent_is_rolled_back (scenario true)
                    eq_refl)
             1 (ExchangeRequest.mk 1 100 200 "pending" 1700000300)).
    + vm_compute. reflexivity.
    + intros [H _]. revert H. apply (bool_decide_unpack _). vm_compute.
      exact I.
Defined.

(** ** The bulk deletes on the running example *)

Lemma bulk_delete_removes_the_listings_of_one_owner_witness :
  ∃ db1,
    BookListingsDAO.deleteBookListingsByUser 3 (scenario true) = (Ok 1, db1)
    ∧ BookListing.listing_id <$> book_listings db1 = [100; 200; 400]
    ∧ ExchangeRequest.request_id <$> exchange_requests db1 = [1; 5]
    ∧ references_ok db1.
Proof.
  destruct (bulk_delete_removes_the_listings_of_one_owner (scenario true) 3)
    as [(n & db1 & Hrun & _ & _ & _ & _ & Hok) _].
  exists db1. vm_compute in Hrun. injection Hrun as <- <-.
  split; [reflexivity|]. split; [reflexivity|]. split; [reflexivity|].
  apply Hok; [reflexivity | by_evaluation].
Defined.

Lemma deleteMultipleBookListings_removes_listed_ids_witness :
  ∃ db1,
    BookListingsDAO.deleteMultipleBookListings [100; 100; 700; 300]
      (scenario true) = (Ok 2, db1)
    ∧ BookListing.listing_id <$> book_listings db1 = [200; 400]
    ∧ references_ok db1.
Proof.
  destruct (deleteMultipleBookListings_removes_listed_ids (scenario true)
              [100; 100; 700; 300])
    as (n & db1 & Hrun & _ & _ & _ & _ & Hok).
  exists db1. vm_compute in Hrun. injection Hrun as <- <-.
  split; [reflexivity|]. split; [reflexivity|].
  apply Hok; [reflexivity | by_evaluation].
Defined.
